(** * GATT service collection of bleak: [bleak/backends/service.py]

    A shallow embedding of [BleakGATTService] and
    [BleakGATTServiceCollection], and the properties of insertion and lookup
    that the design document states about them.

    Python objects are mutable and are passed by reference: the same
    characteristic object sits in the collection's flat dictionary and in the
    list of its parent service.  The embedding therefore keeps an object
    store (references to object states) next to the three dictionaries of the
    collection, and every method is a computation over that state which
    either returns a value or raises an exception; the state reached when an
    exception is raised is kept, as in Python. *)

From Stdlib Require Import ZArith NArith List String Ascii Bool Arith Lia.
Import ListNotations.

(** ** Strings

    A [str] is modelled as a [string] whose characters are the code points
    below 256; UUID strings only use hexadecimal digits and dashes.  On this
    alphabet [str.lower] keeps the number of characters.  Beyond it that is
    not so (the lower case of [U+0130] has two code points), and the code
    tests [len(...) == 4] once before and once after it lower-cases: a
    property that depends on the two lengths being the same says so in a
    hypothesis, and no proof uses that the modelled [lower] keeps the
    length. *)

Local Open Scope string_scope.

(** [str.lower] on one character: the upper-case letters below 256 are
    [A]..[Z] and [U+00C0]..[U+00DE] without the multiplication sign [U+00D7];
    each is 32 below its lower-case letter. *)
Definition lower_char (c : ascii) : ascii :=
  let n := nat_of_ascii c in
  if (Nat.leb 65 n && Nat.leb n 90)
     || (Nat.leb 192 n && Nat.leb n 222 && negb (Nat.eqb n 215))
  then ascii_of_nat (n + 32)
  else c.

Fixpoint lower (s : string) : string :=
  match s with
  | EmptyString => EmptyString
  | String c rest => String (lower_char c) (lower rest)
  end.

Definition len (s : string) : nat := String.length s.

(** The f-string [f"0000{uuid}-0000-1000-8000-00805f9b34fb"]. *)
Definition base_uuid_template (short : string) : string :=
  "0000" ++ short ++ "-0000-1000-8000-00805f9b34fb".

(** *** [uuid.UUID] of the Python library

    A [UUID] object is its 128-bit integer; [str] prints it as 32 lower-case
    hexadecimal digits cut 8-4-4-4-12. *)

Definition hex_digit (d : N) : ascii :=
  match d with
  | 0%N => "0"%char | 1%N => "1"%char | 2%N => "2"%char | 3%N => "3"%char
  | 4%N => "4"%char | 5%N => "5"%char | 6%N => "6"%char | 7%N => "7"%char
  | 8%N => "8"%char | 9%N => "9"%char | 10%N => "a"%char | 11%N => "b"%char
  | 12%N => "c"%char | 13%N => "d"%char | 14%N => "e"%char | _ => "f"%char
  end.

(** ['%0<width>x' % n], for [n] below [16 ^ width]. *)
Fixpoint hex_fixed (width : nat) (n : N) (acc : string) : string :=
  match width with
  | O => acc
  | S w => hex_fixed w (N.shiftr n 4) (String (hex_digit (N.land n 15)) acc)
  end.

Definition uuid_to_str (n : N) : string :=
  let hex := hex_fixed 32 n "" in
  substring 0 8 hex ++ "-" ++ substring 8 4 hex ++ "-" ++ substring 12 4 hex
    ++ "-" ++ substring 16 4 hex ++ "-" ++ substring 20 12 hex.

(** A UUID argument, [Union[str, UUID]]. *)
Inductive UuidArg : Type :=
| UuidStr (s : string)
| UuidObj (n : N).

(** [type(uuid) == str] *)
Definition is_str (u : UuidArg) : bool :=
  match u with
  | UuidStr _ => true
  | UuidObj _ => false
  end.

(** [str(uuid)] *)
Definition str (u : UuidArg) : string :=
  match u with
  | UuidStr s => s
  | UuidObj n => uuid_to_str n
  end.

(** A specifier, [Union[int, str, UUID]]; [isinstance(specifier, int)] holds
    of [Handle] only. *)
Inductive Specifier : Type :=
| Handle (h : Z)
| ByUuid (u : UuidArg).

(** ** Dictionaries

    The three dictionaries of the collection have integer keys and object
    references as values.  A Python [dict] iterates in insertion order, so a
    dictionary is the list of its items in that order, with distinct keys. *)

Definition ref : Type := nat.

Definition dict : Type := list (Z * ref).

(** [key == probe], for a key that is an [int]: an [int] equals no [str] and
    no [UUID]. *)
Definition key_eq (k : Z) (probe : Specifier) : bool :=
  match probe with
  | Handle h => Z.eqb k h
  | ByUuid _ => false
  end.

(** [d.get(probe)] *)
Fixpoint dict_get (d : dict) (probe : Specifier) : option ref :=
  match d with
  | [] => None
  | (k, v) :: rest => if key_eq k probe then Some v else dict_get rest probe
  end.

(** [k in d] *)
Definition dict_contains (d : dict) (k : Z) : bool :=
  match dict_get d (Handle k) with
  | Some _ => true
  | None => false
  end.

(** [d[k] = v]: the value of an existing key is replaced where it stands, a
    new key goes to the end. *)
Fixpoint dict_setitem (d : dict) (k : Z) (v : ref) : dict :=
  match d with
  | [] => [(k, v)]
  | (k', v') :: rest =>
      if Z.eqb k' k then (k', v) :: rest else (k', v') :: dict_setitem rest k v
  end.

(** [d.values()] *)
Definition dict_values (d : dict) : list ref := map snd d.

(** ** Objects, state and exceptions *)

(** A service object: what the abstract properties [handle], [uuid] and
    [characteristics] of [BleakGATTService] read.  The list holds references
    to characteristic objects.  (The backend payload [obj] plays no part in
    the collection and is left out.) *)
Record ServiceObj : Type := {
  svc_handle : Z;
  svc_uuid : string;
  svc_characteristics : list ref
}.

(** A characteristic object ([bleak.backends.characteristic]). *)
Record CharacteristicObj : Type := {
  chr_handle : Z;
  chr_uuid : string;
  chr_service_handle : Z;
  chr_descriptors : list ref
}.

(** A descriptor object ([bleak.backends.descriptor]). *)
Record DescriptorObj : Type := {
  dsc_handle : Z;
  dsc_uuid : string;
  dsc_characteristic_handle : Z
}.

(** A call [logger.error(fmt, arg)]. *)
Inductive LogRecord : Type :=
| LogError (fmt : string) (arg : Z).

(** The object stores, the three private dictionaries of the collection
    [self], and the records the module's logger has received (oldest
    first). *)
Record State : Type := {
  service_objs : ref -> ServiceObj;
  characteristic_objs : ref -> CharacteristicObj;
  descriptor_objs : ref -> DescriptorObj;
  __services : dict;
  __characteristics : dict;
  __descriptors : dict;
  logged : list LogRecord
}.

Inductive Exception : Type :=
| KeyError (key : Z)
| BleakError (msg : string)
| StopIteration.

Inductive Result (A : Type) : Type :=
| Return (a : A)
| Raise (e : Exception).

Arguments Return {A} a.
Arguments Raise {A} e.

(** A method body: from a state to a result and the state it leaves. *)
Definition M (A : Type) : Type := State -> Result A * State.

Definition ret {A : Type} (a : A) : M A := fun st => (Return a, st).

Definition bind {A B : Type} (m : M A) (k : A -> M B) : M B :=
  fun st =>
    match m st with
    | (Return a, st') => k a st'
    | (Raise e, st') => (Raise e, st')
    end.

Definition raise {A : Type} (e : Exception) : M A := fun st => (Raise e, st).

(** The result of a call and the state it leaves. *)
Definition result_of {A : Type} (m : M A) (st : State) : Result A :=
  fst (m st).

Definition state_after {A : Type} (m : M A) (st : State) : State :=
  snd (m st).

Definition get_state : M State := fun st => (Return st, st).

Definition put_state (st' : State) : M unit := fun _ => (Return tt, st').

Declare Scope py_scope.
Delimit Scope py_scope with py.
Notation "x <- m ;; k" := (bind m (fun x => k))
  (at level 61, m at next level, right associativity) : py_scope.
Notation "m ;; k" := (bind m (fun _ => k))
  (at level 61, right associativity) : py_scope.
Local Open Scope py_scope.

(** [try: body  except StopIteration: handler] *)
Definition try_except_StopIteration {A : Type} (body handler : M A) : M A :=
  fun st =>
    match body st with
    | (Raise StopIteration, st') => handler st'
    | other => other
    end.

(** [next(iterator)] on the elements an iterator still has to yield. *)
Definition next {A : Type} (l : list A) : M A :=
  match l with
  | x :: _ => ret x
  | [] => raise StopIteration
  end.

(** [d[k]] *)
Definition dict_getitem (d : dict) (k : Z) : M ref :=
  match dict_get d (Handle k) with
  | Some v => ret v
  | None => raise (KeyError k)
  end.

Definition logger_error (fmt : string) (arg : Z) : M unit :=
  fun st =>
    (Return tt,
     {| service_objs := service_objs st;
        characteristic_objs := characteristic_objs st;
        descriptor_objs := descriptor_objs st;
        __services := __services st;
        __characteristics := __characteristics st;
        __descriptors := __descriptors st;
        logged := (logged st ++ [LogError fmt arg])%list |}).

(** Function update of an object store. *)
Definition store_set {A : Type} (f : ref -> A) (r : ref) (a : A) : ref -> A :=
  fun r' => if Nat.eqb r' r then a else f r'.

Definition set_service_objs (f : ref -> ServiceObj) (st : State) : State :=
  {| service_objs := f;
     characteristic_objs := characteristic_objs st;
     descriptor_objs := descriptor_objs st;
     __services := __services st;
     __characteristics := __characteristics st;
     __descriptors := __descriptors st;
     logged := logged st |}.

Definition set_characteristic_objs (f : ref -> CharacteristicObj) (st : State)
  : State :=
  {| service_objs := service_objs st;
     characteristic_objs := f;
     descriptor_objs := descriptor_objs st;
     __services := __services st;
     __characteristics := __characteristics st;
     __descriptors := __descriptors st;
     logged := logged st |}.

Definition set___services (d : dict) (st : State) : State :=
  {| service_objs := service_objs st;
     characteristic_objs := characteristic_objs st;
     descriptor_objs := descriptor_objs st;
     __services := d;
     __characteristics := __characteristics st;
     __descriptors := __descriptors st;
     logged := logged st |}.

Definition set___characteristics (d : dict) (st : State) : State :=
  {| service_objs := service_objs st;
     characteristic_objs := characteristic_objs st;
     descriptor_objs := descriptor_objs st;
     __services := __services st;
     __characteristics := d;
     __descriptors := __descriptors st;
     logged := logged st |}.

Definition set___descriptors (d : dict) (st : State) : State :=
  {| service_objs := service_objs st;
     characteristic_objs := characteristic_objs st;
     descriptor_objs := descriptor_objs st;
     __services := __services st;
     __characteristics := __characteristics st;
     __descriptors := d;
     logged := logged st |}.

(** ** The entity classes *)

Module BleakGATTDescriptor.

Definition handle (st : State) (self : ref) : Z :=
  dsc_handle (descriptor_objs st self).

Definition uuid (st : State) (self : ref) : string :=
  dsc_uuid (descriptor_objs st self).

Definition characteristic_handle (st : State) (self : ref) : Z :=
  dsc_characteristic_handle (descriptor_objs st self).

End BleakGATTDescriptor.

Module BleakGATTCharacteristic.

Definition handle (st : State) (self : ref) : Z :=
  chr_handle (characteristic_objs st self).

Definition uuid (st : State) (self : ref) : string :=
  chr_uuid (characteristic_objs st self).

Definition service_handle (st : State) (self : ref) : Z :=
  chr_service_handle (characteristic_objs st self).

Definition descriptors (st : State) (self : ref) : list ref :=
  chr_descriptors (characteristic_objs st self).

(** Modelled from the spec: the class [BleakGATTCharacteristic] and its
    backends are not part of [service.py]; by the design document
    [add_descriptor] appends the descriptor to the characteristic's own
    descriptor list. *)
Definition add_descriptor (self descriptor : ref) : M unit :=
  st <- get_state ;;
  let o := characteristic_objs st self in
  put_state
    (set_characteristic_objs
       (store_set (characteristic_objs st) self
          {| chr_handle := chr_handle o;
             chr_uuid := chr_uuid o;
             chr_service_handle := chr_service_handle o;
             chr_descriptors := (chr_descriptors o ++ [descriptor])%list |})
       st).

End BleakGATTCharacteristic.

Module BleakGATTService.

Definition handle (st : State) (self : ref) : Z :=
  svc_handle (service_objs st self).

Definition uuid (st : State) (self : ref) : string :=
  svc_uuid (service_objs st self).

Definition characteristics (st : State) (self : ref) : list ref :=
  svc_characteristics (service_objs st self).

(** Modelled from the spec: [add_characteristic] is abstract in
    [BleakGATTService] and its backend implementations are not part of
    [service.py]; by the design document it appends to the owned sequence,
    also when the characteristic is in the sequence already. *)
Definition add_characteristic (self characteristic : ref) : M unit :=
  st <- get_state ;;
  let o := service_objs st self in
  put_state
    (set_service_objs
       (store_set (service_objs st) self
          {| svc_handle := svc_handle o;
             svc_uuid := svc_uuid o;
             svc_characteristics :=
               (svc_characteristics o ++ [characteristic])%list |})
       st).

(** The lambda [lambda x: x.uuid == str(uuid).lower()]. *)
Definition uuid_matches (st : State) (uuid : UuidArg) (x : ref) : bool :=
  String.eqb (BleakGATTCharacteristic.uuid st x) (lower (str uuid)).

(** The rebinding of [uuid] at the head of [get_characteristic]: a
    four-character [str] is put into the base UUID template. *)
Definition expand_short (uuid : UuidArg) : UuidArg :=
  if is_str uuid && Nat.eqb (len (str uuid)) 4
  then UuidStr (base_uuid_template (str uuid))
  else uuid.

Definition get_characteristic (self : ref) (uuid : UuidArg)
  : M (option ref) :=
  st <- get_state ;;
  let uuid := expand_short uuid in
  try_except_StopIteration
    (c <- next (filter (uuid_matches st uuid) (characteristics st self)) ;;
     ret (Some c))
    (ret None).

End BleakGATTService.

(** ** The collection *)

(** What [__getitem__] can return. *)
Inductive Entity : Type :=
| AService (r : ref)
| ACharacteristic (r : ref)
| ADescriptor (r : ref).

(** Truth value of an [Optional] object: [None] is false; the entity classes
    define neither [__bool__] nor [__len__], so their instances are true. *)
Definition truthy (x : option Entity) : bool :=
  match x with
  | Some _ => true
  | None => false
  end.

(** [a or b]: [b] is evaluated only when [a] is false. *)
Definition py_or (a b : M (option Entity)) : M (option Entity) :=
  x <- a ;;
  if truthy x then ret x else b.

(** [x[0] if x else None] *)
Definition first_or_None (x : list ref) : option ref :=
  match x with
  | x0 :: _ => Some x0
  | [] => None
  end.

Module BleakGATTServiceCollection.

(** [__init__]: three empty dictionaries, in a world of existing
    objects. *)
Definition init (svc : ref -> ServiceObj) (chr : ref -> CharacteristicObj)
    (dsc : ref -> DescriptorObj) : State :=
  {| service_objs := svc;
     characteristic_objs := chr;
     descriptor_objs := dsc;
     __services := [];
     __characteristics := [];
     __descriptors := [];
     logged := [] |}.

Definition services (st : State) : dict := __services st.
Definition characteristics (st : State) : dict := __characteristics st.
Definition descriptors (st : State) : dict := __descriptors st.

Definition add_service (service : ref) : M unit :=
  st <- get_state ;;
  let h := BleakGATTService.handle st service in
  if negb (dict_contains (__services st) h)
  then put_state (set___services (dict_setitem (__services st) h service) st)
  else
    logger_error
      "The service '%s' is already present in this BleakGATTServiceCollection!"
      h.

(** The lambda [lambda x: x.uuid.lower() == _specifier]. *)
Definition service_uuid_matches (st : State) (_specifier : string) (x : ref)
  : bool :=
  String.eqb (lower (BleakGATTService.uuid st x)) _specifier.

(** The local [_specifier] of [get_service]: the specifier lower-cased,
    then expanded when it has four characters. *)
Definition _specifier (specifier : UuidArg) : string :=
  let _specifier := lower (str specifier) in
  if Nat.eqb (len _specifier) 4
  then base_uuid_template _specifier
  else _specifier.

Definition get_service (specifier : Specifier) : M (option ref) :=
  st <- get_state ;;
  match specifier with
  | Handle _ => ret (dict_get (services st) specifier)
  | ByUuid u =>
      let x :=
        filter (service_uuid_matches st (_specifier u))
          (dict_values (services st)) in
      if Nat.ltb 1 (List.length x)
      then
        raise
          (BleakError
             "Multiple Services with this UUID, refer to your desired service by the `handle` attribute instead.")
      else ret (first_or_None x)
  end.

Definition add_characteristic (characteristic : ref) : M unit :=
  st <- get_state ;;
  let h := BleakGATTCharacteristic.handle st characteristic in
  if negb (dict_contains (__characteristics st) h)
  then
    put_state
      (set___characteristics
         (dict_setitem (__characteristics st) h characteristic) st) ;;
    st <- get_state ;;
    service <-
      dict_getitem (__services st)
        (BleakGATTCharacteristic.service_handle st characteristic) ;;
    BleakGATTService.add_characteristic service characteristic
  else
    logger_error
      "The characteristic '%s' is already present in this BleakGATTServiceCollection!"
      h.

(** The lambda [lambda x: x.uuid == str(specifier).lower()]. *)
Definition characteristic_uuid_matches (st : State) (specifier : UuidArg)
    (x : ref) : bool :=
  String.eqb (BleakGATTCharacteristic.uuid st x) (lower (str specifier)).

Definition get_characteristic (specifier : Specifier) : M (option ref) :=
  st <- get_state ;;
  match specifier with
  | Handle _ => ret (dict_get (characteristics st) specifier)
  | ByUuid u =>
      let x :=
        filter (characteristic_uuid_matches st u)
          (dict_values (characteristics st)) in
      if Nat.ltb 1 (List.length x)
      then
        raise
          (BleakError
             "Multiple Characteristics with this UUID, refer to your desired characteristic by the `handle` attribute instead.")
      else ret (first_or_None x)
  end.

Definition add_descriptor (descriptor : ref) : M unit :=
  st <- get_state ;;
  let h := BleakGATTDescriptor.handle st descriptor in
  if negb (dict_contains (__descriptors st) h)
  then
    put_state
      (set___descriptors (dict_setitem (__descriptors st) h descriptor) st) ;;
    st <- get_state ;;
    characteristic <-
      dict_getitem (__characteristics st)
        (BleakGATTDescriptor.characteristic_handle st descriptor) ;;
    BleakGATTCharacteristic.add_descriptor characteristic descriptor
  else
    logger_error
      "The descriptor '%s' is already present in this BleakGATTServiceCollection!"
      h.

Definition get_descriptor (handle : Specifier) : M (option ref) :=
  st <- get_state ;;
  ret (dict_get (descriptors st) handle).

(** [__getitem__] *)
Definition getitem (item : Specifier) : M (option Entity) :=
  py_or (s <- get_service item ;; ret (option_map AService s))
    (py_or (c <- get_characteristic item ;; ret (option_map ACharacteristic c))
       (d <- get_descriptor item ;; ret (option_map ADescriptor d))).

(** [__iter__]: the services in the order of the dictionary. *)
Definition iter (st : State) : list ref := dict_values (services st).

End BleakGATTServiceCollection.

(** ** A sample peripheral

    Objects as a discovery adapter creates them: their child lists are empty
    until the collection links them. *)

Module Sample.

Definition gap_uuid : string := "00001800-0000-1000-8000-00805f9b34fb".
Definition device_info_uuid_upper : string :=
  "0000180A-0000-1000-8000-00805F9B34FB".
Definition device_name_uuid : string :=
  "00002a00-0000-1000-8000-00805f9b34fb".
Definition appearance_uuid_upper : string :=
  "00002A01-0000-1000-8000-00805F9B34FB".
Definition cccd_uuid : string := "00002902-0000-1000-8000-00805f9b34fb".

Definition service (h : Z) (u : string) : ServiceObj :=
  {| svc_handle := h; svc_uuid := u; svc_characteristics := [] |}.

Definition characteristic (h : Z) (u : string) (sh : Z) : CharacteristicObj :=
  {| chr_handle := h; chr_uuid := u; chr_service_handle := sh;
     chr_descriptors := [] |}.

Definition descriptor (h : Z) (u : string) (ch : Z) : DescriptorObj :=
  {| dsc_handle := h; dsc_uuid := u; dsc_characteristic_handle := ch |}.

(** Service objects: A (handle 1) and B (handle 2) share a UUID, C has an
    upper-case UUID, D has the handle of A. *)
Definition service_store (r : ref) : ServiceObj :=
  match r with
  | 0 => service 1 gap_uuid
  | 1 => service 2 gap_uuid
  | 2 => service 3 device_info_uuid_upper
  | _ => service 1 device_info_uuid_upper
  end.

(** Characteristic objects: 0 and 1 belong to service A and share handle
    10; 2 has an upper-case UUID; 3 names a service handle nobody has; 4
    belongs to service A and has the UUID of 0. *)
Definition characteristic_store (r : ref) : CharacteristicObj :=
  match r with
  | 0 => characteristic 10 device_name_uuid 1
  | 1 => characteristic 10 device_name_uuid 1
  | 2 => characteristic 11 appearance_uuid_upper 1
  | 3 => characteristic 12 device_name_uuid 99
  | _ => characteristic 13 device_name_uuid 1
  end.

(** Descriptor objects: 0 belongs to characteristic 10; the others name a
    characteristic handle nobody has. *)
Definition descriptor_store (r : ref) : DescriptorObj :=
  match r with
  | 0 => descriptor 20 cccd_uuid 10
  | _ => descriptor 21 cccd_uuid 77
  end.

Definition empty : State :=
  BleakGATTServiceCollection.init service_store characteristic_store
    descriptor_store.

(** Service A with its characteristic 0 and its descriptor 0. *)
Definition linked : State :=
  state_after (BleakGATTServiceCollection.add_descriptor 0)
    (state_after (BleakGATTServiceCollection.add_characteristic 0)
       (state_after (BleakGATTServiceCollection.add_service 0) empty)).

(** [linked] after the insertion of characteristic 3 failed: nobody has
    its service handle 99. *)
Definition orphaned_characteristic : State :=
  state_after (BleakGATTServiceCollection.add_characteristic 3) linked.

(** [linked] after the insertion of descriptor 1 failed: nobody has its
    characteristic handle 77. *)
Definition orphaned_descriptor : State :=
  state_after (BleakGATTServiceCollection.add_descriptor 1) linked.

(** Characteristic 0 arrives before its service A: the insertion fails,
    then A is added and the insertion is tried again. *)
Definition late_parent : State :=
  state_after (BleakGATTServiceCollection.add_characteristic 0)
    (state_after (BleakGATTServiceCollection.add_service 0)
       (state_after (BleakGATTServiceCollection.add_characteristic 0)
          empty)).

(** [linked] with service B, which has the UUID of service A. *)
Definition ambiguous : State :=
  state_after (BleakGATTServiceCollection.add_service 1) linked.

(** [linked] with service C and characteristic 2 of service A, whose UUID
    strings are in upper case. *)
Definition upper_case : State :=
  state_after (BleakGATTServiceCollection.add_characteristic 2)
    (state_after (BleakGATTServiceCollection.add_service 2) linked).

(** [linked] with characteristic 4: service A has two characteristics with
    one UUID. *)
Definition twins : State :=
  state_after (BleakGATTServiceCollection.add_characteristic 4) linked.

(** Service A with its characteristic 0, before the descriptor arrives. *)
Definition without_descriptor : State :=
  state_after (BleakGATTServiceCollection.add_characteristic 0)
    (state_after (BleakGATTServiceCollection.add_service 0) empty).

End Sample.

(** ** The normalisation of the design document

    The UuidNormalizer in the words of the document, to compare the lookups
    with: a string of four characters is substituted into the Bluetooth Base
    UUID template, any other input is left as it is; the outcome is
    lower-cased for comparison. *)
Definition normalize_uuid (u : UuidArg) : string :=
  match u with
  | UuidStr s =>
      if Nat.eqb (len s) 4 then lower (base_uuid_template s) else lower s
  | UuidObj n => lower (uuid_to_str n)
  end.

(** The comparison the design document asks of a lookup by UUID, in its
    words: the stored UUID of the characteristic and the query are compared
    in their normal forms. *)
Definition normalised_uuid_matches (st : State) (u : UuidArg) (x : ref)
  : bool :=
  String.eqb (normalize_uuid (UuidStr (BleakGATTCharacteristic.uuid st x)))
    (normalize_uuid u).

(** The stored UUID string of the characteristic [x] is in normal form
    already: lower case, and not a short form. *)
Definition uuid_normalised (st : State) (x : ref) : Prop :=
  normalize_uuid (UuidStr (BleakGATTCharacteristic.uuid st x))
  = BleakGATTCharacteristic.uuid st x.

(** ** Counting and the agreement of the two views *)

(** How many elements of [l] satisfy [p]. *)
Fixpoint count_matching (p : ref -> bool) (l : list ref) : nat :=
  match l with
  | [] => 0
  | x :: rest => (if p x then 1 else 0) + count_matching p rest
  end.

(** How often the reference [c] occurs in [l]. *)
Definition occurrences (c : ref) (l : list ref) : nat :=
  count_occ Nat.eq_dec l c.

(** Every service is stored under its own handle. *)
Definition services_by_handle (st : State) : Prop :=
  forall hs s,
    dict_get (__services st) (Handle hs) = Some s ->
    BleakGATTService.handle st s = hs.

(** From the child lists to the flat dictionary: a characteristic in the list
    of a stored service names that service as its parent and is stored under
    its own handle. *)
Definition children_registered (st : State) : Prop :=
  forall hs s c,
    dict_get (__services st) (Handle hs) = Some s ->
    In c (BleakGATTService.characteristics st s) ->
    BleakGATTCharacteristic.service_handle st c = hs /\
    dict_get (__characteristics st)
      (Handle (BleakGATTCharacteristic.handle st c)) = Some c.

(** From the flat dictionary to the child lists: a stored characteristic is
    stored under its own handle, its parent service is stored, and it occurs
    once in the list of that service. *)
Definition parents_linked (st : State) : Prop :=
  forall hc c,
    dict_get (__characteristics st) (Handle hc) = Some c ->
    BleakGATTCharacteristic.handle st c = hc /\
    exists s,
      dict_get (__services st)
        (Handle (BleakGATTCharacteristic.service_handle st c)) = Some s /\
      occurrences c (BleakGATTService.characteristics st s) = 1.

Definition views_agree (st : State) : Prop :=
  services_by_handle st /\ children_registered st /\ parents_linked st.

(** The collections a discovery run can leave: the empty collection, then
    any calls of the three insertion methods, whether they return or raise,
    where a service is handed over with an empty child list unless its
    handle is taken. *)
Inductive populated : State -> Prop :=
| populated_init : forall svc chr dsc,
    populated (BleakGATTServiceCollection.init svc chr dsc)
| populated_add_service : forall st s,
    populated st ->
    dict_contains (__services st) (BleakGATTService.handle st s) = true \/
    BleakGATTService.characteristics st s = [] ->
    populated (state_after (BleakGATTServiceCollection.add_service s) st)
| populated_add_characteristic : forall st c,
    populated st ->
    populated (state_after (BleakGATTServiceCollection.add_characteristic c) st)
| populated_add_descriptor : forall st d,
    populated st ->
    populated (state_after (BleakGATTServiceCollection.add_descriptor d) st).

(** Every descriptor is stored under its own handle. *)
Definition descriptors_by_handle (st : State) : Prop :=
  forall h d,
    dict_get (__descriptors st) (Handle h) = Some d ->
    BleakGATTDescriptor.handle st d = h.

(** The state in which the new characteristic [c] is stored and is the last
    child of the service object [s]. *)
Definition linked_state (st : State) (c s : ref) : State :=
  set_service_objs
    (store_set (service_objs st) s
       {| svc_handle := svc_handle (service_objs st s);
          svc_uuid := svc_uuid (service_objs st s);
          svc_characteristics :=
            (svc_characteristics (service_objs st s) ++ [c])%list |})
    (set___characteristics
       (__characteristics st ++ [(BleakGATTCharacteristic.handle st c, c)])%list
       st).

(** ** Notions for the insertion methods taken together *)

(** [list(d)], the keys in the order of the dictionary. *)
Definition dict_keys (d : dict) : list Z := map fst d.

(** Every item of [d] is an item of [d']. *)
Definition dict_extends (d d' : dict) : Prop :=
  forall h v,
    dict_get d (Handle h) = Some v -> dict_get d' (Handle h) = Some v.

(** Every characteristic is stored under its own handle. *)
Definition characteristics_by_handle (st : State) : Prop :=
  forall h c,
    dict_get (__characteristics st) (Handle h) = Some c ->
    BleakGATTCharacteristic.handle st c = h.

(** The attributes that identify the objects: the handle and UUID of every
    object and the parent handle of every characteristic and descriptor are
    in [st'] what they are in [st]. *)
Definition same_identities (st st' : State) : Prop :=
  (forall x,
      BleakGATTService.handle st' x = BleakGATTService.handle st x /\
      BleakGATTService.uuid st' x = BleakGATTService.uuid st x) /\
  (forall x,
      BleakGATTCharacteristic.handle st' x = BleakGATTCharacteristic.handle st x
      /\
      BleakGATTCharacteristic.uuid st' x = BleakGATTCharacteristic.uuid st x /\
      BleakGATTCharacteristic.service_handle st' x =
      BleakGATTCharacteristic.service_handle st x) /\
  (forall x, descriptor_objs st' x = descriptor_objs st x).

(** The three dictionaries and the object stores of [st'] are those of
    [st]. *)
Definition same_collection (st st' : State) : Prop :=
  __services st' = __services st /\
  __characteristics st' = __characteristics st /\
  __descriptors st' = __descriptors st /\
  service_objs st' = service_objs st /\
  characteristic_objs st' = characteristic_objs st /\
  descriptor_objs st' = descriptor_objs st.

(** One call of an insertion method, whatever its outcome. *)
Inductive insertion : State -> State -> Prop :=
| insertion_service : forall st s,
    insertion st (state_after (BleakGATTServiceCollection.add_service s) st)
| insertion_characteristic : forall st c,
    insertion st
      (state_after (BleakGATTServiceCollection.add_characteristic c) st)
| insertion_descriptor : forall st d,
    insertion st (state_after (BleakGATTServiceCollection.add_descriptor d) st).

(** The state [add_descriptor] leaves when it links a new descriptor [d] to
    its stored parent [c]. *)
Definition descriptor_linked_state (st : State) (d c : ref) : State :=
  set_characteristic_objs
    (store_set (characteristic_objs st) c
       {| chr_handle := chr_handle (characteristic_objs st c);
          chr_uuid := chr_uuid (characteristic_objs st c);
          chr_service_handle := chr_service_handle (characteristic_objs st c);
          chr_descriptors :=
            (chr_descriptors (characteristic_objs st c) ++ [d])%list |})
     (set___descriptors
        (__descriptors st ++ [(BleakGATTDescriptor.handle st d, d)])%list st).

(** * Properties *)

Local Close Scope string_scope.
Local Open Scope list_scope.

(** ** Dictionaries *)

Section DictFacts.

Variable d : dict.

Lemma dict_get_uuid_probe (u : UuidArg) : dict_get d (ByUuid u) = None.
Proof.
  induction d as [| [k v] rest IH]; simpl; [reflexivity | exact IH].
Qed.

Lemma dict_contains_false (k : Z) :
  dict_contains d k = false <-> dict_get d (Handle k) = None.
Proof.
  unfold dict_contains. destruct (dict_get d (Handle k)); split; congruence.
Qed.

Lemma dict_contains_true (k : Z) :
  dict_contains d k = true <-> exists v, dict_get d (Handle k) = Some v.
Proof.
  unfold dict_contains. destruct (dict_get d (Handle k)) as [v |]; split.
  - intros _. now exists v.
  - reflexivity.
  - discriminate.
  - intros [v H]. discriminate.
Qed.

(** A new key goes to the end of the dictionary. *)
Lemma dict_setitem_new (k : Z) (v : ref) :
  dict_get d (Handle k) = None -> dict_setitem d k v = (d ++ [(k, v)])%list.
Proof.
  induction d as [| [k' v'] rest IH]; simpl; intros H.
  - reflexivity.
  - destruct (Z.eqb k' k); [discriminate |]. now rewrite IH.
Qed.

Lemma dict_get_setitem_same (k : Z) (v : ref) :
  dict_get (dict_setitem d k v) (Handle k) = Some v.
Proof.
  induction d as [| [k' v'] rest IH]; simpl.
  - now rewrite Z.eqb_refl.
  - destruct (Z.eqb k' k) eqn:E; simpl; rewrite E; [reflexivity | exact IH].
Qed.

Lemma dict_get_setitem_other (k k' : Z) (v : ref) :
  k' <> k ->
  dict_get (dict_setitem d k v) (Handle k') = dict_get d (Handle k').
Proof.
  intros Hne. induction d as [| [k0 v0] rest IH]; simpl.
  - destruct (Z.eqb_spec k k'); [congruence | reflexivity].
  - destruct (Z.eqb_spec k0 k) as [-> |]; simpl.
    + destruct (Z.eqb_spec k k'); [congruence | reflexivity].
    + destruct (Z.eqb k0 k'); [reflexivity | exact IH].
Qed.

End DictFacts.

(** ** Running a method *)

Ltac unfold_collection :=
  unfold result_of, state_after,
    BleakGATTServiceCollection.add_service,
    BleakGATTServiceCollection.add_characteristic,
    BleakGATTServiceCollection.add_descriptor,
    BleakGATTServiceCollection.get_service,
    BleakGATTServiceCollection.get_characteristic,
    BleakGATTServiceCollection.get_descriptor,
    BleakGATTServiceCollection.getitem,
    BleakGATTServiceCollection.services,
    BleakGATTServiceCollection.characteristics,
    BleakGATTServiceCollection.descriptors,
    BleakGATTService.add_characteristic,
    BleakGATTCharacteristic.add_descriptor,
    py_or, dict_getitem, logger_error, bind, get_state, put_state, ret, raise.

(** What a call of [add_characteristic] does, by the two tests it makes. *)
Lemma add_characteristic_duplicate (st : State) (c : ref) :
  dict_contains (__characteristics st)
    (BleakGATTCharacteristic.handle st c) = true ->
  BleakGATTServiceCollection.add_characteristic c st =
  logger_error
    "The characteristic '%s' is already present in this BleakGATTServiceCollection!"
    (BleakGATTCharacteristic.handle st c) st.
Proof.
  intros H. unfold BleakGATTServiceCollection.add_characteristic, bind, get_state.
  now rewrite H.
Qed.

Lemma add_characteristic_orphan (st : State) (c : ref) :
  dict_contains (__characteristics st)
    (BleakGATTCharacteristic.handle st c) = false ->
  dict_contains (__services st)
    (BleakGATTCharacteristic.service_handle st c) = false ->
  BleakGATTServiceCollection.add_characteristic c st =
  (Raise (KeyError (BleakGATTCharacteristic.service_handle st c)),
   set___characteristics
     (__characteristics st ++ [(BleakGATTCharacteristic.handle st c, c)])%list
     st).
Proof.
  intros Hc Hs. unfold_collection. rewrite Hc. simpl.
  apply dict_contains_false in Hc, Hs.
  unfold BleakGATTCharacteristic.service_handle in *. simpl.
  rewrite Hs. now rewrite dict_setitem_new.
Qed.

Lemma add_characteristic_linked (st : State) (c s : ref) :
  dict_contains (__characteristics st)
    (BleakGATTCharacteristic.handle st c) = false ->
  dict_get (__services st)
    (Handle (BleakGATTCharacteristic.service_handle st c)) = Some s ->
  BleakGATTServiceCollection.add_characteristic c st =
  (Return tt, linked_state st c s).
Proof.
  intros Hc Hs. unfold linked_state. unfold_collection. rewrite Hc. simpl.
  apply dict_contains_false in Hc.
  unfold BleakGATTCharacteristic.service_handle in *. simpl.
  rewrite Hs. now rewrite dict_setitem_new.
Qed.

Lemma add_descriptor_duplicate (st : State) (d : ref) :
  dict_contains (__descriptors st) (BleakGATTDescriptor.handle st d) = true ->
  BleakGATTServiceCollection.add_descriptor d st =
  logger_error
    "The descriptor '%s' is already present in this BleakGATTServiceCollection!"
    (BleakGATTDescriptor.handle st d) st.
Proof.
  intros H. unfold BleakGATTServiceCollection.add_descriptor, bind, get_state.
  now rewrite H.
Qed.

Lemma add_descriptor_orphan (st : State) (d : ref) :
  dict_contains (__descriptors st) (BleakGATTDescriptor.handle st d) = false ->
  dict_contains (__characteristics st)
    (BleakGATTDescriptor.characteristic_handle st d) = false ->
  BleakGATTServiceCollection.add_descriptor d st =
  (Raise (KeyError (BleakGATTDescriptor.characteristic_handle st d)),
   set___descriptors
     (__descriptors st ++ [(BleakGATTDescriptor.handle st d, d)])%list st).
Proof.
  intros Hd Hc. unfold_collection. rewrite Hd. simpl.
  apply dict_contains_false in Hd, Hc.
  unfold BleakGATTDescriptor.characteristic_handle in *. simpl.
  rewrite Hc. now rewrite dict_setitem_new.
Qed.

Lemma add_descriptor_linked (st : State) (d c : ref) :
  dict_contains (__descriptors st) (BleakGATTDescriptor.handle st d) = false ->
  dict_get (__characteristics st)
    (Handle (BleakGATTDescriptor.characteristic_handle st d)) = Some c ->
  BleakGATTServiceCollection.add_descriptor d st =
  (Return tt,
   set_characteristic_objs
     (store_set (characteristic_objs st) c
        {| chr_handle := chr_handle (characteristic_objs st c);
           chr_uuid := chr_uuid (characteristic_objs st c);
           chr_service_handle := chr_service_handle (characteristic_objs st c);
           chr_descriptors :=
             (chr_descriptors (characteristic_objs st c) ++ [d])%list |})
     (set___descriptors
        (__descriptors st ++ [(BleakGATTDescriptor.handle st d, d)])%list st)).
Proof.
  intros Hd Hc. unfold_collection. rewrite Hd. simpl.
  apply dict_contains_false in Hd.
  unfold BleakGATTDescriptor.characteristic_handle in *. simpl.
  rewrite Hc. now rewrite dict_setitem_new.
Qed.

Lemma dict_get_app_new (d : dict) (k : Z) (v : ref) :
  dict_get d (Handle k) = None -> dict_get (d ++ [(k, v)]) (Handle k) = Some v.
Proof.
  intros H. rewrite <- (@dict_setitem_new d k v H). apply dict_get_setitem_same.
Qed.

Lemma dict_get_app_other (d : dict) (k k' : Z) (v : ref) :
  dict_get d (Handle k) = None ->
  k' <> k ->
  dict_get (d ++ [(k, v)]) (Handle k') = dict_get d (Handle k').
Proof.
  intros H Hne. rewrite <- (@dict_setitem_new d k v H).
  now apply dict_get_setitem_other.
Qed.

(** ** Insertion without a parent *)

(** C1, as amended: when the handle of a characteristic is not yet a key of
    the characteristic dictionary and its [service_handle] is not a key of the
    service dictionary, [add_characteristic] raises [KeyError] on that
    service handle to its caller; likewise [add_descriptor] raises [KeyError]
    on the characteristic handle of a descriptor whose own handle is new and
    whose characteristic is not stored. *)
Theorem missing_parent_raises :
  forall (st : State) (c d : ref),
    (dict_contains (__characteristics st)
       (BleakGATTCharacteristic.handle st c) = false ->
     dict_contains (__services st)
       (BleakGATTCharacteristic.service_handle st c) = false ->
     result_of (BleakGATTServiceCollection.add_characteristic c) st =
     Raise (KeyError (BleakGATTCharacteristic.service_handle st c)))
    /\
    (dict_contains (__descriptors st)
       (BleakGATTDescriptor.handle st d) = false ->
     dict_contains (__characteristics st)
       (BleakGATTDescriptor.characteristic_handle st d) = false ->
     result_of (BleakGATTServiceCollection.add_descriptor d) st =
     Raise (KeyError (BleakGATTDescriptor.characteristic_handle st d))).
Proof.
  intros st c d. split; intros Hnew Horphan; unfold result_of.
  - now rewrite add_characteristic_orphan.
  - now rewrite add_descriptor_orphan.
Qed.

Lemma missing_parent_raises_witness :
  (dict_contains (__characteristics Sample.linked)
     (BleakGATTCharacteristic.handle Sample.linked 3) = false /\
   dict_contains (__services Sample.linked)
     (BleakGATTCharacteristic.service_handle Sample.linked 3) = false /\
   result_of (BleakGATTServiceCollection.add_characteristic 3) Sample.linked =
   Raise (KeyError 99))
  /\
  (dict_contains (__descriptors Sample.linked)
     (BleakGATTDescriptor.handle Sample.linked 1) = false /\
   dict_contains (__characteristics Sample.linked)
     (BleakGATTDescriptor.characteristic_handle Sample.linked 1) = false /\
   result_of (BleakGATTServiceCollection.add_descriptor 1) Sample.linked =
   Raise (KeyError 77)).
Proof.
  destruct (missing_parent_raises Sample.linked 3 1) as [Hc Hd].
  split; (split; [reflexivity | split; [reflexivity |]]).
  - apply Hc; reflexivity.
  - apply Hd; reflexivity.
Defined.

(** C1, as stated, fails: nobody has service handle 99, yet the second
    attempt to add characteristic 3 returns normally, because its handle went
    into the dictionary at the first attempt; the same for descriptor 1 and
    characteristic handle 77. *)
Lemma missing_parent_swallowed_on_duplicate :
  (dict_contains (__services Sample.orphaned_characteristic)
     (BleakGATTCharacteristic.service_handle Sample.orphaned_characteristic 3)
   = false /\
   result_of (BleakGATTServiceCollection.add_characteristic 3)
     Sample.orphaned_characteristic = Return tt)
  /\
  (dict_contains (__characteristics Sample.orphaned_descriptor)
     (BleakGATTDescriptor.characteristic_handle Sample.orphaned_descriptor 1)
   = false /\
   result_of (BleakGATTServiceCollection.add_descriptor 1)
     Sample.orphaned_descriptor = Return tt).
Proof. repeat split. Qed.

(** C10: a failing [add_characteristic] has stored the characteristic before
    it raises.  With a new handle and a missing service the call raises
    [KeyError]; afterwards the characteristic is the last item of the
    characteristic dictionary and [get_characteristic] on its handle returns
    it, while the service dictionary and every service's child list are as
    before, so that it is in no child list of a collection whose child lists
    only hold registered characteristics.  [add_descriptor] fails in the same
    way: the descriptor is stored, no descriptor list has changed. *)
Theorem failed_insertion_is_kept :
  forall (st : State) (c d : ref),
    (dict_contains (__characteristics st)
       (BleakGATTCharacteristic.handle st c) = false ->
     dict_contains (__services st)
       (BleakGATTCharacteristic.service_handle st c) = false ->
     let st' :=
       state_after (BleakGATTServiceCollection.add_characteristic c) st in
     result_of (BleakGATTServiceCollection.add_characteristic c) st =
     Raise (KeyError (BleakGATTCharacteristic.service_handle st c)) /\
     __characteristics st' =
     __characteristics st ++ [(BleakGATTCharacteristic.handle st c, c)] /\
     result_of
       (BleakGATTServiceCollection.get_characteristic
          (Handle (BleakGATTCharacteristic.handle st c))) st' =
     Return (Some c) /\
     __services st' = __services st /\
     (forall s, BleakGATTService.characteristics st' s =
                BleakGATTService.characteristics st s) /\
     (children_registered st ->
      forall hs s,
        dict_get (__services st') (Handle hs) = Some s ->
        ~ In c (BleakGATTService.characteristics st' s)))
    /\
    (dict_contains (__descriptors st)
       (BleakGATTDescriptor.handle st d) = false ->
     dict_contains (__characteristics st)
       (BleakGATTDescriptor.characteristic_handle st d) = false ->
     let st' := state_after (BleakGATTServiceCollection.add_descriptor d) st in
     result_of (BleakGATTServiceCollection.add_descriptor d) st =
     Raise (KeyError (BleakGATTDescriptor.characteristic_handle st d)) /\
     __descriptors st' =
     __descriptors st ++ [(BleakGATTDescriptor.handle st d, d)] /\
     result_of
       (BleakGATTServiceCollection.get_descriptor
          (Handle (BleakGATTDescriptor.handle st d))) st' =
     Return (Some d) /\
     __characteristics st' = __characteristics st /\
     (forall x, BleakGATTCharacteristic.descriptors st' x =
                BleakGATTCharacteristic.descriptors st x)).
Proof.
  intros st c d. split; intros Hnew Horphan st'; subst st';
    unfold result_of, state_after.
  - rewrite (add_characteristic_orphan st c Hnew Horphan). simpl.
    apply dict_contains_false in Hnew.
    repeat split.
    + unfold_collection. simpl. now rewrite dict_get_app_new.
    + intros Hreg hs s Hs Hin.
      destruct (Hreg hs s c Hs Hin) as [_ Hstored]. congruence.
  - rewrite (add_descriptor_orphan st d Hnew Horphan). simpl.
    apply dict_contains_false in Hnew.
    repeat split.
    unfold_collection. simpl. now rewrite dict_get_app_new.
Qed.

(** ** The two views of the characteristics *)

Lemma dict_get_app_inv (d : dict) (k k' : Z) (v v' : ref) :
  dict_get d (Handle k) = None ->
  dict_get (d ++ [(k, v)]) (Handle k') = Some v' ->
  (k' = k /\ v' = v) \/ (k' <> k /\ dict_get d (Handle k') = Some v').
Proof.
  intros Hnew Hget. destruct (Z.eq_dec k' k) as [-> | Hne].
  - left. rewrite dict_get_app_new in Hget by assumption.
    split; congruence.
  - right. rewrite dict_get_app_other in Hget by assumption. now split.
Qed.

Lemma store_set_same {A : Type} (f : ref -> A) (r : ref) (a : A) :
  store_set f r a r = a.
Proof. unfold store_set. now rewrite Nat.eqb_refl. Qed.

Lemma store_set_other {A : Type} (f : ref -> A) (r r' : ref) (a : A) :
  r' <> r -> store_set f r a r' = f r'.
Proof.
  intros H. unfold store_set. destruct (Nat.eqb_spec r' r); congruence.
Qed.

Lemma occurrences_snoc_new (c : ref) (l : list ref) :
  ~ In c l -> occurrences c (l ++ [c]) = 1.
Proof.
  intros H. unfold occurrences, ref in *. rewrite count_occ_app.
  rewrite (proj1 (count_occ_not_In Nat.eq_dec l c) H). simpl.
  destruct (Nat.eq_dec c c); congruence.
Qed.

Lemma occurrences_snoc_other (c c' : ref) (l : list ref) :
  c' <> c -> occurrences c' (l ++ [c]) = occurrences c' l.
Proof.
  intros H. unfold occurrences, ref in *. rewrite count_occ_app. simpl.
  destruct (Nat.eq_dec c c'); [congruence | lia].
Qed.

Lemma sound_init (svc : ref -> ServiceObj) (chr : ref -> CharacteristicObj)
    (dsc : ref -> DescriptorObj) :
  services_by_handle (BleakGATTServiceCollection.init svc chr dsc) /\
  children_registered (BleakGATTServiceCollection.init svc chr dsc).
Proof.
  split.
  - intros hs s H. discriminate H.
  - intros hs s c H. discriminate H.
Qed.

Lemma views_agree_init (svc : ref -> ServiceObj)
    (chr : ref -> CharacteristicObj) (dsc : ref -> DescriptorObj) :
  views_agree (BleakGATTServiceCollection.init svc chr dsc).
Proof.
  destruct (sound_init svc chr dsc) as [Hkeys Hreg].
  split; [exact Hkeys | split; [exact Hreg |]].
  intros hc c H. discriminate H.
Qed.

(** A service that goes in with an empty child list keeps the child lists
    registered; so does the skipped insertion of a handle that is taken. *)
Lemma add_service_sound (st : State) (s : ref) :
  services_by_handle st ->
  children_registered st ->
  dict_contains (__services st) (BleakGATTService.handle st s) = true \/
  BleakGATTService.characteristics st s = [] ->
  services_by_handle
    (state_after (BleakGATTServiceCollection.add_service s) st) /\
  children_registered
    (state_after (BleakGATTServiceCollection.add_service s) st).
Proof.
  intros Hkeys Hreg Hfresh.
  unfold state_after, BleakGATTServiceCollection.add_service, bind, get_state.
  destruct (dict_contains (__services st) (BleakGATTService.handle st s))
    eqn:Hdup; simpl.
  - exact (conj Hkeys Hreg).
  - destruct Hfresh as [Hfresh | Hempty]; [discriminate |].
    apply dict_contains_false in Hdup.
    rewrite (dict_setitem_new _ _ s Hdup).
    split.
    + intros hs s' Hget. simpl in Hget.
      apply dict_get_app_inv in Hget; [| assumption].
      destruct Hget as [[-> ->] | [_ Hget]]; [reflexivity |].
      now apply Hkeys.
    + intros hs s' c Hget Hin. simpl in Hget.
      apply dict_get_app_inv in Hget; [| assumption].
      destruct Hget as [[-> ->] | [_ Hget]].
      * change (In c (BleakGATTService.characteristics st s)) in Hin.
        rewrite Hempty in Hin. destruct Hin.
      * exact (Hreg hs s' c Hget Hin).
Qed.

Lemma add_service_parents_linked (st : State) (s : ref) :
  parents_linked st ->
  parents_linked (state_after (BleakGATTServiceCollection.add_service s) st).
Proof.
  intros Hlink.
  unfold state_after, BleakGATTServiceCollection.add_service, bind, get_state.
  destruct (dict_contains (__services st) (BleakGATTService.handle st s))
    eqn:Hdup; simpl.
  - exact Hlink.
  - apply dict_contains_false in Hdup.
    rewrite (dict_setitem_new _ _ s Hdup).
    intros hc c Hget.
    destruct (Hlink hc c Hget) as [Hh (s0 & Hs0 & Hocc)].
    split; [exact Hh |]. exists s0. split; [| exact Hocc]. simpl.
    rewrite dict_get_app_other; [exact Hs0 | exact Hdup |].
    intros Heq.
    change (BleakGATTCharacteristic.service_handle st c
            = BleakGATTService.handle st s) in Heq.
    congruence.
Qed.

Lemma add_service_views_agree (st : State) (s : ref) :
  views_agree st ->
  dict_contains (__services st) (BleakGATTService.handle st s) = true \/
  BleakGATTService.characteristics st s = [] ->
  views_agree (state_after (BleakGATTServiceCollection.add_service s) st).
Proof.
  intros (Hkeys & Hreg & Hlink) Hfresh.
  destruct (add_service_sound st s Hkeys Hreg Hfresh) as [Hkeys' Hreg'].
  split; [exact Hkeys' | split; [exact Hreg' |]].
  now apply add_service_parents_linked.
Qed.

Lemma linked_state_handle (st : State) (c s x : ref) :
  BleakGATTService.handle (linked_state st c s) x =
  BleakGATTService.handle st x.
Proof.
  unfold BleakGATTService.handle, linked_state. simpl.
  destruct (Nat.eq_dec x s) as [-> | Hne].
  - now rewrite store_set_same.
  - now rewrite store_set_other.
Qed.

Lemma linked_state_parent (st : State) (c s : ref) :
  BleakGATTService.characteristics (linked_state st c s) s =
  BleakGATTService.characteristics st s ++ [c].
Proof.
  unfold BleakGATTService.characteristics, linked_state. simpl.
  now rewrite store_set_same.
Qed.

Lemma linked_state_other (st : State) (c s x : ref) :
  x <> s ->
  BleakGATTService.characteristics (linked_state st c s) x =
  BleakGATTService.characteristics st x.
Proof.
  intros Hne. unfold BleakGATTService.characteristics, linked_state. simpl.
  now rewrite store_set_other.
Qed.

(** A registered child keeps its entry when a new handle is stored. *)
Lemma registered_after_append (st : State) (c : ref) (hs : Z) (s' c' : ref) :
  children_registered st ->
  dict_get (__characteristics st)
    (Handle (BleakGATTCharacteristic.handle st c)) = None ->
  dict_get (__services st) (Handle hs) = Some s' ->
  In c' (BleakGATTService.characteristics st s') ->
  BleakGATTCharacteristic.service_handle st c' = hs /\
  dict_get
    (__characteristics st ++ [(BleakGATTCharacteristic.handle st c, c)])
    (Handle (BleakGATTCharacteristic.handle st c')) = Some c'.
Proof.
  intros Hreg Hnew Hget Hin.
  destruct (Hreg hs s' c' Hget Hin) as [Hsh Hstored].
  split; [exact Hsh |].
  rewrite dict_get_app_other; [exact Hstored | exact Hnew |].
  intros Heq. rewrite Heq in Hstored. congruence.
Qed.

Lemma linked_state_sound (st : State) (c s : ref) :
  services_by_handle st ->
  children_registered st ->
  dict_get (__characteristics st)
    (Handle (BleakGATTCharacteristic.handle st c)) = None ->
  dict_get (__services st)
    (Handle (BleakGATTCharacteristic.service_handle st c)) = Some s ->
  services_by_handle (linked_state st c s) /\
  children_registered (linked_state st c s).
Proof.
  intros Hkeys Hreg Hnew Hparent. split.
  - intros hs s' Hget. rewrite linked_state_handle. now apply Hkeys.
  - intros hs s' c' Hget Hin.
    change (dict_get (__services st) (Handle hs) = Some s') in Hget.
    change (BleakGATTCharacteristic.service_handle st c' = hs /\
            dict_get
              (__characteristics st ++
                 [(BleakGATTCharacteristic.handle st c, c)])
              (Handle (BleakGATTCharacteristic.handle st c')) = Some c').
    destruct (Nat.eq_dec s' s) as [-> | Hne].
    + rewrite linked_state_parent in Hin. apply in_app_or in Hin.
      destruct Hin as [Hin | [<- | []]].
      * now apply registered_after_append with (s' := s).
      * split.
        -- rewrite <- (Hkeys _ _ Hget). symmetry. now apply Hkeys.
        -- now apply dict_get_app_new.
    + rewrite linked_state_other in Hin by assumption.
      now apply registered_after_append with (s' := s').
Qed.

Lemma linked_state_parents_linked (st : State) (c s : ref) :
  children_registered st ->
  parents_linked st ->
  dict_get (__characteristics st)
    (Handle (BleakGATTCharacteristic.handle st c)) = None ->
  dict_get (__services st)
    (Handle (BleakGATTCharacteristic.service_handle st c)) = Some s ->
  parents_linked (linked_state st c s).
Proof.
  intros Hreg Hlink Hnew Hparent.
  assert (Hnotin : ~ In c (BleakGATTService.characteristics st s)).
  { intros Hin. destruct (Hreg _ s c Hparent Hin) as [_ Hstored]. congruence. }
  intros hc c' Hget.
  change (dict_get
            (__characteristics st ++
               [(BleakGATTCharacteristic.handle st c, c)])
            (Handle hc) = Some c') in Hget.
  change (BleakGATTCharacteristic.handle st c' = hc /\
          exists s0,
            dict_get (__services st)
              (Handle (BleakGATTCharacteristic.service_handle st c'))
            = Some s0 /\
            occurrences c'
              (BleakGATTService.characteristics (linked_state st c s) s0)
            = 1).
  apply dict_get_app_inv in Hget; [| exact Hnew].
  destruct Hget as [[-> ->] | [Hne Hget]].
  - split; [reflexivity |]. exists s. split; [exact Hparent |].
    rewrite linked_state_parent. now apply occurrences_snoc_new.
  - destruct (Hlink hc c' Hget) as [Hh (s0 & Hs0 & Hocc)].
    split; [exact Hh |]. exists s0. split; [exact Hs0 |].
    destruct (Nat.eq_dec s0 s) as [-> | Hs].
    + rewrite linked_state_parent, occurrences_snoc_other; [exact Hocc |].
      intros ->. congruence.
    + now rewrite linked_state_other.
Qed.

(** The child lists stay registered whatever [add_characteristic] does. *)
Lemma add_characteristic_sound (st : State) (c : ref) :
  services_by_handle st ->
  children_registered st ->
  services_by_handle
    (state_after (BleakGATTServiceCollection.add_characteristic c) st) /\
  children_registered
    (state_after (BleakGATTServiceCollection.add_characteristic c) st).
Proof.
  intros Hkeys Hreg. unfold state_after.
  destruct (dict_contains (__characteristics st)
              (BleakGATTCharacteristic.handle st c)) eqn:Hdup.
  - rewrite add_characteristic_duplicate by assumption.
    exact (conj Hkeys Hreg).
  - pose proof (proj1 (dict_contains_false _ _) Hdup) as Hnew.
    destruct (dict_get (__services st)
                (Handle (BleakGATTCharacteristic.service_handle st c)))
      as [s |] eqn:Hparent.
    + rewrite (add_characteristic_linked st c s Hdup Hparent).
      now apply linked_state_sound.
    + rewrite add_characteristic_orphan;
        [| assumption | now apply dict_contains_false].
      split; [exact Hkeys |].
      intros hs s' c' Hget Hin.
      exact (registered_after_append st c hs s' c' Hreg Hnew Hget Hin).
Qed.

(** [add_characteristic] keeps the views in agreement whenever it returns. *)
Lemma add_characteristic_views_agree (st : State) (c : ref) :
  views_agree st ->
  result_of (BleakGATTServiceCollection.add_characteristic c) st = Return tt ->
  views_agree (state_after (BleakGATTServiceCollection.add_characteristic c) st).
Proof.
  intros (Hkeys & Hreg & Hlink) Hreturn.
  destruct (add_characteristic_sound st c Hkeys Hreg) as [Hkeys' Hreg'].
  split; [exact Hkeys' | split; [exact Hreg' |]].
  revert Hreturn. unfold result_of, state_after.
  destruct (dict_contains (__characteristics st)
              (BleakGATTCharacteristic.handle st c)) eqn:Hdup.
  - rewrite add_characteristic_duplicate by assumption. intros _. exact Hlink.
  - destruct (dict_get (__services st)
                (Handle (BleakGATTCharacteristic.service_handle st c)))
      as [s |] eqn:Hparent.
    + rewrite (add_characteristic_linked st c s Hdup Hparent). intros _.
      apply linked_state_parents_linked; try assumption.
      now apply dict_contains_false.
    + rewrite add_characteristic_orphan; [discriminate | assumption |].
      now apply dict_contains_false.
Qed.

(** [add_descriptor] touches neither view of the characteristics. *)
Lemma add_descriptor_views (st : State) (d : ref) :
  (services_by_handle st ->
   services_by_handle
     (state_after (BleakGATTServiceCollection.add_descriptor d) st)) /\
  (children_registered st ->
   children_registered
     (state_after (BleakGATTServiceCollection.add_descriptor d) st)) /\
  (parents_linked st ->
   parents_linked
     (state_after (BleakGATTServiceCollection.add_descriptor d) st)).
Proof.
  unfold state_after.
  destruct (dict_contains (__descriptors st)
              (BleakGATTDescriptor.handle st d)) eqn:Hdup.
  - rewrite add_descriptor_duplicate by assumption.
    split; [| split]; intros H; exact H.
  - destruct (dict_get (__characteristics st)
                (Handle (BleakGATTDescriptor.characteristic_handle st d)))
      as [c |] eqn:Hparent.
    + rewrite (add_descriptor_linked st d c Hdup Hparent). simpl.
      assert (Hh : forall x,
                 chr_handle
                   (store_set (characteristic_objs st) c
                      {| chr_handle := chr_handle (characteristic_objs st c);
                         chr_uuid := chr_uuid (characteristic_objs st c);
                         chr_service_handle :=
                           chr_service_handle (characteristic_objs st c);
                         chr_descriptors :=
                           chr_descriptors (characteristic_objs st c) ++ [d] |}
                      x) = chr_handle (characteristic_objs st x)).
      { intros x. destruct (Nat.eq_dec x c) as [-> | Hne].
        - now rewrite store_set_same.
        - now rewrite store_set_other. }
      assert (Hsh : forall x,
                 chr_service_handle
                   (store_set (characteristic_objs st) c
                      {| chr_handle := chr_handle (characteristic_objs st c);
                         chr_uuid := chr_uuid (characteristic_objs st c);
                         chr_service_handle :=
                           chr_service_handle (characteristic_objs st c);
                         chr_descriptors :=
                           chr_descriptors (characteristic_objs st c) ++ [d] |}
                      x) = chr_service_handle (characteristic_objs st x)).
      { intros x. destruct (Nat.eq_dec x c) as [-> | Hne].
        - now rewrite store_set_same.
        - now rewrite store_set_other. }
      split; [intros H; exact H | split].
      * intros Hreg hs s c' Hget Hin.
        unfold BleakGATTCharacteristic.service_handle,
          BleakGATTCharacteristic.handle. simpl.
        rewrite Hh, Hsh. exact (Hreg hs s c' Hget Hin).
      * intros Hlink hc c' Hget.
        unfold BleakGATTCharacteristic.service_handle,
          BleakGATTCharacteristic.handle. simpl.
        rewrite Hh, Hsh. exact (Hlink hc c' Hget).
    + rewrite add_descriptor_orphan;
        [| assumption | now apply dict_contains_false].
      split; [| split]; intros H; exact H.
Qed.

Lemma add_descriptor_views_agree (st : State) (d : ref) :
  views_agree st ->
  views_agree (state_after (BleakGATTServiceCollection.add_descriptor d) st).
Proof.
  intros (Hkeys & Hreg & Hlink).
  destruct (add_descriptor_views st d) as (H1 & H2 & H3).
  split; [now apply H1 | split; [now apply H2 | now apply H3]].
Qed.

(** In a populated collection every service is stored under its handle and
    every child of a stored service is registered. *)
Lemma populated_sound (st : State) :
  populated st -> services_by_handle st /\ children_registered st.
Proof.
  induction 1 as [svc chr dsc | st s _ [Hkeys Hreg] Hfresh
                 | st c _ [Hkeys Hreg] | st d _ [Hkeys Hreg]].
  - apply sound_init.
  - now apply add_service_sound.
  - now apply add_characteristic_sound.
  - destruct (add_descriptor_views st d) as (H1 & H2 & _).
    split; [now apply H1 | now apply H2].
Qed.

Lemma sample_linked_populated : populated Sample.linked.
Proof.
  apply populated_add_descriptor, populated_add_characteristic,
    populated_add_service; [apply populated_init | right; reflexivity].
Qed.

Lemma sample_linked_views_agree : views_agree Sample.linked.
Proof.
  apply add_descriptor_views_agree.
  apply add_characteristic_views_agree; [| reflexivity].
  apply add_service_views_agree; [| right; reflexivity].
  apply views_agree_init.
Qed.

Lemma failed_insertion_is_kept_witness :
  (dict_contains (__characteristics Sample.linked)
     (BleakGATTCharacteristic.handle Sample.linked 3) = false /\
   dict_contains (__services Sample.linked)
     (BleakGATTCharacteristic.service_handle Sample.linked 3) = false /\
   result_of (BleakGATTServiceCollection.add_characteristic 3) Sample.linked =
   Raise (KeyError 99) /\
   __characteristics Sample.orphaned_characteristic = [(10%Z, 0); (12%Z, 3)] /\
   result_of (BleakGATTServiceCollection.get_characteristic (Handle 12))
     Sample.orphaned_characteristic = Return (Some 3) /\
   ~ In 3 (BleakGATTService.characteristics Sample.orphaned_characteristic 0))
  /\
  (dict_contains (__descriptors Sample.linked)
     (BleakGATTDescriptor.handle Sample.linked 1) = false /\
   dict_contains (__characteristics Sample.linked)
     (BleakGATTDescriptor.characteristic_handle Sample.linked 1) = false /\
   result_of (BleakGATTServiceCollection.add_descriptor 1) Sample.linked =
   Raise (KeyError 77) /\
   __descriptors Sample.orphaned_descriptor = [(20%Z, 0); (21%Z, 1)] /\
   result_of (BleakGATTServiceCollection.get_descriptor (Handle 21))
     Sample.orphaned_descriptor = Return (Some 1)).
Proof.
  destruct (failed_insertion_is_kept Sample.linked 3 1) as [Hc Hd].
  split.
  - destruct (Hc eq_refl eq_refl) as (Hr & Hdict & Hget & _ & _ & Habsent).
    repeat split; try assumption.
    apply (Habsent (proj2 (populated_sound _ sample_linked_populated)) 1%Z 0).
    reflexivity.
  - destruct (Hd eq_refl eq_refl) as (Hr & Hdict & Hget & _).
    repeat split; assumption.
Defined.

(** ** Linking a characteristic to its service *)

(** C6, as amended: in a populated collection that stores a service [s]
    under the [service_handle] of a characteristic [c] whose own handle is
    new, [add_characteristic] returns normally; afterwards [c] is stored
    under its handle and is the last element of the child list of [s], where
    it occurs once, and the two views agree if they did before.  A further
    [add_characteristic] of any characteristic with the same handle returns
    normally and changes neither the dictionary nor any child list. *)
Theorem add_characteristic_links_child :
  forall (st : State) (c s : ref),
    populated st ->
    dict_get (__services st)
      (Handle (BleakGATTCharacteristic.service_handle st c)) = Some s ->
    dict_contains (__characteristics st)
      (BleakGATTCharacteristic.handle st c) = false ->
    let st' :=
      state_after (BleakGATTServiceCollection.add_characteristic c) st in
    result_of (BleakGATTServiceCollection.add_characteristic c) st =
    Return tt /\
    dict_get (__characteristics st')
      (Handle (BleakGATTCharacteristic.handle st c)) = Some c /\
    BleakGATTService.characteristics st' s =
    BleakGATTService.characteristics st s ++ [c] /\
    occurrences c (BleakGATTService.characteristics st' s) = 1 /\
    (views_agree st -> views_agree st') /\
    (forall c2,
        BleakGATTCharacteristic.handle st' c2 =
        BleakGATTCharacteristic.handle st c ->
        let st'' :=
          state_after (BleakGATTServiceCollection.add_characteristic c2) st' in
        result_of (BleakGATTServiceCollection.add_characteristic c2) st' =
        Return tt /\
        __characteristics st'' = __characteristics st' /\
        (forall x, BleakGATTService.characteristics st'' x =
                   BleakGATTService.characteristics st' x)).
Proof.
  intros st c s Hpop Hparent Hnew st'. subst st'.
  destruct (populated_sound st Hpop) as [Hkeys Hreg].
  unfold result_of, state_after.
  rewrite (add_characteristic_linked st c s Hnew Hparent). simpl.
  pose proof (proj1 (dict_contains_false _ _) Hnew) as Hnone.
  assert (Hstored :
            dict_get (__characteristics (linked_state st c s))
              (Handle (BleakGATTCharacteristic.handle st c)) = Some c)
    by now apply dict_get_app_new.
  split; [reflexivity |]. split; [exact Hstored |].
  split; [apply linked_state_parent |].
  split; [| split].
  - rewrite linked_state_parent. apply occurrences_snoc_new.
    intros Hin. destruct (Hreg _ s c Hparent Hin) as [_ Hold]. congruence.
  - intros (_ & _ & Hlink).
    destruct (linked_state_sound st c s Hkeys Hreg Hnone Hparent)
      as [Hkeys' Hreg'].
    split; [exact Hkeys' | split; [exact Hreg' |]].
    now apply linked_state_parents_linked.
  - intros c2 Hsame.
    assert (Hdup : dict_contains (__characteristics (linked_state st c s))
                     (BleakGATTCharacteristic.handle (linked_state st c s) c2)
                   = true).
    { apply dict_contains_true. exists c. now rewrite Hsame. }
    rewrite (add_characteristic_duplicate _ _ Hdup).
    split; [reflexivity |]. split; [reflexivity |].
    intros x. reflexivity.
Qed.

Lemma add_characteristic_links_child_witness :
  populated Sample.linked /\
  dict_get (__services Sample.linked)
    (Handle (BleakGATTCharacteristic.service_handle Sample.linked 2)) = Some 0 /\
  dict_contains (__characteristics Sample.linked)
    (BleakGATTCharacteristic.handle Sample.linked 2) = false /\
  result_of (BleakGATTServiceCollection.add_characteristic 2) Sample.linked =
  Return tt /\
  BleakGATTService.characteristics
    (state_after (BleakGATTServiceCollection.add_characteristic 2) Sample.linked)
    0 = [0; 2] /\
  occurrences 2
    (BleakGATTService.characteristics
       (state_after (BleakGATTServiceCollection.add_characteristic 2)
          Sample.linked) 0) = 1 /\
  views_agree
    (state_after (BleakGATTServiceCollection.add_characteristic 2)
       Sample.linked).
Proof.
  destruct (add_characteristic_links_child Sample.linked 2 0
              sample_linked_populated eq_refl eq_refl)
    as (Hr & _ & Hlist & Honce & Hagree & _).
  split; [exact sample_linked_populated |].
  split; [reflexivity |]. split; [reflexivity |].
  split; [exact Hr |]. split; [exact Hlist |]. split; [exact Honce |].
  exact (Hagree sample_linked_views_agree).
Defined.

(** C6, as stated, fails twice.  Service A is stored under handle 1 and
    characteristic 1 names it, but handle 10 is taken by characteristic 0:
    the call returns normally and characteristic 1 is neither stored under
    its handle nor in the child list of A.  And when characteristic 0 came
    before its service, it is stored under its handle and names the stored
    service A, yet the child list of A is empty. *)
Lemma add_characteristic_views_disagree :
  (dict_get (__services Sample.linked)
     (Handle (BleakGATTCharacteristic.service_handle Sample.linked 1)) = Some 0
   /\
   result_of (BleakGATTServiceCollection.add_characteristic 1) Sample.linked =
   Return tt /\
   dict_get
     (__characteristics
        (state_after (BleakGATTServiceCollection.add_characteristic 1)
           Sample.linked))
     (Handle (BleakGATTCharacteristic.handle Sample.linked 1)) <> Some 1 /\
   ~ In 1
       (BleakGATTService.characteristics
          (state_after (BleakGATTServiceCollection.add_characteristic 1)
             Sample.linked) 0))
  /\
  (dict_get (__characteristics Sample.late_parent) (Handle 10) = Some 0 /\
   dict_get (__services Sample.late_parent)
     (Handle (BleakGATTCharacteristic.service_handle Sample.late_parent 0))
   = Some 0 /\
   BleakGATTService.characteristics Sample.late_parent 0 = []).
Proof.
  split.
  - split; [reflexivity |]. split; [reflexivity |]. split.
    + discriminate.
    + simpl. intros [H | []]. discriminate H.
  - repeat split.
Qed.

(** ** Adding and finding a service *)

Lemma add_service_duplicate (st : State) (s : ref) :
  dict_contains (__services st) (BleakGATTService.handle st s) = true ->
  BleakGATTServiceCollection.add_service s st =
  logger_error
    "The service '%s' is already present in this BleakGATTServiceCollection!"
    (BleakGATTService.handle st s) st.
Proof.
  intros H. unfold BleakGATTServiceCollection.add_service, bind, get_state.
  now rewrite H.
Qed.

Lemma add_service_new (st : State) (s : ref) :
  dict_contains (__services st) (BleakGATTService.handle st s) = false ->
  BleakGATTServiceCollection.add_service s st =
  (Return tt,
   set___services (__services st ++ [(BleakGATTService.handle st s, s)]) st).
Proof.
  intros H. unfold BleakGATTServiceCollection.add_service, bind, get_state.
  rewrite H. simpl. apply dict_contains_false in H.
  unfold put_state. now rewrite dict_setitem_new.
Qed.

(** C5, as amended: when the handle of a service [s] is not yet a key of the
    service dictionary, [add_service] returns normally and [get_service] on
    that handle then returns [s] itself; a second [add_service] of a service
    with that handle returns normally, leaves the dictionary as it is, so
    that [get_service] still returns [s], and adds one record to the log.
    In general [add_service] on a handle that is taken returns normally,
    keeps the dictionary and logs one record. *)
Theorem add_service_then_get_service :
  forall (st : State) (s : ref),
    (dict_contains (__services st) (BleakGATTService.handle st s) = false ->
     let st' := state_after (BleakGATTServiceCollection.add_service s) st in
     result_of (BleakGATTServiceCollection.add_service s) st = Return tt /\
     result_of
       (BleakGATTServiceCollection.get_service
          (Handle (BleakGATTService.handle st s))) st' = Return (Some s) /\
     logged st' = logged st /\
     forall s2,
       BleakGATTService.handle st' s2 = BleakGATTService.handle st s ->
       let st'' := state_after (BleakGATTServiceCollection.add_service s2) st' in
       result_of (BleakGATTServiceCollection.add_service s2) st' = Return tt /\
       __services st'' = __services st' /\
       result_of
         (BleakGATTServiceCollection.get_service
            (Handle (BleakGATTService.handle st s))) st'' = Return (Some s) /\
       logged st'' =
       logged st' ++
         [LogError
            "The service '%s' is already present in this BleakGATTServiceCollection!"
            (BleakGATTService.handle st s)])
    /\
    (forall s0,
        dict_get (__services st) (Handle (BleakGATTService.handle st s))
        = Some s0 ->
        let st' := state_after (BleakGATTServiceCollection.add_service s) st in
        result_of (BleakGATTServiceCollection.add_service s) st = Return tt /\
        __services st' = __services st /\
        result_of
          (BleakGATTServiceCollection.get_service
             (Handle (BleakGATTService.handle st s))) st' = Return (Some s0) /\
        logged st' =
        logged st ++
          [LogError
             "The service '%s' is already present in this BleakGATTServiceCollection!"
             (BleakGATTService.handle st s)]).
Proof.
  intros st s.
  assert (Hdup : forall st0 s1 s0,
             dict_get (__services st0)
               (Handle (BleakGATTService.handle st0 s1)) = Some s0 ->
             let st' :=
               state_after (BleakGATTServiceCollection.add_service s1) st0 in
             result_of (BleakGATTServiceCollection.add_service s1) st0
             = Return tt /\
             __services st' = __services st0 /\
             result_of
               (BleakGATTServiceCollection.get_service
                  (Handle (BleakGATTService.handle st0 s1))) st'
             = Return (Some s0) /\
             logged st' =
             logged st0 ++
               [LogError
                  "The service '%s' is already present in this BleakGATTServiceCollection!"
                  (BleakGATTService.handle st0 s1)]).
  { intros st0 s1 s0 Hget st'. subst st'. unfold result_of, state_after.
    rewrite add_service_duplicate
      by (apply dict_contains_true; now exists s0).
    split; [reflexivity |]. split; [reflexivity |].
    split; [| reflexivity].
    unfold_collection. simpl. now rewrite Hget. }
  split.
  - intros Hnew st'. subst st'. unfold result_of, state_after.
    rewrite (add_service_new st s Hnew).
    pose proof (proj1 (dict_contains_false _ _) Hnew) as Hnone.
    assert (Hstored :
              dict_get (__services st ++ [(BleakGATTService.handle st s, s)])
                (Handle (BleakGATTService.handle st s)) = Some s)
      by now apply dict_get_app_new.
    split; [reflexivity |]. split.
    { unfold_collection. simpl. now rewrite Hstored. }
    split; [reflexivity |].
    intros s2 Hsame.
    change (fst (Return tt,
                 set___services
                   (__services st ++ [(BleakGATTService.handle st s, s)]) st))
      with (@Return unit tt).
    set (st1 := set___services
                  (__services st ++ [(BleakGATTService.handle st s, s)]) st)
      in *.
    simpl snd in *.
    assert (Hget1 : dict_get (__services st1)
                      (Handle (BleakGATTService.handle st1 s2)) = Some s).
    { rewrite Hsame. exact Hstored. }
    destruct (Hdup st1 s2 s Hget1) as (H1 & H2 & H3 & H4).
    rewrite Hsame in H3, H4. unfold result_of, state_after in *.
    repeat split; assumption.
  - intros s0 Hget. exact (Hdup st s s0 Hget).
Qed.

Lemma add_service_then_get_service_witness :
  dict_contains (__services Sample.empty)
    (BleakGATTService.handle Sample.empty 0) = false /\
  result_of (BleakGATTServiceCollection.add_service 0) Sample.empty =
  Return tt /\
  result_of (BleakGATTServiceCollection.get_service (Handle 1))
    (state_after (BleakGATTServiceCollection.add_service 0) Sample.empty) =
  Return (Some 0) /\
  result_of (BleakGATTServiceCollection.get_service (Handle 1))
    (state_after (BleakGATTServiceCollection.add_service 3)
       (state_after (BleakGATTServiceCollection.add_service 0) Sample.empty)) =
  Return (Some 0).
Proof.
  destruct (add_service_then_get_service Sample.empty 0) as [Hnew _].
  destruct (Hnew eq_refl) as (Hr & Hget & _ & Hsecond).
  destruct (Hsecond 3 eq_refl) as (_ & _ & Hget2 & _).
  split; [reflexivity |]. split; [exact Hr |].
  split; [exact Hget | exact Hget2].
Defined.

(** C5, as stated for every collection, fails: service A is stored under
    handle 1, service D is another object with handle 1, and after
    [add_service] of D the lookup of handle 1 still returns A, not D. *)
Lemma add_service_taken_handle :
  BleakGATTService.handle Sample.linked 3 = 1%Z /\
  result_of (BleakGATTServiceCollection.add_service 3) Sample.linked =
  Return tt /\
  result_of
    (BleakGATTServiceCollection.get_service
       (Handle (BleakGATTService.handle Sample.linked 3)))
    (state_after (BleakGATTServiceCollection.add_service 3) Sample.linked)
  <> Return (Some 3).
Proof.
  split; [reflexivity |]. split; [reflexivity |]. discriminate.
Qed.

(** ** Lookup by UUID *)

Section Matching.

Variable p : ref -> bool.

Lemma filter_length_count (l : list ref) :
  List.length (filter p l) = count_matching p l.
Proof.
  induction l as [| x rest IH]; simpl; [reflexivity |].
  destruct (p x); simpl; now rewrite IH.
Qed.

Lemma count_zero_filter (l : list ref) :
  count_matching p l = 0 -> filter p l = [].
Proof.
  intros H. rewrite <- filter_length_count in H.
  now apply length_zero_iff_nil.
Qed.

Lemma count_one_filter (l : list ref) :
  count_matching p l = 1 ->
  exists x,
    filter p l = [x] /\ In x l /\ p x = true /\
    forall y, In y l -> p y = true -> y = x.
Proof.
  intros H. rewrite <- filter_length_count in H.
  destruct (filter p l) as [| x [| y rest]] eqn:Hf; try discriminate.
  exists x. split; [reflexivity |].
  assert (Hx : In x (filter p l)) by (rewrite Hf; now left).
  apply filter_In in Hx. destruct Hx as [Hin Hp].
  split; [exact Hin |]. split; [exact Hp |].
  intros y Hy Hpy.
  assert (Hy' : In y (filter p l)) by (apply filter_In; now split).
  rewrite Hf in Hy'. destruct Hy' as [<- | []]. reflexivity.
Qed.

(** The three outcomes of [len(x) > 1] and [x[0] if x else None]. *)
Lemma first_or_None_three_way (l : list ref) :
  (count_matching p l = 0 ->
   Nat.ltb 1 (List.length (filter p l)) = false /\
   first_or_None (filter p l) = None) /\
  (count_matching p l = 1 ->
   exists x,
     Nat.ltb 1 (List.length (filter p l)) = false /\
     first_or_None (filter p l) = Some x /\
     In x l /\ p x = true /\ forall y, In y l -> p y = true -> y = x) /\
  (1 < count_matching p l ->
   Nat.ltb 1 (List.length (filter p l)) = true).
Proof.
  split; [| split].
  - intros H. now rewrite (count_zero_filter l H).
  - intros H. destruct (count_one_filter l H) as (x & Hf & Hin & Hp & Huniq).
    exists x. rewrite Hf. repeat split; assumption.
  - intros H. rewrite filter_length_count. now apply Nat.ltb_lt.
Qed.

End Matching.

(** The three outcomes of the two lookups, in terms of the comparison each
    of them makes. *)
Lemma lookup_three_way_by_comparison (st : State) (u : UuidArg) :
  let matches_s :=
    BleakGATTServiceCollection.service_uuid_matches st
      (BleakGATTServiceCollection._specifier u) in
  let matches_c :=
    BleakGATTServiceCollection.characteristic_uuid_matches st u in
  BleakGATTServiceCollection.get_service (ByUuid u) st =
  (if Nat.ltb 1
        (List.length
           (filter matches_s
              (dict_values (BleakGATTServiceCollection.services st))))
   then
     Raise
       (BleakError
          "Multiple Services with this UUID, refer to your desired service by the `handle` attribute instead.")
   else
     Return
       (first_or_None
          (filter matches_s
             (dict_values (BleakGATTServiceCollection.services st)))),
   st)
  /\
  BleakGATTServiceCollection.get_characteristic (ByUuid u) st =
  (if Nat.ltb 1
        (List.length
           (filter matches_c
              (dict_values (BleakGATTServiceCollection.characteristics st))))
   then
     Raise
       (BleakError
          "Multiple Characteristics with this UUID, refer to your desired characteristic by the `handle` attribute instead.")
   else
     Return
       (first_or_None
          (filter matches_c
             (dict_values (BleakGATTServiceCollection.characteristics st)))),
   st).
Proof.
  intros matches_s matches_c. split.
  - unfold BleakGATTServiceCollection.get_service, bind, get_state, ret, raise.
    fold matches_s. destruct (Nat.ltb 1 _); reflexivity.
  - unfold BleakGATTServiceCollection.get_characteristic, bind, get_state,
      ret, raise.
    fold matches_c. destruct (Nat.ltb 1 _); reflexivity.
Qed.

(** Where the stored UUIDs are in normal form and the query is not a
    four-character string, the comparison of [get_characteristic] is the
    comparison of the normal forms. *)
Lemma characteristic_comparison_normalised (st : State) (u : UuidArg)
    (c : ref) :
  uuid_normalised st c ->
  BleakGATTService.expand_short u = u ->
  BleakGATTServiceCollection.characteristic_uuid_matches st u c =
  normalised_uuid_matches st u c.
Proof.
  intros Hstored Hlong.
  unfold BleakGATTServiceCollection.characteristic_uuid_matches,
    normalised_uuid_matches.
  unfold uuid_normalised in Hstored. rewrite Hstored.
  assert (Hnorm : normalize_uuid u = lower (str u)).
  { unfold BleakGATTService.expand_short in Hlong. unfold normalize_uuid.
    destruct u as [s | n]; [| reflexivity].
    cbn [is_str str andb] in *.
    destruct (Nat.eqb (len s) 4); [| reflexivity].
    injection Hlong as Hlong. now rewrite Hlong. }
  now rewrite Hnorm.
Qed.

(** C2, and where the code departs from it.  [get_service] has the three
    outcomes of the claim: with [ns] the number of stored services whose
    lower-cased UUID equals the normalised specifier, it returns [None] when
    [ns] is zero, the one stored service that matches when [ns] is one, and
    raises [BleakError] without returning a service when [ns] is larger.
    [get_characteristic] has the same three outcomes, with [nc] the number of
    stored characteristics whose normalised UUID equals the normalised query,
    as long as the stored UUIDs are in normal form and the query is not a
    four-character string.  Outside that it departs from the claim: on the
    sample peripheral one stored characteristic matches 2a00, and one matches
    the upper-case UUID of characteristic 2, yet [get_characteristic] returns
    [None] for both. *)
Theorem uuid_lookup_three_way :
  (forall (st : State) (u : UuidArg),
      let matches_s :=
        BleakGATTServiceCollection.service_uuid_matches st
          (BleakGATTServiceCollection._specifier u) in
      let ns :=
        count_matching matches_s
          (dict_values (BleakGATTServiceCollection.services st)) in
      (ns = 0 ->
       BleakGATTServiceCollection.get_service (ByUuid u) st = (Return None, st))
      /\
      (ns = 1 ->
       exists s,
         BleakGATTServiceCollection.get_service (ByUuid u) st =
         (Return (Some s), st) /\
         In s (dict_values (BleakGATTServiceCollection.services st)) /\
         matches_s s = true /\
         forall s',
           In s' (dict_values (BleakGATTServiceCollection.services st)) ->
           matches_s s' = true -> s' = s)
      /\
      (1 < ns ->
       exists msg,
         BleakGATTServiceCollection.get_service (ByUuid u) st =
         (Raise (BleakError msg), st)))
  /\
  (forall (st : State) (u : UuidArg),
      (forall c,
          In c (dict_values (BleakGATTServiceCollection.characteristics st)) ->
          uuid_normalised st c) ->
      BleakGATTService.expand_short u = u ->
      let nc :=
        count_matching (normalised_uuid_matches st u)
          (dict_values (BleakGATTServiceCollection.characteristics st)) in
      (nc = 0 ->
       BleakGATTServiceCollection.get_characteristic (ByUuid u) st =
       (Return None, st))
      /\
      (nc = 1 ->
       exists c,
         BleakGATTServiceCollection.get_characteristic (ByUuid u) st =
         (Return (Some c), st) /\
         In c (dict_values (BleakGATTServiceCollection.characteristics st)) /\
         normalised_uuid_matches st u c = true /\
         forall c',
           In c' (dict_values (BleakGATTServiceCollection.characteristics st))
           ->
           normalised_uuid_matches st u c' = true -> c' = c)
      /\
      (1 < nc ->
       exists msg,
         BleakGATTServiceCollection.get_characteristic (ByUuid u) st =
         (Raise (BleakError msg), st)))
  /\
  (count_matching (normalised_uuid_matches Sample.linked (UuidStr "2a00"))
     (dict_values (BleakGATTServiceCollection.characteristics Sample.linked))
   = 1 /\
   result_of
     (BleakGATTServiceCollection.get_characteristic (ByUuid (UuidStr "2a00")))
     Sample.linked = Return None /\
   count_matching
     (normalised_uuid_matches Sample.upper_case
        (UuidStr Sample.appearance_uuid_upper))
     (dict_values (BleakGATTServiceCollection.characteristics Sample.upper_case))
   = 1 /\
   result_of
     (BleakGATTServiceCollection.get_characteristic
        (ByUuid (UuidStr Sample.appearance_uuid_upper)))
     Sample.upper_case = Return None).
Proof.
  split; [| split].
  - intros st u matches_s ns.
    destruct (lookup_three_way_by_comparison st u) as [Hrun _].
    cbv zeta in Hrun. fold matches_s in Hrun. rewrite Hrun.
    destruct (first_or_None_three_way matches_s
                (dict_values (BleakGATTServiceCollection.services st)))
      as (H0 & H1 & H2).
    split; [| split].
    + intros H. destruct (H0 H) as [-> ->]. reflexivity.
    + intros H. destruct (H1 H) as (s & -> & -> & Hrest).
      exists s. split; [reflexivity | exact Hrest].
    + intros H. rewrite (H2 H). eexists. reflexivity.
  - intros st u Hstored Hlong nc.
    destruct (lookup_three_way_by_comparison st u) as [_ Hrun].
    cbv zeta in Hrun. rewrite Hrun.
    rewrite (filter_ext_in
               (BleakGATTServiceCollection.characteristic_uuid_matches st u)
               (normalised_uuid_matches st u)).
    2:{ intros c Hc. apply characteristic_comparison_normalised;
          [now apply Hstored | exact Hlong]. }
    destruct (first_or_None_three_way (normalised_uuid_matches st u)
                (dict_values (BleakGATTServiceCollection.characteristics st)))
      as (H0 & H1 & H2).
    split; [| split].
    + intros H. destruct (H0 H) as [-> ->]. reflexivity.
    + intros H. destruct (H1 H) as (c & -> & -> & Hrest).
      exists c. split; [reflexivity | exact Hrest].
    + intros H. rewrite (H2 H). eexists. reflexivity.
  - repeat split.
Qed.

Lemma uuid_lookup_three_way_witness :
  (count_matching
     (BleakGATTServiceCollection.service_uuid_matches Sample.linked
        (BleakGATTServiceCollection._specifier (UuidStr "2a00")))
     (dict_values (BleakGATTServiceCollection.services Sample.linked)) = 0 /\
   result_of (BleakGATTServiceCollection.get_service (ByUuid (UuidStr "2a00")))
     Sample.linked = Return None)
  /\
  (count_matching
     (BleakGATTServiceCollection.service_uuid_matches Sample.linked
        (BleakGATTServiceCollection._specifier (UuidStr "1800")))
     (dict_values (BleakGATTServiceCollection.services Sample.linked)) = 1 /\
   exists s,
     BleakGATTServiceCollection.get_service (ByUuid (UuidStr "1800"))
       Sample.linked = (Return (Some s), Sample.linked))
  /\
  (1 < count_matching
         (BleakGATTServiceCollection.service_uuid_matches Sample.ambiguous
            (BleakGATTServiceCollection._specifier (UuidStr "1800")))
         (dict_values (BleakGATTServiceCollection.services Sample.ambiguous))
   /\
   exists msg,
     BleakGATTServiceCollection.get_service (ByUuid (UuidStr "1800"))
       Sample.ambiguous = (Raise (BleakError msg), Sample.ambiguous))
  /\
  ((forall c,
       In c (dict_values (BleakGATTServiceCollection.characteristics
                            Sample.orphaned_characteristic)) ->
       uuid_normalised Sample.orphaned_characteristic c) /\
   BleakGATTService.expand_short (UuidStr Sample.cccd_uuid)
   = UuidStr Sample.cccd_uuid /\
   BleakGATTService.expand_short (UuidStr Sample.device_name_uuid)
   = UuidStr Sample.device_name_uuid)
  /\
  (count_matching
     (normalised_uuid_matches Sample.linked (UuidStr Sample.cccd_uuid))
     (dict_values (BleakGATTServiceCollection.characteristics Sample.linked))
   = 0 /\
   result_of
     (BleakGATTServiceCollection.get_characteristic
        (ByUuid (UuidStr Sample.cccd_uuid))) Sample.linked = Return None)
  /\
  (count_matching
     (normalised_uuid_matches Sample.linked (UuidStr Sample.device_name_uuid))
     (dict_values (BleakGATTServiceCollection.characteristics Sample.linked))
   = 1 /\
   exists c,
     BleakGATTServiceCollection.get_characteristic
       (ByUuid (UuidStr Sample.device_name_uuid)) Sample.linked =
     (Return (Some c), Sample.linked))
  /\
  (1 < count_matching
         (normalised_uuid_matches Sample.orphaned_characteristic
            (UuidStr Sample.device_name_uuid))
         (dict_values
            (BleakGATTServiceCollection.characteristics
               Sample.orphaned_characteristic))
   /\
   exists msg,
     BleakGATTServiceCollection.get_characteristic
       (ByUuid (UuidStr Sample.device_name_uuid))
       Sample.orphaned_characteristic =
     (Raise (BleakError msg), Sample.orphaned_characteristic)).
Proof.
  destruct uuid_lookup_three_way as (Hs & Hc & _).
  assert (Hstored2 : forall c,
             In c (dict_values (BleakGATTServiceCollection.characteristics
                                  Sample.orphaned_characteristic)) ->
             uuid_normalised Sample.orphaned_characteristic c).
  { intros c [<- | [<- | []]]; reflexivity. }
  assert (Hstored1 : forall c,
             In c (dict_values (BleakGATTServiceCollection.characteristics
                                  Sample.linked)) ->
             uuid_normalised Sample.linked c).
  { intros c [<- | []]; reflexivity. }
  split.
  { destruct (Hs Sample.linked (UuidStr "2a00")) as (H & _ & _).
    split; [reflexivity |]. unfold result_of. now rewrite (H eq_refl). }
  split.
  { destruct (Hs Sample.linked (UuidStr "1800")) as (_ & H & _).
    split; [reflexivity |]. destruct (H eq_refl) as (s & Hfound & _).
    now exists s. }
  split.
  { destruct (Hs Sample.ambiguous (UuidStr "1800")) as (_ & _ & H).
    assert (Hlt : 1 < 2) by lia. split; [exact Hlt |]. exact (H Hlt). }
  split.
  { split; [exact Hstored2 |]. split; reflexivity. }
  split.
  { destruct (Hc Sample.linked (UuidStr Sample.cccd_uuid) Hstored1 eq_refl)
      as (H & _ & _).
    split; [reflexivity |]. unfold result_of. now rewrite (H eq_refl). }
  split.
  { destruct (Hc Sample.linked (UuidStr Sample.device_name_uuid) Hstored1
                eq_refl) as (_ & H & _).
    split; [reflexivity |]. destruct (H eq_refl) as (c & Hfound & _).
    now exists c. }
  { destruct (Hc Sample.orphaned_characteristic
                (UuidStr Sample.device_name_uuid) Hstored2 eq_refl)
      as (_ & _ & H).
    assert (Hlt : 1 < 2) by lia. split; [exact Hlt |]. exact (H Hlt). }
Defined.

(** ** Lookups read only *)

Lemma get_service_pure (st : State) (x : Specifier) :
  state_after (BleakGATTServiceCollection.get_service x) st = st.
Proof.
  unfold state_after, BleakGATTServiceCollection.get_service, bind, get_state.
  destruct x as [h | u]; [reflexivity |].
  destruct (Nat.ltb 1 _); reflexivity.
Qed.

Lemma get_characteristic_pure (st : State) (x : Specifier) :
  state_after (BleakGATTServiceCollection.get_characteristic x) st = st.
Proof.
  unfold state_after, BleakGATTServiceCollection.get_characteristic, bind,
    get_state.
  destruct x as [h | u]; [reflexivity |].
  destruct (Nat.ltb 1 _); reflexivity.
Qed.

Lemma run_eta {A : Type} (m : M A) (st : State) :
  m st = (result_of m st, state_after m st).
Proof. unfold result_of, state_after. now destruct (m st). Qed.

(** ** The combined lookup *)

(** C7: [collection[x]] tries the service lookup, then the characteristic
    lookup, then the descriptor lookup.  A service that is found is the
    result; when the service lookup returns [None], a characteristic that is
    found is the result; when both return [None], the result is that of the
    descriptor lookup, which is [None] when it finds nothing either.  An
    ambiguity error of a lookup that is reached is raised.  In particular a
    handle that is a key of the characteristic dictionary and not of the
    service dictionary yields the characteristic stored under it.  The state
    is left as it is. *)
Theorem getitem_priority :
  forall (st : State) (x : Specifier),
    (forall s,
        result_of (BleakGATTServiceCollection.get_service x) st
        = Return (Some s) ->
        result_of (BleakGATTServiceCollection.getitem x) st
        = Return (Some (AService s)))
    /\
    (result_of (BleakGATTServiceCollection.get_service x) st = Return None ->
     (forall c,
         result_of (BleakGATTServiceCollection.get_characteristic x) st
         = Return (Some c) ->
         result_of (BleakGATTServiceCollection.getitem x) st
         = Return (Some (ACharacteristic c)))
     /\
     (result_of (BleakGATTServiceCollection.get_characteristic x) st
      = Return None ->
      (forall d,
          result_of (BleakGATTServiceCollection.get_descriptor x) st
          = Return (Some d) ->
          result_of (BleakGATTServiceCollection.getitem x) st
          = Return (Some (ADescriptor d)))
      /\
      (result_of (BleakGATTServiceCollection.get_descriptor x) st
       = Return None ->
       result_of (BleakGATTServiceCollection.getitem x) st = Return None))
     /\
     (forall e,
         result_of (BleakGATTServiceCollection.get_characteristic x) st
         = Raise e ->
         result_of (BleakGATTServiceCollection.getitem x) st = Raise e))
    /\
    (forall e,
        result_of (BleakGATTServiceCollection.get_service x) st = Raise e ->
        result_of (BleakGATTServiceCollection.getitem x) st = Raise e)
    /\
    (forall h c,
        x = Handle h ->
        dict_get (BleakGATTServiceCollection.services st) (Handle h) = None ->
        dict_get (BleakGATTServiceCollection.characteristics st) (Handle h)
        = Some c ->
        result_of (BleakGATTServiceCollection.getitem x) st
        = Return (Some (ACharacteristic c)))
    /\
    state_after (BleakGATTServiceCollection.getitem x) st = st.
Proof.
  intros st x.
  pose proof (run_eta (BleakGATTServiceCollection.get_service x) st) as Es.
  pose proof (run_eta (BleakGATTServiceCollection.get_characteristic x) st)
    as Ec.
  rewrite get_service_pure in Es. rewrite get_characteristic_pure in Ec.
  assert (Eitem :
            BleakGATTServiceCollection.getitem x st =
            match result_of (BleakGATTServiceCollection.get_service x) st with
            | Raise e => (Raise e, st)
            | Return (Some s) => (Return (Some (AService s)), st)
            | Return None =>
                match
                  result_of (BleakGATTServiceCollection.get_characteristic x) st
                with
                | Raise e => (Raise e, st)
                | Return (Some c) => (Return (Some (ACharacteristic c)), st)
                | Return None =>
                    (Return
                       (option_map ADescriptor
                          (dict_get (BleakGATTServiceCollection.descriptors st)
                             x)), st)
                end
            end).
  { unfold BleakGATTServiceCollection.getitem, py_or.
    unfold bind at 1. unfold bind at 1. rewrite Es.
    destruct (result_of (BleakGATTServiceCollection.get_service x) st)
      as [[s |] | e]; simpl; try reflexivity.
    unfold bind at 1. unfold bind at 1. rewrite Ec.
    destruct (result_of (BleakGATTServiceCollection.get_characteristic x) st)
      as [[c |] | e]; simpl; reflexivity. }
  assert (Ed : result_of (BleakGATTServiceCollection.get_descriptor x) st =
               Return (dict_get (BleakGATTServiceCollection.descriptors st) x))
    by reflexivity.
  assert (Eres :
            result_of (BleakGATTServiceCollection.getitem x) st =
            match result_of (BleakGATTServiceCollection.get_service x) st with
            | Raise e => Raise e
            | Return (Some s) => Return (Some (AService s))
            | Return None =>
                match
                  result_of (BleakGATTServiceCollection.get_characteristic x) st
                with
                | Raise e => Raise e
                | Return (Some c) => Return (Some (ACharacteristic c))
                | Return None =>
                    Return
                      (option_map ADescriptor
                         (dict_get (BleakGATTServiceCollection.descriptors st)
                            x))
                end
            end).
  { transitivity (fst (BleakGATTServiceCollection.getitem x st));
      [reflexivity |].
    rewrite Eitem.
    destruct (result_of (BleakGATTServiceCollection.get_service x) st)
      as [[s |] | e]; try reflexivity.
    destruct (result_of (BleakGATTServiceCollection.get_characteristic x) st)
      as [[c |] | e]; reflexivity. }
  split; [| split; [| split; [| split]]].
  - intros s Hs. now rewrite Eres, Hs.
  - intros Hs. split; [| split].
    + intros c Hc. now rewrite Eres, Hs, Hc.
    + intros Hc. split.
      * intros d Hd. rewrite Eres, Hs, Hc. rewrite Ed in Hd.
        injection Hd as ->. reflexivity.
      * intros Hd. rewrite Eres, Hs, Hc. rewrite Ed in Hd.
        injection Hd as ->. reflexivity.
    + intros e He. now rewrite Eres, Hs, He.
  - intros e He. now rewrite Eres, He.
  - intros h c -> Hs Hc. rewrite Eres.
    unfold result_of, BleakGATTServiceCollection.get_service,
      BleakGATTServiceCollection.get_characteristic, bind, get_state, ret.
    simpl. now rewrite Hs, Hc.
  - transitivity (snd (BleakGATTServiceCollection.getitem x st));
      [reflexivity |].
    rewrite Eitem.
    destruct (result_of (BleakGATTServiceCollection.get_service x) st)
      as [[s |] | e]; try reflexivity.
    destruct (result_of (BleakGATTServiceCollection.get_characteristic x) st)
      as [[c |] | e]; reflexivity.
Qed.

Lemma getitem_priority_witness :
  (dict_get (BleakGATTServiceCollection.services Sample.linked) (Handle 10)
   = None /\
   dict_get (BleakGATTServiceCollection.characteristics Sample.linked)
     (Handle 10) = Some 0 /\
   result_of (BleakGATTServiceCollection.getitem (Handle 10)) Sample.linked
   = Return (Some (ACharacteristic 0)))
  /\
  (result_of (BleakGATTServiceCollection.get_service (Handle 1)) Sample.linked
   = Return (Some 0) /\
   result_of (BleakGATTServiceCollection.getitem (Handle 1)) Sample.linked
   = Return (Some (AService 0)))
  /\
  (result_of (BleakGATTServiceCollection.get_service (Handle 20)) Sample.linked
   = Return None /\
   result_of (BleakGATTServiceCollection.get_characteristic (Handle 20))
     Sample.linked = Return None /\
   result_of (BleakGATTServiceCollection.get_descriptor (Handle 20))
     Sample.linked = Return (Some 0) /\
   result_of (BleakGATTServiceCollection.getitem (Handle 20)) Sample.linked
   = Return (Some (ADescriptor 0)))
  /\
  (result_of (BleakGATTServiceCollection.get_descriptor (Handle 5))
     Sample.linked = Return None /\
   result_of (BleakGATTServiceCollection.getitem (Handle 5)) Sample.linked
   = Return None)
  /\
  (exists e,
      result_of (BleakGATTServiceCollection.get_service (ByUuid (UuidStr "1800")))
        Sample.ambiguous = Raise e /\
      result_of (BleakGATTServiceCollection.getitem (ByUuid (UuidStr "1800")))
        Sample.ambiguous = Raise e).
Proof.
  split.
  { destruct (getitem_priority Sample.linked (Handle 10))
      as (_ & _ & _ & H & _).
    split; [reflexivity |]. split; [reflexivity |].
    exact (H 10%Z 0 eq_refl eq_refl eq_refl). }
  split.
  { destruct (getitem_priority Sample.linked (Handle 1)) as (H & _).
    split; [reflexivity |]. exact (H 0 eq_refl). }
  split.
  { destruct (getitem_priority Sample.linked (Handle 20)) as (_ & H & _).
    destruct (H eq_refl) as (_ & H' & _).
    destruct (H' eq_refl) as (Hd & _).
    split; [reflexivity |]. split; [reflexivity |]. split; [reflexivity |].
    exact (Hd 0 eq_refl). }
  split.
  { destruct (getitem_priority Sample.linked (Handle 5)) as (_ & H & _).
    destruct (H eq_refl) as (_ & H' & _).
    destruct (H' eq_refl) as (_ & Hd).
    split; [reflexivity |]. exact (Hd eq_refl). }
  { destruct (getitem_priority Sample.ambiguous (ByUuid (UuidStr "1800")))
      as (_ & _ & H & _).
    eexists. split; [reflexivity |]. apply H. reflexivity. }
Defined.

(** ** Lookup by UUID inside one service *)

Section FirstMatch.

Variable p : ref -> bool.

Lemma filter_nil_iff (l : list ref) :
  filter p l = [] <-> forall x, In x l -> p x = false.
Proof.
  induction l as [| a rest IH]; simpl.
  - split; [intros _ x [] | reflexivity].
  - destruct (p a) eqn:Ha; split.
    + discriminate.
    + intros H. specialize (H a (or_introl eq_refl)). congruence.
    + intros H x [<- | Hx]; [exact Ha |]. now apply IH.
    + intros H. apply IH. intros x Hx. apply H. now right.
Qed.

(** The head of [filter p l] is the first element of [l] that satisfies
    [p]. *)
Lemma filter_head_iff (l : list ref) (c : ref) :
  (exists rest, filter p l = c :: rest) <->
  exists before after,
    l = before ++ c :: after /\ p c = true /\
    forall x, In x before -> p x = false.
Proof.
  induction l as [| a rest IH]; simpl.
  - split.
    + intros [r H]. discriminate.
    + intros (before & after & H & _). now destruct before.
  - destruct (p a) eqn:Ha; split.
    + intros [r H]. injection H as -> _.
      exists [], rest. split; [reflexivity |]. split; [exact Ha |].
      intros x [].
    + intros (before & after & H & Hc & Hb).
      destruct before as [| b before'].
      * injection H as -> _. now exists (filter p rest).
      * injection H as -> _. specialize (Hb b (or_introl eq_refl)).
        congruence.
    + intros H. apply IH in H. destruct H as (before & after & -> & Hc & Hb).
      exists (a :: before), after. split; [reflexivity |].
      split; [exact Hc |]. intros x [<- | Hx]; [exact Ha |]. now apply Hb.
    + intros (before & after & H & Hc & Hb).
      apply IH. destruct before as [| b before'].
      * injection H as -> _. congruence.
      * injection H as _ ->. exists before', after.
        split; [reflexivity |]. split; [exact Hc |].
        intros x Hx. apply Hb. now right.
Qed.

End FirstMatch.

Lemma len_append (s1 s2 : string) :
  len (s1 ++ s2)%string = len s1 + len s2.
Proof.
  unfold len. induction s1 as [| c s1 IH]; simpl; [reflexivity |].
  now rewrite IH.
Qed.

Lemma lower_char_idempotent (c : ascii) :
  lower_char (lower_char c) = lower_char c.
Proof.
  destruct c as [[] [] [] [] [] [] [] []]; reflexivity.
Qed.

Lemma lower_idempotent (s : string) : lower (lower s) = lower s.
Proof.
  induction s as [| c s IH]; simpl; [reflexivity |].
  now rewrite lower_char_idempotent, IH.
Qed.

Lemma lower_append (s1 s2 : string) :
  lower (s1 ++ s2)%string = (lower s1 ++ lower s2)%string.
Proof.
  induction s1 as [| c s1 IH]; simpl; [reflexivity |]. now rewrite IH.
Qed.

Lemma lower_base_uuid_template (s : string) :
  lower (base_uuid_template s) = base_uuid_template (lower s).
Proof.
  unfold base_uuid_template. now rewrite !lower_append.
Qed.

(** The string [Service.get_characteristic] compares with is the normalised
    UUID of the design document. *)
Lemma expand_short_normalize (u : UuidArg) :
  lower (str (BleakGATTService.expand_short u)) = normalize_uuid u.
Proof.
  unfold BleakGATTService.expand_short, normalize_uuid.
  destruct u as [s | n]; [| reflexivity].
  cbn [is_str str andb].
  destruct (Nat.eqb (len s) 4); reflexivity.
Qed.

Lemma service_get_characteristic_eq (st : State) (self : ref) (u : UuidArg) :
  BleakGATTService.get_characteristic self u st =
  (match
     filter (BleakGATTService.uuid_matches st (BleakGATTService.expand_short u))
       (BleakGATTService.characteristics st self)
   with
   | c :: _ => Return (Some c)
   | [] => Return None
   end, st).
Proof.
  unfold BleakGATTService.get_characteristic, bind at 1, get_state.
  unfold try_except_StopIteration, bind.
  destruct (filter _ _) as [| c rest]; reflexivity.
Qed.

Lemma service_uuid_matches_true (st : State) (u : UuidArg) (x : ref) :
  BleakGATTService.uuid_matches st (BleakGATTService.expand_short u) x = true
  <-> BleakGATTCharacteristic.uuid st x = normalize_uuid u.
Proof.
  unfold BleakGATTService.uuid_matches. rewrite expand_short_normalize.
  apply String.eqb_eq.
Qed.

Lemma service_uuid_matches_false (st : State) (u : UuidArg) (x : ref) :
  BleakGATTService.uuid_matches st (BleakGATTService.expand_short u) x = false
  <-> BleakGATTCharacteristic.uuid st x <> normalize_uuid u.
Proof.
  unfold BleakGATTService.uuid_matches. rewrite expand_short_normalize.
  apply String.eqb_neq.
Qed.

(** Where the stored UUID is in normal form, the comparison of
    [Service.get_characteristic] is the comparison of the normal forms. *)
Lemma service_comparison_normalised (st : State) (u : UuidArg) (x : ref) :
  uuid_normalised st x ->
  BleakGATTService.uuid_matches st (BleakGATTService.expand_short u) x =
  normalised_uuid_matches st u x.
Proof.
  intros Hstored.
  unfold BleakGATTService.uuid_matches, normalised_uuid_matches.
  unfold uuid_normalised in Hstored.
  now rewrite Hstored, expand_short_normalize.
Qed.

(** C8, and where the code departs from it.  [Service.get_characteristic]
    never raises, however many characteristics match, and leaves the state as
    it is.  As long as the UUIDs stored in the sequence of the service are in
    normal form, it returns a characteristic exactly when that one is the
    first of the sequence whose normalised UUID equals the normalised query
    (the query put into the base UUID template when it is a string of four
    characters, and lower-cased), and [None] exactly when no characteristic
    of the sequence matches.  Outside that it departs from the claim: on the
    sample peripheral characteristic 2 is in the sequence of service A and
    is the first whose normalised UUID equals that of 2a01, yet the method
    returns [None]. *)
Theorem service_get_characteristic_first_match :
  (forall (st : State) (self : ref) (u : UuidArg),
      (forall e,
          result_of (BleakGATTService.get_characteristic self u) st <> Raise e)
      /\
      state_after (BleakGATTService.get_characteristic self u) st = st)
  /\
  (forall (st : State) (self : ref) (u : UuidArg),
      (forall x,
          In x (BleakGATTService.characteristics st self) ->
          uuid_normalised st x) ->
      (forall c,
          result_of (BleakGATTService.get_characteristic self u) st
          = Return (Some c) <->
          exists before after,
            BleakGATTService.characteristics st self = before ++ c :: after /\
            normalised_uuid_matches st u c = true /\
            forall x, In x before -> normalised_uuid_matches st u x = false)
      /\
      (result_of (BleakGATTService.get_characteristic self u) st = Return None
       <->
       forall x,
         In x (BleakGATTService.characteristics st self) ->
         normalised_uuid_matches st u x = false))
  /\
  (BleakGATTService.characteristics Sample.upper_case 0 = [0; 2] /\
   normalised_uuid_matches Sample.upper_case (UuidStr "2a01") 0 = false /\
   normalised_uuid_matches Sample.upper_case (UuidStr "2a01") 2 = true /\
   result_of (BleakGATTService.get_characteristic 0 (UuidStr "2a01"))
     Sample.upper_case = Return None).
Proof.
  split; [| split].
  - intros st self u. unfold result_of, state_after.
    rewrite service_get_characteristic_eq. simpl fst. simpl snd.
    split; [| reflexivity].
    intros e. destruct (filter _ _); discriminate.
  - intros st self u Hstored. unfold result_of.
    rewrite service_get_characteristic_eq. simpl fst.
    rewrite (filter_ext_in
               (BleakGATTService.uuid_matches st
                  (BleakGATTService.expand_short u))
               (normalised_uuid_matches st u)).
    2:{ intros x Hx. apply service_comparison_normalised.
        now apply Hstored. }
    set (p := normalised_uuid_matches st u).
    set (cs := BleakGATTService.characteristics st self).
    split.
    + intros c. rewrite <- (filter_head_iff p cs c). split.
      * intros H. destruct (filter p cs) as [| c0 rest]; [discriminate |].
        injection H as ->. now exists rest.
      * intros [rest ->]. reflexivity.
    + rewrite <- (filter_nil_iff p cs). split.
      * intros H. destruct (filter p cs); [reflexivity | discriminate].
      * intros ->. reflexivity.
  - repeat split.
Qed.

Lemma service_get_characteristic_first_match_witness :
  BleakGATTService.characteristics Sample.twins 0 = [0; 4] /\
  (forall x,
      In x (BleakGATTService.characteristics Sample.twins 0) ->
      uuid_normalised Sample.twins x) /\
  normalised_uuid_matches Sample.twins (UuidStr "2A00") 0 = true /\
  normalised_uuid_matches Sample.twins (UuidStr "2A00") 4 = true /\
  result_of (BleakGATTService.get_characteristic 0 (UuidStr "2A00"))
    Sample.twins = Return (Some 0) /\
  result_of (BleakGATTService.get_characteristic 0 (UuidStr "2a01"))
    Sample.twins = Return None.
Proof.
  assert (Hstored : forall x,
             In x (BleakGATTService.characteristics Sample.twins 0) ->
             uuid_normalised Sample.twins x).
  { intros x [<- | [<- | []]]; reflexivity. }
  destruct (proj1 (proj2 service_get_characteristic_first_match)
              Sample.twins 0 (UuidStr "2A00") Hstored) as (Hfirst & _).
  destruct (proj1 (proj2 service_get_characteristic_first_match)
              Sample.twins 0 (UuidStr "2a01") Hstored) as (_ & Hnone).
  split; [reflexivity |]. split; [exact Hstored |].
  split; [reflexivity |]. split; [reflexivity |].
  split.
  - apply Hfirst. exists [], [4]. split; [reflexivity |].
    split; [reflexivity |]. intros x [].
  - apply Hnone. intros x [<- | [<- | []]]; reflexivity.
Defined.

(** ** Descriptors are found by handle only *)

Lemma descriptors_by_handle_init (svc : ref -> ServiceObj)
    (chr : ref -> CharacteristicObj) (dsc : ref -> DescriptorObj) :
  descriptors_by_handle (BleakGATTServiceCollection.init svc chr dsc).
Proof. intros h d H. discriminate H. Qed.

Lemma add_descriptor_by_handle (st : State) (d : ref) :
  descriptors_by_handle st ->
  descriptors_by_handle
    (state_after (BleakGATTServiceCollection.add_descriptor d) st).
Proof.
  intros Hinv. unfold state_after.
  assert (Hnew : forall h x,
             dict_get (__descriptors st)
               (Handle (BleakGATTDescriptor.handle st d)) = None ->
             dict_get
               (__descriptors st ++ [(BleakGATTDescriptor.handle st d, d)])
               (Handle h) = Some x ->
             BleakGATTDescriptor.handle st x = h).
  { intros h x Hnone Hget. apply dict_get_app_inv in Hget; [| exact Hnone].
    destruct Hget as [[-> ->] | [_ Hget]]; [reflexivity | now apply Hinv]. }
  destruct (dict_contains (__descriptors st)
              (BleakGATTDescriptor.handle st d)) eqn:Hdup.
  - rewrite add_descriptor_duplicate by assumption. exact Hinv.
  - pose proof (proj1 (dict_contains_false _ _) Hdup) as Hnone.
    destruct (dict_get (__characteristics st)
                (Handle (BleakGATTDescriptor.characteristic_handle st d)))
      as [c |] eqn:Hparent.
    + rewrite (add_descriptor_linked st d c Hdup Hparent).
      intros h x Hget. exact (Hnew h x Hnone Hget).
    + rewrite add_descriptor_orphan;
        [| assumption | now apply dict_contains_false].
      intros h x Hget. exact (Hnew h x Hnone Hget).
Qed.

Lemma add_service_by_handle (st : State) (s : ref) :
  descriptors_by_handle st ->
  descriptors_by_handle
    (state_after (BleakGATTServiceCollection.add_service s) st).
Proof.
  intros Hinv. unfold state_after.
  destruct (dict_contains (__services st) (BleakGATTService.handle st s))
    eqn:Hdup.
  - rewrite add_service_duplicate by assumption. exact Hinv.
  - rewrite add_service_new by assumption. exact Hinv.
Qed.

Lemma add_characteristic_by_handle (st : State) (c : ref) :
  descriptors_by_handle st ->
  descriptors_by_handle
    (state_after (BleakGATTServiceCollection.add_characteristic c) st).
Proof.
  intros Hinv. unfold state_after.
  destruct (dict_contains (__characteristics st)
              (BleakGATTCharacteristic.handle st c)) eqn:Hdup.
  - rewrite add_characteristic_duplicate by assumption. exact Hinv.
  - destruct (dict_get (__services st)
                (Handle (BleakGATTCharacteristic.service_handle st c)))
      as [s |] eqn:Hparent.
    + rewrite (add_characteristic_linked st c s Hdup Hparent). exact Hinv.
    + rewrite add_characteristic_orphan;
        [exact Hinv | assumption | now apply dict_contains_false].
Qed.

Lemma populated_by_handle (st : State) :
  populated st -> descriptors_by_handle st.
Proof.
  induction 1 as [svc chr dsc | st s _ IH _ | st c _ IH | st d _ IH].
  - apply descriptors_by_handle_init.
  - now apply add_service_by_handle.
  - now apply add_characteristic_by_handle.
  - now apply add_descriptor_by_handle.
Qed.

(** C9: [get_descriptor] looks the argument up as a key of the descriptor
    dictionary and matches no UUID.  With a UUID string or a [UUID] object it
    returns [None] in every collection; a descriptor that it returns was
    asked for by an integer handle under which it is stored, which is its own
    handle when every descriptor is stored under its own handle; and once a
    descriptor with a new handle has been added, it is returned for its handle
    and not for its UUID string. *)
Theorem get_descriptor_by_handle_only :
  forall (st : State),
    (forall u,
        BleakGATTServiceCollection.get_descriptor (ByUuid u) st
        = (Return None, st))
    /\
    (forall x d,
        result_of (BleakGATTServiceCollection.get_descriptor x) st
        = Return (Some d) ->
        exists h,
          x = Handle h /\
          dict_get (BleakGATTServiceCollection.descriptors st) (Handle h)
          = Some d /\
          (descriptors_by_handle st -> h = BleakGATTDescriptor.handle st d))
    /\
    (forall d,
        dict_contains (__descriptors st) (BleakGATTDescriptor.handle st d)
        = false ->
        let st' := state_after (BleakGATTServiceCollection.add_descriptor d) st in
        result_of
          (BleakGATTServiceCollection.get_descriptor
             (Handle (BleakGATTDescriptor.handle st d))) st'
        = Return (Some d) /\
        result_of
          (BleakGATTServiceCollection.get_descriptor
             (ByUuid (UuidStr (BleakGATTDescriptor.uuid st' d)))) st'
        = Return None).
Proof.
  intros st.
  assert (Huuid : forall st0 u,
             BleakGATTServiceCollection.get_descriptor (ByUuid u) st0
             = (Return None, st0)).
  { intros st0 u.
    unfold BleakGATTServiceCollection.get_descriptor, bind, get_state, ret.
    now rewrite dict_get_uuid_probe. }
  split; [apply Huuid | split].
  - intros x d H.
    unfold result_of, BleakGATTServiceCollection.get_descriptor, bind,
      get_state, ret in H.
    simpl in H. injection H as H.
    destruct x as [h | u].
    + exists h. split; [reflexivity |]. split; [exact H |].
      intros Hinv. symmetry. now apply Hinv.
    + unfold BleakGATTServiceCollection.descriptors in H.
      rewrite dict_get_uuid_probe in H. discriminate.
  - intros d Hnew st'. split.
    + subst st'. unfold state_after.
      pose proof (proj1 (dict_contains_false _ _) Hnew) as Hnone.
      assert (Hstored :
                dict_get
                  (__descriptors st ++ [(BleakGATTDescriptor.handle st d, d)])
                  (Handle (BleakGATTDescriptor.handle st d)) = Some d)
        by now apply dict_get_app_new.
      destruct (dict_get (__characteristics st)
                  (Handle (BleakGATTDescriptor.characteristic_handle st d)))
        as [c |] eqn:Hparent.
      * rewrite (add_descriptor_linked st d c Hnew Hparent).
        unfold result_of, BleakGATTServiceCollection.get_descriptor, bind,
          get_state, ret. simpl.
        unfold BleakGATTServiceCollection.descriptors. simpl.
        now rewrite Hstored.
      * rewrite add_descriptor_orphan;
          [| assumption | now apply dict_contains_false].
        unfold result_of, BleakGATTServiceCollection.get_descriptor, bind,
          get_state, ret. simpl.
        unfold BleakGATTServiceCollection.descriptors. simpl.
        now rewrite Hstored.
    + unfold result_of. now rewrite Huuid.
Qed.

Lemma get_descriptor_by_handle_only_witness :
  BleakGATTDescriptor.uuid Sample.linked 0 = Sample.cccd_uuid /\
  result_of
    (BleakGATTServiceCollection.get_descriptor
       (ByUuid (UuidStr Sample.cccd_uuid))) Sample.linked = Return None /\
  (result_of (BleakGATTServiceCollection.get_descriptor (Handle 20))
     Sample.linked = Return (Some 0) /\
   exists h,
     Handle 20 = Handle h /\ h = BleakGATTDescriptor.handle Sample.linked 0)
  /\
  (dict_contains (__descriptors Sample.linked)
     (BleakGATTDescriptor.handle Sample.linked 1) = false /\
   result_of (BleakGATTServiceCollection.get_descriptor (Handle 21))
     Sample.orphaned_descriptor = Return (Some 1)).
Proof.
  destruct (get_descriptor_by_handle_only Sample.linked)
    as (Huuid & Hhandle & Hadded).
  split; [reflexivity |]. split.
  { unfold result_of. now rewrite Huuid. }
  split.
  - split; [reflexivity |].
    destruct (Hhandle (Handle 20) 0 eq_refl) as (h & Hx & _ & Hown).
    exists h. split; [exact Hx |]. exact (Hown (populated_by_handle _ sample_linked_populated)).
  - split; [reflexivity |]. exact (proj1 (Hadded 1 eq_refl)).
Defined.

(** ** Short and upper-case UUIDs in the characteristic lookups *)

Lemma first_or_None_matches (p : ref -> bool) (l : list ref) (c : ref) :
  first_or_None (filter p l) = Some c -> In c l /\ p c = true.
Proof.
  intros H. apply filter_In.
  destruct (filter p l) as [| x rest]; [discriminate |].
  injection H as ->. now left.
Qed.

(** What the collection returns for a UUID is a stored characteristic whose
    UUID string is the lower-cased specifier itself. *)
Lemma collection_get_characteristic_found (st : State) (u : UuidArg) (c : ref) :
  result_of (BleakGATTServiceCollection.get_characteristic (ByUuid u)) st
  = Return (Some c) ->
  In c (dict_values (BleakGATTServiceCollection.characteristics st)) /\
  BleakGATTCharacteristic.uuid st c = lower (str u).
Proof.
  unfold result_of, BleakGATTServiceCollection.get_characteristic, bind,
    get_state, ret, raise.
  destruct (Nat.ltb 1 _); simpl; [discriminate |].
  intros H. injection H as H. apply first_or_None_matches in H.
  destruct H as [Hin Hp]. split; [exact Hin |].
  now apply String.eqb_eq.
Qed.

Lemma service_get_characteristic_found (st : State) (self : ref) (u : UuidArg)
    (c : ref) :
  result_of (BleakGATTService.get_characteristic self u) st = Return (Some c) ->
  BleakGATTCharacteristic.uuid st c = normalize_uuid u.
Proof.
  unfold result_of. rewrite service_get_characteristic_eq. simpl fst.
  intros H. apply service_uuid_matches_true.
  destruct (filter _ _) as [| x rest] eqn:Hf; [discriminate |].
  injection H as ->.
  assert (Hin : In c (filter
                        (BleakGATTService.uuid_matches st
                           (BleakGATTService.expand_short u))
                        (BleakGATTService.characteristics st self)))
    by (rewrite Hf; now left).
  apply filter_In in Hin. apply Hin.
Qed.

Lemma normalize_uuid_lower (u : UuidArg) :
  lower (normalize_uuid u) = normalize_uuid u.
Proof.
  unfold normalize_uuid. destruct u as [s | n].
  - destruct (Nat.eqb (len s) 4); apply lower_idempotent.
  - apply lower_idempotent.
Qed.

Lemma len_base_uuid_template (s : string) :
  len (base_uuid_template s) = len s + 32.
Proof.
  unfold base_uuid_template. rewrite !len_append.
  change (len "0000") with 4.
  change (len "-0000-1000-8000-00805f9b34fb") with 28. lia.
Qed.

(** [get_service] lower-cases both sides: a stored service whose UUID, in
    any letter case, is the specifier in any letter case is not missed. *)
Lemma get_service_case_insensitive (st : State) (s : ref) (u : UuidArg) :
  In s (dict_values (BleakGATTServiceCollection.services st)) ->
  lower (str u) = lower (BleakGATTService.uuid st s) ->
  len (lower (BleakGATTService.uuid st s)) <> 4 ->
  result_of (BleakGATTServiceCollection.get_service (ByUuid u)) st
  <> Return None.
Proof.
  intros Hin Hsame Hlen.
  assert (Hspec : BleakGATTServiceCollection._specifier u
                  = lower (BleakGATTService.uuid st s)).
  { unfold BleakGATTServiceCollection._specifier. rewrite Hsame.
    destruct (Nat.eqb_spec (len (lower (BleakGATTService.uuid st s))) 4);
      [contradiction | reflexivity]. }
  assert (Hmatch : In s
                     (filter
                        (BleakGATTServiceCollection.service_uuid_matches st
                           (BleakGATTServiceCollection._specifier u))
                        (dict_values (BleakGATTServiceCollection.services st)))).
  { apply filter_In. split; [exact Hin |].
    unfold BleakGATTServiceCollection.service_uuid_matches.
    rewrite Hspec. apply String.eqb_refl. }
  unfold result_of, BleakGATTServiceCollection.get_service, bind, get_state,
    ret, raise.
  destruct (Nat.ltb 1 _); simpl; [discriminate |].
  destruct (filter _ _) as [| x rest]; [destruct Hmatch | discriminate].
Qed.

(** C3, where the code departs from it: the collection-level
    [get_characteristic] does not expand a four-character UUID.  In every
    collection a characteristic stored under the expanded form of a
    four-character string is not returned for that string.  On the sample
    peripheral the characteristic with the expanded UUID of 2a00 is stored,
    [get_characteristic] of the collection returns [None] for 2a00, while
    [get_characteristic] of its service finds it and [get_service] finds the
    service with the expanded UUID of 1800 for 1800. *)
Theorem collection_get_characteristic_short_uuid :
  (forall (st : State) (s : string) (c : ref),
      len s = 4 ->
      BleakGATTCharacteristic.uuid st c = normalize_uuid (UuidStr s) ->
      result_of
        (BleakGATTServiceCollection.get_characteristic (ByUuid (UuidStr s))) st
      <> Return (Some c))
  /\
  (dict_get (BleakGATTServiceCollection.characteristics Sample.linked)
     (Handle 10) = Some 0 /\
   BleakGATTCharacteristic.uuid Sample.linked 0
   = normalize_uuid (UuidStr "2a00") /\
   result_of
     (BleakGATTServiceCollection.get_characteristic (ByUuid (UuidStr "2a00")))
     Sample.linked = Return None /\
   result_of (BleakGATTService.get_characteristic 0 (UuidStr "2a00"))
     Sample.linked = Return (Some 0) /\
   BleakGATTService.uuid Sample.linked 0 = normalize_uuid (UuidStr "1800") /\
   result_of (BleakGATTServiceCollection.get_service (ByUuid (UuidStr "1800")))
     Sample.linked = Return (Some 0)).
Proof.
  split.
  - intros st s c Hlen Hstored Hfound.
    apply collection_get_characteristic_found in Hfound.
    destruct Hfound as [_ Huuid]. rewrite Hstored in Huuid.
    unfold normalize_uuid in Huuid. rewrite Hlen in Huuid. simpl str in Huuid.
    change (Nat.eqb 4 4) with true in Huuid. cbv iota in Huuid.
    apply (f_equal len) in Huuid.
    rewrite lower_base_uuid_template, len_base_uuid_template in Huuid. lia.
  - repeat split.
Qed.

Lemma collection_get_characteristic_short_uuid_witness :
  len "2a00" = 4 /\
  BleakGATTCharacteristic.uuid Sample.linked 0 = normalize_uuid (UuidStr "2a00")
  /\
  result_of
    (BleakGATTServiceCollection.get_characteristic (ByUuid (UuidStr "2a00")))
    Sample.linked <> Return (Some 0).
Proof.
  split; [reflexivity |]. split; [reflexivity |].
  exact (proj1 collection_get_characteristic_short_uuid Sample.linked "2a00"%string
           0 eq_refl eq_refl).
Defined.

(** C4, where the code departs from it: the characteristic lookups lower-case
    the query only.  In every collection a characteristic whose stored UUID
    string is not in lower case is returned for no UUID query, neither by
    [get_characteristic] of the collection nor by [get_characteristic] of a
    service.  On the sample peripheral service C and characteristic 2 are
    stored with upper-case UUIDs: [get_service] finds C by its UUID in upper
    and in lower case, the two characteristic lookups return [None] for the
    UUID of characteristic 2 in either case. *)
Theorem characteristic_lookup_case_sensitive :
  (forall (st : State) (c : ref) (u : UuidArg),
      BleakGATTCharacteristic.uuid st c
      <> lower (BleakGATTCharacteristic.uuid st c) ->
      result_of (BleakGATTServiceCollection.get_characteristic (ByUuid u)) st
      <> Return (Some c) /\
      forall self,
        result_of (BleakGATTService.get_characteristic self u) st
        <> Return (Some c))
  /\
  (dict_get (BleakGATTServiceCollection.services Sample.upper_case) (Handle 3)
   = Some 2 /\
   BleakGATTService.uuid Sample.upper_case 2 = Sample.device_info_uuid_upper /\
   result_of
     (BleakGATTServiceCollection.get_service
        (ByUuid (UuidStr Sample.device_info_uuid_upper))) Sample.upper_case
   = Return (Some 2) /\
   result_of
     (BleakGATTServiceCollection.get_service
        (ByUuid (UuidStr (lower Sample.device_info_uuid_upper))))
     Sample.upper_case = Return (Some 2))
  /\
  (dict_get (BleakGATTServiceCollection.characteristics Sample.upper_case)
     (Handle 11) = Some 2 /\
   BleakGATTService.characteristics Sample.upper_case 0 = [0; 2] /\
   BleakGATTCharacteristic.uuid Sample.upper_case 2
   = Sample.appearance_uuid_upper /\
   result_of
     (BleakGATTServiceCollection.get_characteristic
        (ByUuid (UuidStr Sample.appearance_uuid_upper))) Sample.upper_case
   = Return None /\
   result_of
     (BleakGATTServiceCollection.get_characteristic
        (ByUuid (UuidStr (lower Sample.appearance_uuid_upper))))
     Sample.upper_case = Return None /\
   result_of
     (BleakGATTService.get_characteristic 0
        (UuidStr Sample.appearance_uuid_upper)) Sample.upper_case
   = Return None /\
   result_of
     (BleakGATTService.get_characteristic 0
        (UuidStr (lower Sample.appearance_uuid_upper))) Sample.upper_case
   = Return None).
Proof.
  split; [| split].
  - intros st c u Hupper. split.
    + intros Hfound. apply collection_get_characteristic_found in Hfound.
      destruct Hfound as [_ Huuid]. apply Hupper.
      rewrite Huuid. now rewrite lower_idempotent.
    + intros self Hfound. apply service_get_characteristic_found in Hfound.
      apply Hupper. rewrite Hfound. now rewrite normalize_uuid_lower.
  - repeat split.
  - repeat split.
Qed.

Lemma characteristic_lookup_case_sensitive_witness :
  BleakGATTCharacteristic.uuid Sample.upper_case 2
  <> lower (BleakGATTCharacteristic.uuid Sample.upper_case 2) /\
  result_of
    (BleakGATTServiceCollection.get_characteristic
       (ByUuid (UuidStr Sample.appearance_uuid_upper))) Sample.upper_case
  <> Return (Some 2) /\
  result_of
    (BleakGATTService.get_characteristic 0
       (UuidStr Sample.appearance_uuid_upper)) Sample.upper_case
  <> Return (Some 2).
Proof.
  assert (Hupper : BleakGATTCharacteristic.uuid Sample.upper_case 2
                   <> lower (BleakGATTCharacteristic.uuid Sample.upper_case 2))
    by discriminate.
  destruct (proj1 characteristic_lookup_case_sensitive Sample.upper_case 2
              (UuidStr Sample.appearance_uuid_upper) Hupper) as [Hc Hs].
  split; [exact Hupper |]. split; [exact Hc | exact (Hs 0)].
Defined.

(** * Further properties of the collection *)

(** ** What each insertion method writes *)

Lemma add_service_services (st : State) (s : ref) :
  __services (state_after (BleakGATTServiceCollection.add_service s) st) =
  if dict_contains (__services st) (BleakGATTService.handle st s)
  then __services st
  else __services st ++ [(BleakGATTService.handle st s, s)].
Proof.
  unfold state_after.
  destruct (dict_contains (__services st) (BleakGATTService.handle st s))
    eqn:Hdup.
  - now rewrite add_service_duplicate.
  - now rewrite add_service_new.
Qed.

Lemma add_characteristic_characteristics (st : State) (c : ref) :
  __characteristics
    (state_after (BleakGATTServiceCollection.add_characteristic c) st) =
  if dict_contains (__characteristics st) (BleakGATTCharacteristic.handle st c)
  then __characteristics st
  else __characteristics st ++ [(BleakGATTCharacteristic.handle st c, c)].
Proof.
  unfold state_after.
  destruct (dict_contains (__characteristics st)
              (BleakGATTCharacteristic.handle st c)) eqn:Hdup.
  - now rewrite add_characteristic_duplicate.
  - destruct (dict_get (__services st)
                (Handle (BleakGATTCharacteristic.service_handle st c)))
      as [s |] eqn:Hparent.
    + now rewrite (add_characteristic_linked st c s Hdup Hparent).
    + rewrite add_characteristic_orphan;
        [reflexivity | assumption | now apply dict_contains_false].
Qed.

Lemma add_descriptor_linked_state (st : State) (d c : ref) :
  dict_contains (__descriptors st) (BleakGATTDescriptor.handle st d) = false ->
  dict_get (__characteristics st)
    (Handle (BleakGATTDescriptor.characteristic_handle st d)) = Some c ->
  BleakGATTServiceCollection.add_descriptor d st =
  (Return tt, descriptor_linked_state st d c).
Proof. apply add_descriptor_linked. Qed.

Lemma add_descriptor_descriptors (st : State) (d : ref) :
  __descriptors (state_after (BleakGATTServiceCollection.add_descriptor d) st) =
  if dict_contains (__descriptors st) (BleakGATTDescriptor.handle st d)
  then __descriptors st
  else __descriptors st ++ [(BleakGATTDescriptor.handle st d, d)].
Proof.
  unfold state_after.
  destruct (dict_contains (__descriptors st)
              (BleakGATTDescriptor.handle st d)) eqn:Hdup.
  - now rewrite add_descriptor_duplicate.
  - destruct (dict_get (__characteristics st)
                (Handle (BleakGATTDescriptor.characteristic_handle st d)))
      as [c |] eqn:Hparent.
    + now rewrite (add_descriptor_linked st d c Hdup Hparent).
    + rewrite add_descriptor_orphan;
        [reflexivity | assumption | now apply dict_contains_false].
Qed.

(** The dictionaries a method does not own. *)
Lemma add_service_frame (st : State) (s : ref) :
  let st' := state_after (BleakGATTServiceCollection.add_service s) st in
  __characteristics st' = __characteristics st /\
  __descriptors st' = __descriptors st /\
  service_objs st' = service_objs st /\
  characteristic_objs st' = characteristic_objs st /\
  descriptor_objs st' = descriptor_objs st.
Proof.
  unfold state_after.
  destruct (dict_contains (__services st) (BleakGATTService.handle st s))
    eqn:Hdup.
  - rewrite add_service_duplicate by assumption. repeat split.
  - rewrite add_service_new by assumption. repeat split.
Qed.

Lemma add_characteristic_frame (st : State) (c : ref) :
  let st' := state_after (BleakGATTServiceCollection.add_characteristic c) st in
  __services st' = __services st /\
  __descriptors st' = __descriptors st /\
  characteristic_objs st' = characteristic_objs st /\
  descriptor_objs st' = descriptor_objs st.
Proof.
  unfold state_after.
  destruct (dict_contains (__characteristics st)
              (BleakGATTCharacteristic.handle st c)) eqn:Hdup.
  - rewrite add_characteristic_duplicate by assumption. repeat split.
  - destruct (dict_get (__services st)
                (Handle (BleakGATTCharacteristic.service_handle st c)))
      as [s |] eqn:Hparent.
    + rewrite (add_characteristic_linked st c s Hdup Hparent). repeat split.
    + rewrite add_characteristic_orphan;
        [repeat split | assumption | now apply dict_contains_false].
Qed.

Lemma add_descriptor_frame (st : State) (d : ref) :
  let st' := state_after (BleakGATTServiceCollection.add_descriptor d) st in
  __services st' = __services st /\
  __characteristics st' = __characteristics st /\
  service_objs st' = service_objs st /\
  descriptor_objs st' = descriptor_objs st.
Proof.
  unfold state_after.
  destruct (dict_contains (__descriptors st)
              (BleakGATTDescriptor.handle st d)) eqn:Hdup.
  - rewrite add_descriptor_duplicate by assumption. repeat split.
  - destruct (dict_get (__characteristics st)
                (Handle (BleakGATTDescriptor.characteristic_handle st d)))
      as [c |] eqn:Hparent.
    + rewrite (add_descriptor_linked st d c Hdup Hparent). repeat split.
    + rewrite add_descriptor_orphan;
        [repeat split | assumption | now apply dict_contains_false].
Qed.

(** No insertion method changes what identifies an object. *)
Lemma add_service_identities (st : State) (s : ref) :
  same_identities st (state_after (BleakGATTServiceCollection.add_service s) st).
Proof.
  destruct (add_service_frame st s) as (_ & _ & Hs & Hc & Hd).
  unfold same_identities, BleakGATTService.handle, BleakGATTService.uuid,
    BleakGATTCharacteristic.handle, BleakGATTCharacteristic.uuid,
    BleakGATTCharacteristic.service_handle.
  rewrite Hs, Hc, Hd. repeat split.
Qed.

Lemma add_characteristic_identities (st : State) (c : ref) :
  same_identities st
    (state_after (BleakGATTServiceCollection.add_characteristic c) st).
Proof.
  destruct (add_characteristic_frame st c) as (_ & _ & Hc & Hd).
  unfold same_identities, BleakGATTCharacteristic.handle,
    BleakGATTCharacteristic.uuid, BleakGATTCharacteristic.service_handle.
  rewrite Hc, Hd. split; [| repeat split].
  intros x. unfold state_after.
  destruct (dict_contains (__characteristics st) (chr_handle (characteristic_objs st c)))
    eqn:Hdup.
  - rewrite add_characteristic_duplicate by assumption. split; reflexivity.
  - destruct (dict_get (__services st)
                (Handle (BleakGATTCharacteristic.service_handle st c)))
      as [s |] eqn:Hparent.
    + rewrite (add_characteristic_linked st c s Hdup Hparent).
      unfold BleakGATTService.handle, BleakGATTService.uuid, linked_state.
      simpl. destruct (Nat.eq_dec x s) as [-> | Hne].
      * now rewrite store_set_same.
      * now rewrite store_set_other.
    + rewrite add_characteristic_orphan;
        [split; reflexivity | assumption | now apply dict_contains_false].
Qed.

Lemma add_descriptor_identities (st : State) (d : ref) :
  same_identities st
    (state_after (BleakGATTServiceCollection.add_descriptor d) st).
Proof.
  destruct (add_descriptor_frame st d) as (_ & _ & Hs & Hd).
  unfold same_identities, BleakGATTService.handle, BleakGATTService.uuid.
  rewrite Hs, Hd. split; [repeat split | split; [| reflexivity]].
  intros x. unfold state_after.
  destruct (dict_contains (__descriptors st) (BleakGATTDescriptor.handle st d))
    eqn:Hdup.
  - rewrite add_descriptor_duplicate by assumption. repeat split.
  - destruct (dict_get (__characteristics st)
                (Handle (BleakGATTDescriptor.characteristic_handle st d)))
      as [c |] eqn:Hparent.
    + rewrite (add_descriptor_linked st d c Hdup Hparent).
      unfold BleakGATTCharacteristic.handle, BleakGATTCharacteristic.uuid,
        BleakGATTCharacteristic.service_handle.
      simpl. destruct (Nat.eq_dec x c) as [-> | Hne].
      * now rewrite store_set_same.
      * now rewrite store_set_other.
    + rewrite add_descriptor_orphan;
        [repeat split | assumption | now apply dict_contains_false].
Qed.

Lemma insertion_identities (st st' : State) :
  insertion st st' -> same_identities st st'.
Proof.
  intros [st0 s | st0 c | st0 d].
  - apply add_service_identities.
  - apply add_characteristic_identities.
  - apply add_descriptor_identities.
Qed.

Lemma dict_extends_refl (d : dict) : dict_extends d d.
Proof. intros h v H. exact H. Qed.

Lemma dict_extends_append (d : dict) (k : Z) (v : ref) :
  dict_get d (Handle k) = None -> dict_extends d (d ++ [(k, v)]).
Proof.
  intros Hnew h x Hget. rewrite dict_get_app_other; [exact Hget | exact Hnew |].
  intros ->. congruence.
Qed.

Lemma dict_extends_step (d : dict) (k : Z) (v : ref) :
  dict_extends d (if dict_contains d k then d else d ++ [(k, v)]).
Proof.
  destruct (dict_contains d k) eqn:Hdup.
  - apply dict_extends_refl.
  - apply dict_extends_append. now apply dict_contains_false.
Qed.

Lemma insertion_extends (st st' : State) :
  insertion st st' ->
  dict_extends (__services st) (__services st') /\
  dict_extends (__characteristics st) (__characteristics st') /\
  dict_extends (__descriptors st) (__descriptors st').
Proof.
  intros [st0 s | st0 c | st0 d].
  - destruct (add_service_frame st0 s) as (Hc & Hd & _).
    rewrite Hc, Hd, add_service_services.
    split; [apply dict_extends_step | split; apply dict_extends_refl].
  - destruct (add_characteristic_frame st0 c) as (Hs & Hd & _).
    rewrite Hs, Hd, add_characteristic_characteristics.
    split; [apply dict_extends_refl |].
    split; [apply dict_extends_step | apply dict_extends_refl].
  - destruct (add_descriptor_frame st0 d) as (Hs & Hc & _).
    rewrite Hs, Hc, add_descriptor_descriptors.
    split; [apply dict_extends_refl |].
    split; [apply dict_extends_refl | apply dict_extends_step].
Qed.

(** ** Iteration *)

(** X1: iterating the collection yields the services in the order in which
    their handles were first stored.  [add_service] with a new handle puts
    the service at the end of the iteration, with a handle that is taken it
    leaves the iteration as it is, and neither [add_characteristic] nor
    [add_descriptor] changes it. *)
Theorem iteration_follows_insertion :
  forall (st : State),
    (forall s,
        BleakGATTServiceCollection.iter
          (state_after (BleakGATTServiceCollection.add_service s) st) =
        if dict_contains (__services st) (BleakGATTService.handle st s)
        then BleakGATTServiceCollection.iter st
        else BleakGATTServiceCollection.iter st ++ [s]) /\
    (forall c,
        BleakGATTServiceCollection.iter
          (state_after (BleakGATTServiceCollection.add_characteristic c) st) =
        BleakGATTServiceCollection.iter st) /\
    (forall d,
        BleakGATTServiceCollection.iter
          (state_after (BleakGATTServiceCollection.add_descriptor d) st) =
        BleakGATTServiceCollection.iter st).
Proof.
  intros st.
  unfold BleakGATTServiceCollection.iter, BleakGATTServiceCollection.services.
  split; [| split].
  - intros s. rewrite add_service_services.
    destruct (dict_contains (__services st) (BleakGATTService.handle st s));
      [reflexivity |].
    unfold dict_values. now rewrite map_app.
  - intros c. destruct (add_characteristic_frame st c) as (Hs & _).
    now rewrite Hs.
  - intros d. destruct (add_descriptor_frame st d) as (Hs & _).
    now rewrite Hs.
Qed.

(** ** Insert-only *)

(** X2: an entity that a lookup by handle returns is returned for that handle
    after every further insertion, of any kind and with any outcome: no
    insertion removes or replaces a stored service, characteristic or
    descriptor. *)
Theorem stored_entities_persist :
  forall (st st' : State) (h : Z),
    insertion st st' ->
    (forall s,
        result_of (BleakGATTServiceCollection.get_service (Handle h)) st
        = Return (Some s) ->
        result_of (BleakGATTServiceCollection.get_service (Handle h)) st'
        = Return (Some s)) /\
    (forall c,
        result_of (BleakGATTServiceCollection.get_characteristic (Handle h)) st
        = Return (Some c) ->
        result_of (BleakGATTServiceCollection.get_characteristic (Handle h)) st'
        = Return (Some c)) /\
    (forall d,
        result_of (BleakGATTServiceCollection.get_descriptor (Handle h)) st
        = Return (Some d) ->
        result_of (BleakGATTServiceCollection.get_descriptor (Handle h)) st'
        = Return (Some d)).
Proof.
  intros st st' h Hstep.
  destruct (insertion_extends st st' Hstep) as (Hs & Hc & Hd).
  unfold result_of, BleakGATTServiceCollection.get_service,
    BleakGATTServiceCollection.get_characteristic,
    BleakGATTServiceCollection.get_descriptor,
    BleakGATTServiceCollection.services,
    BleakGATTServiceCollection.characteristics,
    BleakGATTServiceCollection.descriptors, bind, get_state, ret.
  simpl.
  split; [| split]; intros x Hx; injection Hx as Hx; f_equal.
  - now apply Hs.
  - now apply Hc.
  - now apply Hd.
Qed.

Lemma stored_entities_persist_witness :
  insertion Sample.linked Sample.orphaned_characteristic /\
  result_of (BleakGATTServiceCollection.get_characteristic (Handle 10))
    Sample.linked = Return (Some 0) /\
  result_of (BleakGATTServiceCollection.get_characteristic (Handle 10))
    Sample.orphaned_characteristic = Return (Some 0).
Proof.
  assert (Hstep : insertion Sample.linked Sample.orphaned_characteristic)
    by apply insertion_characteristic.
  destruct (stored_entities_persist _ _ 10%Z Hstep) as (_ & Hc & _).
  split; [exact Hstep |]. split; [reflexivity |]. exact (Hc 0 eq_refl).
Defined.

(** ** The three kinds do not interfere *)

Lemma get_service_ext (st st' : State) (x : Specifier) :
  __services st' = __services st ->
  (forall r, BleakGATTService.uuid st' r = BleakGATTService.uuid st r) ->
  result_of (BleakGATTServiceCollection.get_service x) st' =
  result_of (BleakGATTServiceCollection.get_service x) st.
Proof.
  intros Hd Hu.
  unfold result_of, BleakGATTServiceCollection.get_service,
    BleakGATTServiceCollection.services, bind, get_state.
  rewrite Hd. destruct x as [h | u]; [reflexivity |].
  rewrite (filter_ext
             (BleakGATTServiceCollection.service_uuid_matches st'
                (BleakGATTServiceCollection._specifier u))
             (BleakGATTServiceCollection.service_uuid_matches st
                (BleakGATTServiceCollection._specifier u))).
  - destruct (Nat.ltb 1 _); reflexivity.
  - intros r. unfold BleakGATTServiceCollection.service_uuid_matches.
    now rewrite Hu.
Qed.

Lemma get_characteristic_ext (st st' : State) (x : Specifier) :
  __characteristics st' = __characteristics st ->
  (forall r,
      BleakGATTCharacteristic.uuid st' r = BleakGATTCharacteristic.uuid st r) ->
  result_of (BleakGATTServiceCollection.get_characteristic x) st' =
  result_of (BleakGATTServiceCollection.get_characteristic x) st.
Proof.
  intros Hd Hu.
  unfold result_of, BleakGATTServiceCollection.get_characteristic,
    BleakGATTServiceCollection.characteristics, bind, get_state.
  rewrite Hd. destruct x as [h | u]; [reflexivity |].
  rewrite (filter_ext
             (BleakGATTServiceCollection.characteristic_uuid_matches st' u)
             (BleakGATTServiceCollection.characteristic_uuid_matches st u)).
  - destruct (Nat.ltb 1 _); reflexivity.
  - intros r. unfold BleakGATTServiceCollection.characteristic_uuid_matches.
    now rewrite Hu.
Qed.

Lemma get_descriptor_ext (st st' : State) (x : Specifier) :
  __descriptors st' = __descriptors st ->
  result_of (BleakGATTServiceCollection.get_descriptor x) st' =
  result_of (BleakGATTServiceCollection.get_descriptor x) st.
Proof.
  intros Hd.
  unfold result_of, BleakGATTServiceCollection.get_descriptor,
    BleakGATTServiceCollection.descriptors, bind, get_state, ret. simpl.
  now rewrite Hd.
Qed.

(** X3: an insertion of one kind changes no lookup of another kind, by
    handle or by UUID.  After [add_service], [get_characteristic] and
    [get_descriptor] return what they returned before; after
    [add_characteristic], [get_service] and [get_descriptor] do; after
    [add_descriptor], [get_service] and [get_characteristic] do.  The three
    dictionaries are separate name spaces. *)
Theorem insertion_leaves_other_kinds :
  forall (st : State) (x : Specifier),
    (forall s,
        let st' := state_after (BleakGATTServiceCollection.add_service s) st in
        result_of (BleakGATTServiceCollection.get_characteristic x) st' =
        result_of (BleakGATTServiceCollection.get_characteristic x) st /\
        result_of (BleakGATTServiceCollection.get_descriptor x) st' =
        result_of (BleakGATTServiceCollection.get_descriptor x) st) /\
    (forall c,
        let st' :=
          state_after (BleakGATTServiceCollection.add_characteristic c) st in
        result_of (BleakGATTServiceCollection.get_service x) st' =
        result_of (BleakGATTServiceCollection.get_service x) st /\
        result_of (BleakGATTServiceCollection.get_descriptor x) st' =
        result_of (BleakGATTServiceCollection.get_descriptor x) st) /\
    (forall d,
        let st' := state_after (BleakGATTServiceCollection.add_descriptor d) st in
        result_of (BleakGATTServiceCollection.get_service x) st' =
        result_of (BleakGATTServiceCollection.get_service x) st /\
        result_of (BleakGATTServiceCollection.get_characteristic x) st' =
        result_of (BleakGATTServiceCollection.get_characteristic x) st).
Proof.
  intros st x. split; [| split].
  - intros s st'. subst st'.
    destruct (add_service_frame st s) as (Hc & Hd & _).
    destruct (add_service_identities st s) as (_ & Hid & _).
    split.
    + apply get_characteristic_ext; [exact Hc |]. intros r. apply Hid.
    + now apply get_descriptor_ext.
  - intros c st'. subst st'.
    destruct (add_characteristic_frame st c) as (Hs & Hd & _).
    destruct (add_characteristic_identities st c) as (Hid & _).
    split.
    + apply get_service_ext; [exact Hs |]. intros r. apply Hid.
    + now apply get_descriptor_ext.
  - intros d st'. subst st'.
    destruct (add_descriptor_frame st d) as (Hs & Hc & _).
    destruct (add_descriptor_identities st d) as (Hids & Hidc & _).
    split.
    + apply get_service_ext; [exact Hs |]. intros r. apply Hids.
    + apply get_characteristic_ext; [exact Hc |]. intros r. apply Hidc.
Qed.

(** ** Duplicates and the log *)

(** X4: a record is logged exactly when the handle is taken.  For each of the
    three insertion methods: when the handle of the argument is a key of the
    dictionary of its kind, the call returns normally, leaves the three
    dictionaries and every object as they are, and appends one error record
    that carries the handle; when the handle is new, nothing is logged, also
    when the call raises for a missing parent. *)
Theorem log_only_on_duplicate :
  forall (st : State),
    (forall s,
        let st' := state_after (BleakGATTServiceCollection.add_service s) st in
        if dict_contains (__services st) (BleakGATTService.handle st s)
        then
          result_of (BleakGATTServiceCollection.add_service s) st = Return tt /\
          same_collection st st' /\
          logged st' =
          logged st ++
            [LogError
               "The service '%s' is already present in this BleakGATTServiceCollection!"
               (BleakGATTService.handle st s)]
        else logged st' = logged st) /\
    (forall c,
        let st' :=
          state_after (BleakGATTServiceCollection.add_characteristic c) st in
        if dict_contains (__characteristics st)
             (BleakGATTCharacteristic.handle st c)
        then
          result_of (BleakGATTServiceCollection.add_characteristic c) st
          = Return tt /\
          same_collection st st' /\
          logged st' =
          logged st ++
            [LogError
               "The characteristic '%s' is already present in this BleakGATTServiceCollection!"
               (BleakGATTCharacteristic.handle st c)]
        else logged st' = logged st) /\
    (forall d,
        let st' := state_after (BleakGATTServiceCollection.add_descriptor d) st in
        if dict_contains (__descriptors st) (BleakGATTDescriptor.handle st d)
        then
          result_of (BleakGATTServiceCollection.add_descriptor d) st
          = Return tt /\
          same_collection st st' /\
          logged st' =
          logged st ++
            [LogError
               "The descriptor '%s' is already present in this BleakGATTServiceCollection!"
               (BleakGATTDescriptor.handle st d)]
        else logged st' = logged st).
Proof.
  intros st. split; [| split].
  - intros s st'. subst st'. unfold result_of, state_after.
    destruct (dict_contains (__services st) (BleakGATTService.handle st s))
      eqn:Hdup.
    + rewrite add_service_duplicate by assumption.
      split; [reflexivity |]. split; [| reflexivity]. repeat split.
    + now rewrite add_service_new.
  - intros c st'. subst st'. unfold result_of, state_after.
    destruct (dict_contains (__characteristics st)
                (BleakGATTCharacteristic.handle st c)) eqn:Hdup.
    + rewrite add_characteristic_duplicate by assumption.
      split; [reflexivity |]. split; [| reflexivity]. repeat split.
    + destruct (dict_get (__services st)
                  (Handle (BleakGATTCharacteristic.service_handle st c)))
        as [s |] eqn:Hparent.
      * now rewrite (add_characteristic_linked st c s Hdup Hparent).
      * rewrite add_characteristic_orphan;
          [reflexivity | assumption | now apply dict_contains_false].
  - intros d st'. subst st'. unfold result_of, state_after.
    destruct (dict_contains (__descriptors st)
                (BleakGATTDescriptor.handle st d)) eqn:Hdup.
    + rewrite add_descriptor_duplicate by assumption.
      split; [reflexivity |]. split; [| reflexivity]. repeat split.
    + destruct (dict_get (__characteristics st)
                  (Handle (BleakGATTDescriptor.characteristic_handle st d)))
        as [c |] eqn:Hparent.
      * now rewrite (add_descriptor_linked st d c Hdup Hparent).
      * rewrite add_descriptor_orphan;
          [reflexivity | assumption | now apply dict_contains_false].
Qed.

(** ** The empty collection *)

(** X5: in a collection that has just been constructed every lookup returns
    [None] and none raises, for an integer handle as for a UUID:
    [get_service], [get_characteristic], [get_descriptor] and the combined
    lookup; iterating it yields nothing. *)
Theorem lookups_on_empty_collection :
  forall (svc : ref -> ServiceObj) (chr : ref -> CharacteristicObj)
    (dsc : ref -> DescriptorObj) (x : Specifier),
    let st := BleakGATTServiceCollection.init svc chr dsc in
    result_of (BleakGATTServiceCollection.get_service x) st = Return None /\
    result_of (BleakGATTServiceCollection.get_characteristic x) st
    = Return None /\
    result_of (BleakGATTServiceCollection.get_descriptor x) st = Return None /\
    result_of (BleakGATTServiceCollection.getitem x) st = Return None /\
    BleakGATTServiceCollection.iter st = [].
Proof.
  intros svc chr dsc x st. subst st.
  destruct x as [h | u]; repeat split.
Qed.

(** ** Keys and handles in a populated collection *)

Lemma dict_get_none_keys (d : dict) (k : Z) :
  dict_get d (Handle k) = None <-> ~ In k (dict_keys d).
Proof.
  induction d as [| [k0 v0] rest IH]; simpl.
  - split; [intros _ [] | reflexivity].
  - destruct (Z.eqb_spec k0 k) as [-> | Hne]; split.
    + discriminate.
    + intros H. exfalso. apply H. now left.
    + intros H [Heq | Hin]; [congruence | now apply IH].
    + intros H. apply IH. intros Hin. apply H. now right.
Qed.

Lemma dict_keys_snoc_nodup (d : dict) (k : Z) (v : ref) :
  NoDup (dict_keys d) ->
  dict_get d (Handle k) = None ->
  NoDup (dict_keys (d ++ [(k, v)])).
Proof.
  intros Hnd Hnew. unfold dict_keys. rewrite map_app. simpl.
  apply NoDup_app.
  - exact Hnd.
  - constructor; [intros [] | constructor].
  - intros a Ha [<- | []]. now apply dict_get_none_keys in Hnew.
Qed.

Lemma dict_keys_step_nodup (d : dict) (k : Z) (v : ref) :
  NoDup (dict_keys d) ->
  NoDup (dict_keys (if dict_contains d k then d else d ++ [(k, v)])).
Proof.
  intros Hnd. destruct (dict_contains d k) eqn:Hdup; [exact Hnd |].
  apply dict_keys_snoc_nodup; [exact Hnd | now apply dict_contains_false].
Qed.

(** With distinct keys every item is what a lookup of its key returns. *)
Lemma dict_get_of_item (d : dict) (k : Z) (v : ref) :
  NoDup (dict_keys d) -> In (k, v) d -> dict_get d (Handle k) = Some v.
Proof.
  induction d as [| [k0 v0] rest IH]; simpl; intros Hnd Hin; [destruct Hin |].
  apply NoDup_cons_iff in Hnd. destruct Hnd as [Hfresh Hnd].
  destruct Hin as [Heq | Hin].
  - injection Heq as -> ->. now rewrite Z.eqb_refl.
  - destruct (Z.eqb_spec k0 k) as [-> | Hne]; [| now apply IH].
    exfalso. apply Hfresh. change (In (fst (k, v)) (map fst rest)).
    now apply in_map.
Qed.

Lemma dict_values_item (d : dict) (v : ref) :
  In v (dict_values d) -> exists k, In (k, v) d.
Proof.
  unfold dict_values. intros H. apply in_map_iff in H.
  destruct H as ([k v'] & Hv & Hin). simpl in Hv. subst v'. now exists k.
Qed.

Lemma dict_get_item (d : dict) (k : Z) (v : ref) :
  dict_get d (Handle k) = Some v -> In (k, v) d.
Proof.
  induction d as [| [k0 v0] rest IH]; simpl; [discriminate |].
  destruct (Z.eqb_spec k0 k) as [-> | Hne]; intros H.
  - left. congruence.
  - right. now apply IH.
Qed.

Lemma insertion_distinct_keys (st st' : State) :
  insertion st st' ->
  NoDup (dict_keys (__services st)) /\
  NoDup (dict_keys (__characteristics st)) /\
  NoDup (dict_keys (__descriptors st)) ->
  NoDup (dict_keys (__services st')) /\
  NoDup (dict_keys (__characteristics st')) /\
  NoDup (dict_keys (__descriptors st')).
Proof.
  intros [st0 s | st0 c | st0 d] (Hs & Hc & Hd).
  - destruct (add_service_frame st0 s) as (Ec & Ed & _).
    rewrite Ec, Ed, add_service_services.
    split; [now apply dict_keys_step_nodup | now split].
  - destruct (add_characteristic_frame st0 c) as (Es & Ed & _).
    rewrite Es, Ed, add_characteristic_characteristics.
    split; [exact Hs |]. split; [now apply dict_keys_step_nodup | exact Hd].
  - destruct (add_descriptor_frame st0 d) as (Es & Ec & _).
    rewrite Es, Ec, add_descriptor_descriptors.
    split; [exact Hs |]. split; [exact Hc | now apply dict_keys_step_nodup].
Qed.

Lemma populated_distinct_keys (st : State) :
  populated st ->
  NoDup (dict_keys (__services st)) /\
  NoDup (dict_keys (__characteristics st)) /\
  NoDup (dict_keys (__descriptors st)).
Proof.
  induction 1 as [svc chr dsc | st s _ IH _ | st c _ IH | st d _ IH].
  - repeat split; constructor.
  - exact (insertion_distinct_keys _ _ (insertion_service st s) IH).
  - exact (insertion_distinct_keys _ _ (insertion_characteristic st c) IH).
  - exact (insertion_distinct_keys _ _ (insertion_descriptor st d) IH).
Qed.

Lemma insertion_characteristics_by_handle (st st' : State) :
  insertion st st' ->
  characteristics_by_handle st -> characteristics_by_handle st'.
Proof.
  intros Hstep Hinv h c Hget.
  destruct (insertion_identities st st' Hstep) as (_ & Hid & _).
  destruct (Hid c) as (-> & _).
  destruct Hstep as [st0 s | st0 c0 | st0 d].
  - destruct (add_service_frame st0 s) as (Ec & _).
    rewrite Ec in Hget. now apply Hinv.
  - rewrite add_characteristic_characteristics in Hget.
    destruct (dict_contains (__characteristics st0)
                (BleakGATTCharacteristic.handle st0 c0)) eqn:Hdup;
      [now apply Hinv |].
    apply dict_contains_false in Hdup.
    apply dict_get_app_inv in Hget; [| exact Hdup].
    destruct Hget as [[-> ->] | [_ Hget]]; [reflexivity | now apply Hinv].
  - destruct (add_descriptor_frame st0 d) as (_ & Ec & _).
    rewrite Ec in Hget. now apply Hinv.
Qed.

Lemma populated_characteristics_by_handle (st : State) :
  populated st -> characteristics_by_handle st.
Proof.
  induction 1 as [svc chr dsc | st s _ IH _ | st c _ IH | st d _ IH].
  - intros h c H. discriminate H.
  - exact (insertion_characteristics_by_handle _ _
             (insertion_service st s) IH).
  - exact (insertion_characteristics_by_handle _ _
             (insertion_characteristic st c) IH).
  - exact (insertion_characteristics_by_handle _ _
             (insertion_descriptor st d) IH).
Qed.

(** X6: in a populated collection every entity is stored under its own
    handle: the service, characteristic or descriptor that a lookup of the
    handle [h] returns has the handle [h]. *)
Theorem populated_handle_lookup_sound :
  forall (st : State) (h : Z),
    populated st ->
    (forall s,
        result_of (BleakGATTServiceCollection.get_service (Handle h)) st
        = Return (Some s) ->
        BleakGATTService.handle st s = h) /\
    (forall c,
        result_of (BleakGATTServiceCollection.get_characteristic (Handle h)) st
        = Return (Some c) ->
        BleakGATTCharacteristic.handle st c = h) /\
    (forall d,
        result_of (BleakGATTServiceCollection.get_descriptor (Handle h)) st
        = Return (Some d) ->
        BleakGATTDescriptor.handle st d = h).
Proof.
  intros st h Hpop.
  destruct (populated_sound st Hpop) as [Hs _].
  pose proof (populated_characteristics_by_handle st Hpop) as Hc.
  pose proof (populated_by_handle st Hpop) as Hd.
  unfold result_of, BleakGATTServiceCollection.get_service,
    BleakGATTServiceCollection.get_characteristic,
    BleakGATTServiceCollection.get_descriptor,
    BleakGATTServiceCollection.services,
    BleakGATTServiceCollection.characteristics,
    BleakGATTServiceCollection.descriptors, bind, get_state, ret.
  simpl.
  split; [| split]; intros x Hx; injection Hx as Hx.
  - now apply Hs.
  - now apply Hc.
  - now apply Hd.
Qed.

Lemma populated_handle_lookup_sound_witness :
  populated Sample.linked /\
  result_of (BleakGATTServiceCollection.get_service (Handle 1)) Sample.linked
  = Return (Some 0) /\
  BleakGATTService.handle Sample.linked 0 = 1%Z /\
  result_of (BleakGATTServiceCollection.get_characteristic (Handle 10))
    Sample.linked = Return (Some 0) /\
  BleakGATTCharacteristic.handle Sample.linked 0 = 10%Z /\
  result_of (BleakGATTServiceCollection.get_descriptor (Handle 20))
    Sample.linked = Return (Some 0) /\
  BleakGATTDescriptor.handle Sample.linked 0 = 20%Z.
Proof.
  destruct (populated_handle_lookup_sound Sample.linked 1%Z
              sample_linked_populated) as (Hs & _ & _).
  destruct (populated_handle_lookup_sound Sample.linked 10%Z
              sample_linked_populated) as (_ & Hc & _).
  destruct (populated_handle_lookup_sound Sample.linked 20%Z
              sample_linked_populated) as (_ & _ & Hd).
  split; [exact sample_linked_populated |].
  split; [reflexivity |]. split; [exact (Hs 0 eq_refl) |].
  split; [reflexivity |]. split; [exact (Hc 0 eq_refl) |].
  split; [reflexivity |]. exact (Hd 0 eq_refl).
Defined.

(** X7: iterating a populated collection yields no service object twice and
    no two services with one handle. *)
Theorem iteration_without_repetition :
  forall (st : State),
    populated st ->
    NoDup (BleakGATTServiceCollection.iter st) /\
    NoDup (map (BleakGATTService.handle st) (BleakGATTServiceCollection.iter st)).
Proof.
  intros st Hpop.
  destruct (populated_sound st Hpop) as [Hkeys _].
  destruct (populated_distinct_keys st Hpop) as (Hnd & _).
  assert (Hmap : map (BleakGATTService.handle st)
                   (BleakGATTServiceCollection.iter st)
                 = dict_keys (__services st)).
  { unfold BleakGATTServiceCollection.iter,
      BleakGATTServiceCollection.services, dict_values, dict_keys.
    rewrite map_map. apply map_ext_in. intros [k v] Hin. simpl.
    apply Hkeys. now apply dict_get_of_item. }
  split.
  - apply (NoDup_map_inv (BleakGATTService.handle st)). now rewrite Hmap.
  - now rewrite Hmap.
Qed.

Lemma iteration_without_repetition_witness :
  populated Sample.ambiguous /\
  BleakGATTServiceCollection.iter Sample.ambiguous = [0; 1] /\
  NoDup (BleakGATTServiceCollection.iter Sample.ambiguous) /\
  NoDup (map (BleakGATTService.handle Sample.ambiguous)
           (BleakGATTServiceCollection.iter Sample.ambiguous)).
Proof.
  assert (Hpop : populated Sample.ambiguous).
  { apply populated_add_service;
      [exact sample_linked_populated | right; reflexivity]. }
  split; [exact Hpop |]. split; [reflexivity |].
  exact (iteration_without_repetition Sample.ambiguous Hpop).
Defined.

(** ** Lookup by UUID and lookup by handle *)

Lemma collection_get_service_found (st : State) (u : UuidArg) (s : ref) :
  result_of (BleakGATTServiceCollection.get_service (ByUuid u)) st
  = Return (Some s) ->
  In s (dict_values (BleakGATTServiceCollection.services st)) /\
  lower (BleakGATTService.uuid st s) = BleakGATTServiceCollection._specifier u.
Proof.
  unfold result_of, BleakGATTServiceCollection.get_service, bind, get_state,
    ret, raise.
  destruct (Nat.ltb 1 _); simpl; [discriminate |].
  intros H. injection H as H. apply first_or_None_matches in H.
  destruct H as [Hin Hp]. split; [exact Hin |].
  now apply String.eqb_eq.
Qed.

Lemma stored_value_by_handle (d : dict) (handle_of : ref -> Z) (v : ref) :
  NoDup (dict_keys d) ->
  (forall k x, dict_get d (Handle k) = Some x -> handle_of x = k) ->
  In v (dict_values d) ->
  dict_get d (Handle (handle_of v)) = Some v.
Proof.
  intros Hnd Hkeys Hin.
  destruct (dict_values_item d v Hin) as [k Hitem].
  pose proof (dict_get_of_item d k v Hnd Hitem) as Hget.
  now rewrite (Hkeys k v Hget).
Qed.

(** X8: what a lookup by UUID returns in a populated collection is also what
    the lookup by its handle returns.  A service returned by [get_service]
    for a UUID has that UUID up to letter case and normalisation, and
    [get_service] on its handle returns the same service; a characteristic
    returned by [get_characteristic] for a UUID has the lower-cased
    specifier as its UUID string, and [get_characteristic] on its handle
    returns the same characteristic. *)
Theorem uuid_lookup_resolves_by_handle :
  forall (st : State) (u : UuidArg),
    populated st ->
    (forall s,
        result_of (BleakGATTServiceCollection.get_service (ByUuid u)) st
        = Return (Some s) ->
        lower (BleakGATTService.uuid st s)
        = BleakGATTServiceCollection._specifier u /\
        result_of
          (BleakGATTServiceCollection.get_service
             (Handle (BleakGATTService.handle st s))) st
        = Return (Some s)) /\
    (forall c,
        result_of (BleakGATTServiceCollection.get_characteristic (ByUuid u)) st
        = Return (Some c) ->
        BleakGATTCharacteristic.uuid st c = lower (str u) /\
        result_of
          (BleakGATTServiceCollection.get_characteristic
             (Handle (BleakGATTCharacteristic.handle st c))) st
        = Return (Some c)).
Proof.
  intros st u Hpop.
  destruct (populated_sound st Hpop) as [Hs _].
  pose proof (populated_characteristics_by_handle st Hpop) as Hc.
  destruct (populated_distinct_keys st Hpop) as (Hnds & Hndc & _).
  split.
  - intros s Hfound. apply collection_get_service_found in Hfound.
    destruct Hfound as [Hin Huuid]. split; [exact Huuid |].
    unfold result_of, BleakGATTServiceCollection.get_service, bind,
      get_state, ret. simpl. f_equal.
    exact (stored_value_by_handle (__services st)
             (BleakGATTService.handle st) s Hnds Hs Hin).
  - intros c Hfound. apply collection_get_characteristic_found in Hfound.
    destruct Hfound as [Hin Huuid]. split; [exact Huuid |].
    unfold result_of, BleakGATTServiceCollection.get_characteristic, bind,
      get_state, ret. simpl. f_equal.
    exact (stored_value_by_handle (__characteristics st)
             (BleakGATTCharacteristic.handle st) c Hndc Hc Hin).
Qed.

Lemma uuid_lookup_resolves_by_handle_witness :
  populated Sample.upper_case /\
  result_of
    (BleakGATTServiceCollection.get_service (ByUuid (UuidStr "180a")))
    Sample.upper_case = Return (Some 2) /\
  result_of
    (BleakGATTServiceCollection.get_service
       (Handle (BleakGATTService.handle Sample.upper_case 2)))
    Sample.upper_case = Return (Some 2) /\
  result_of
    (BleakGATTServiceCollection.get_characteristic
       (ByUuid (UuidStr Sample.device_name_uuid)))
    Sample.upper_case = Return (Some 0) /\
  result_of
    (BleakGATTServiceCollection.get_characteristic
       (Handle (BleakGATTCharacteristic.handle Sample.upper_case 0)))
    Sample.upper_case = Return (Some 0).
Proof.
  assert (Hpop : populated Sample.upper_case).
  { apply populated_add_characteristic, populated_add_service;
      [exact sample_linked_populated | right; reflexivity]. }
  destruct (uuid_lookup_resolves_by_handle Sample.upper_case
              (UuidStr "180a") Hpop) as (Hs & _).
  destruct (uuid_lookup_resolves_by_handle Sample.upper_case
              (UuidStr Sample.device_name_uuid) Hpop) as (_ & Hc).
  split; [exact Hpop |].
  split; [reflexivity |]. split; [exact (proj2 (Hs 2 eq_refl)) |].
  split; [reflexivity |]. exact (proj2 (Hc 0 eq_refl)).
Defined.

(** Two matches sit under two different keys. *)
Lemma two_matching_items (p : ref -> bool) (d : dict) :
  NoDup (dict_keys d) ->
  1 < List.length (filter p (dict_values d)) ->
  exists k1 v1 k2 v2,
    k1 <> k2 /\ In (k1, v1) d /\ In (k2, v2) d /\
    p v1 = true /\ p v2 = true.
Proof.
  induction d as [| [k v] rest IH]; simpl; intros Hnd Hlen; [lia |].
  apply NoDup_cons_iff in Hnd. destruct Hnd as [Hfresh Hnd].
  destruct (p v) eqn:Hv.
  - simpl in Hlen.
    destruct (filter p (dict_values rest)) as [| v2 tail] eqn:Hf;
      [simpl in Hlen; lia |].
    assert (Hin : In v2 (filter p (dict_values rest)))
      by (rewrite Hf; now left).
    apply filter_In in Hin. destruct Hin as [Hin Hv2].
    destruct (dict_values_item rest v2 Hin) as [k2 Hitem].
    exists k, v, k2, v2. split.
    + intros ->. apply Hfresh. change (In (fst (k2, v2)) (map fst rest)).
      now apply in_map.
    + split; [now left |]. split; [now right |]. now split.
  - destruct (IH Hnd Hlen) as (k1 & v1 & k2 & v2 & Hne & H1 & H2 & Hp).
    exists k1, v1, k2, v2. split; [exact Hne |].
    split; [now right |]. split; [now right | exact Hp].
Qed.

(** X9: the ambiguity error is raised only when the advice of its message
    can be followed.  When [get_service] raises for a UUID in a populated
    collection, two different handles are stored whose services are
    different objects, both with that UUID, and [get_service] on either
    handle returns its service; likewise for [get_characteristic]. *)
Theorem ambiguity_is_resolved_by_handle :
  forall (st : State) (u : UuidArg) (e : Exception),
    populated st ->
    (result_of (BleakGATTServiceCollection.get_service (ByUuid u)) st
     = Raise e ->
     exists h1 h2 s1 s2,
       h1 <> h2 /\ s1 <> s2 /\
       result_of (BleakGATTServiceCollection.get_service (Handle h1)) st
       = Return (Some s1) /\
       result_of (BleakGATTServiceCollection.get_service (Handle h2)) st
       = Return (Some s2) /\
       lower (BleakGATTService.uuid st s1)
       = BleakGATTServiceCollection._specifier u /\
       lower (BleakGATTService.uuid st s2)
       = BleakGATTServiceCollection._specifier u) /\
    (result_of (BleakGATTServiceCollection.get_characteristic (ByUuid u)) st
     = Raise e ->
     exists h1 h2 c1 c2,
       h1 <> h2 /\ c1 <> c2 /\
       result_of (BleakGATTServiceCollection.get_characteristic (Handle h1)) st
       = Return (Some c1) /\
       result_of (BleakGATTServiceCollection.get_characteristic (Handle h2)) st
       = Return (Some c2) /\
       BleakGATTCharacteristic.uuid st c1 = lower (str u) /\
       BleakGATTCharacteristic.uuid st c2 = lower (str u)).
Proof.
  intros st u e Hpop.
  destruct (populated_sound st Hpop) as [Hs _].
  pose proof (populated_characteristics_by_handle st Hpop) as Hc.
  destruct (populated_distinct_keys st Hpop) as (Hnds & Hndc & _).
  split.
  - unfold result_of at 1.
    unfold BleakGATTServiceCollection.get_service at 1.
    unfold bind, get_state, ret, raise.
    destruct (Nat.ltb 1 _) eqn:Hlen; simpl; [intros _ | discriminate].
    apply Nat.ltb_lt in Hlen.
    destruct (two_matching_items _ _ Hnds Hlen)
      as (k1 & v1 & k2 & v2 & Hne & H1 & H2 & Hp1 & Hp2).
    pose proof (dict_get_of_item _ k1 v1 Hnds H1) as G1.
    pose proof (dict_get_of_item _ k2 v2 Hnds H2) as G2.
    exists k1, k2, v1, v2. split; [exact Hne |]. split.
    { intros ->. apply Hne. rewrite <- (Hs k1 v2 G1). now apply Hs. }
    unfold result_of, BleakGATTServiceCollection.get_service,
      BleakGATTServiceCollection.services, bind, get_state, ret. simpl.
    rewrite G1, G2. split; [reflexivity |]. split; [reflexivity |].
    split; now apply String.eqb_eq.
  - unfold result_of at 1.
    unfold BleakGATTServiceCollection.get_characteristic at 1.
    unfold bind, get_state, ret, raise.
    destruct (Nat.ltb 1 _) eqn:Hlen; simpl; [intros _ | discriminate].
    apply Nat.ltb_lt in Hlen.
    destruct (two_matching_items _ _ Hndc Hlen)
      as (k1 & v1 & k2 & v2 & Hne & H1 & H2 & Hp1 & Hp2).
    pose proof (dict_get_of_item _ k1 v1 Hndc H1) as G1.
    pose proof (dict_get_of_item _ k2 v2 Hndc H2) as G2.
    exists k1, k2, v1, v2. split; [exact Hne |]. split.
    { intros ->. apply Hne. rewrite <- (Hc k1 v2 G1). now apply Hc. }
    unfold result_of, BleakGATTServiceCollection.get_characteristic,
      BleakGATTServiceCollection.characteristics, bind, get_state, ret. simpl.
    rewrite G1, G2. split; [reflexivity |]. split; [reflexivity |].
    split; now apply String.eqb_eq.
Qed.

Lemma ambiguity_is_resolved_by_handle_witness :
  populated Sample.ambiguous /\
  exists e,
    result_of (BleakGATTServiceCollection.get_service (ByUuid (UuidStr "1800")))
      Sample.ambiguous = Raise e /\
    exists h1 h2 s1 s2,
      h1 <> h2 /\ s1 <> s2 /\
      result_of (BleakGATTServiceCollection.get_service (Handle h1))
        Sample.ambiguous = Return (Some s1) /\
      result_of (BleakGATTServiceCollection.get_service (Handle h2))
        Sample.ambiguous = Return (Some s2) /\
      lower (BleakGATTService.uuid Sample.ambiguous s1)
      = BleakGATTServiceCollection._specifier (UuidStr "1800") /\
      lower (BleakGATTService.uuid Sample.ambiguous s2)
      = BleakGATTServiceCollection._specifier (UuidStr "1800").
Proof.
  assert (Hpop : populated Sample.ambiguous).
  { apply populated_add_service;
      [exact sample_linked_populated | right; reflexivity]. }
  split; [exact Hpop |].
  eexists. split; [reflexivity |].
  exact (proj1 (ambiguity_is_resolved_by_handle Sample.ambiguous
                  (UuidStr "1800") _ Hpop) eq_refl).
Defined.

(** ** Normal forms of a UUID specifier *)

Lemma len_substring (s : string) :
  forall n m, n + m <= len s -> len (substring n m s) = m.
Proof.
  unfold len. induction s as [| c s IH]; intros n m H; simpl in H.
  - assert (n = 0) by lia. assert (m = 0) by lia. subst. reflexivity.
  - destruct n as [| n]; simpl.
    + destruct m as [| m]; [reflexivity |]. simpl. f_equal.
      apply IH. lia.
    + apply IH. lia.
Qed.

Lemma len_hex_fixed (width : nat) :
  forall n acc, len (hex_fixed width n acc) = width + len acc.
Proof.
  unfold len. induction width as [| w IH]; intros n acc; simpl;
    [reflexivity |].
  rewrite IH. simpl. lia.
Qed.

(** [str] of a [UUID] object has 36 characters. *)
Lemma len_uuid_to_str (n : N) : len (uuid_to_str n) = 36.
Proof.
  unfold uuid_to_str.
  assert (Hhex : len (hex_fixed 32 n "") = 32)
    by (rewrite len_hex_fixed; reflexivity).
  rewrite !len_append.
  rewrite !len_substring by (rewrite Hhex; simpl; lia).
  reflexivity.
Qed.

Lemma normalize_uuid_short (s : string) :
  len s = 4 ->
  normalize_uuid (UuidStr (base_uuid_template s)) = normalize_uuid (UuidStr s).
Proof.
  intros Hlen. unfold normalize_uuid.
  rewrite len_base_uuid_template, Hlen. reflexivity.
Qed.

Lemma normalize_uuid_object (n : N) :
  normalize_uuid (UuidStr (uuid_to_str n)) = normalize_uuid (UuidObj n).
Proof.
  unfold normalize_uuid. now rewrite len_uuid_to_str.
Qed.

(** A string and its lower-cased form have one normal form when lower-casing
    does not make or unmake a string of four characters. *)
Lemma normalize_uuid_case (s : string) :
  Nat.eqb (len (lower s)) 4 = Nat.eqb (len s) 4 ->
  normalize_uuid (UuidStr (lower s)) = normalize_uuid (UuidStr s).
Proof.
  intros Hlen. unfold normalize_uuid. rewrite Hlen.
  destruct (Nat.eqb (len s) 4).
  - now rewrite !lower_base_uuid_template, lower_idempotent.
  - apply lower_idempotent.
Qed.

Lemma specifier_short (s : string) :
  len (lower s) = 4 ->
  BleakGATTServiceCollection._specifier (UuidStr (base_uuid_template s)) =
  BleakGATTServiceCollection._specifier (UuidStr s).
Proof.
  intros Hlen. unfold BleakGATTServiceCollection._specifier. cbn [str].
  rewrite lower_base_uuid_template, len_base_uuid_template, Hlen.
  reflexivity.
Qed.

Lemma specifier_case (s : string) :
  BleakGATTServiceCollection._specifier (UuidStr (lower s)) =
  BleakGATTServiceCollection._specifier (UuidStr s).
Proof.
  unfold BleakGATTServiceCollection._specifier. cbn [str].
  now rewrite lower_idempotent.
Qed.

Lemma specifier_idempotent (u : UuidArg) :
  BleakGATTServiceCollection._specifier
    (UuidStr (BleakGATTServiceCollection._specifier u)) =
  BleakGATTServiceCollection._specifier u.
Proof.
  unfold BleakGATTServiceCollection._specifier at 2.
  cbv zeta.
  destruct (Nat.eqb (len (lower (str u))) 4) eqn:Hlen.
  - unfold BleakGATTServiceCollection._specifier. cbn [str].
    rewrite lower_base_uuid_template, lower_idempotent,
      len_base_uuid_template.
    apply Nat.eqb_eq in Hlen. now rewrite Hlen.
  - unfold BleakGATTServiceCollection._specifier. cbn [str].
    now rewrite lower_idempotent, Hlen.
Qed.

Lemma get_service_by_specifier (st : State) (u u' : UuidArg) :
  BleakGATTServiceCollection._specifier u
  = BleakGATTServiceCollection._specifier u' ->
  BleakGATTServiceCollection.get_service (ByUuid u) st =
  BleakGATTServiceCollection.get_service (ByUuid u') st.
Proof.
  intros H. unfold BleakGATTServiceCollection.get_service, bind, get_state.
  now rewrite H.
Qed.

Lemma service_get_characteristic_by_normal_form (st : State) (self : ref)
    (u u' : UuidArg) :
  normalize_uuid u = normalize_uuid u' ->
  BleakGATTService.get_characteristic self u st =
  BleakGATTService.get_characteristic self u' st.
Proof.
  intros H. rewrite !service_get_characteristic_eq.
  unfold BleakGATTService.uuid_matches.
  now rewrite !expand_short_normalize, H.
Qed.

(** X10: [get_service] does not tell the written forms of one UUID apart.  A
    string whose lower-cased form has four characters and the string it
    expands to, a string and its lower-cased form, a [UUID] object and its
    string, and a specifier and the normalised string computed from it give
    the same outcome in every collection. *)
Theorem get_service_normal_forms :
  forall (st : State),
    (forall s,
        len (lower s) = 4 ->
        BleakGATTServiceCollection.get_service
          (ByUuid (UuidStr (base_uuid_template s))) st =
        BleakGATTServiceCollection.get_service (ByUuid (UuidStr s)) st) /\
    (forall s,
        BleakGATTServiceCollection.get_service (ByUuid (UuidStr (lower s))) st =
        BleakGATTServiceCollection.get_service (ByUuid (UuidStr s)) st) /\
    (forall n,
        BleakGATTServiceCollection.get_service
          (ByUuid (UuidStr (uuid_to_str n))) st =
        BleakGATTServiceCollection.get_service (ByUuid (UuidObj n)) st) /\
    (forall u,
        BleakGATTServiceCollection.get_service
          (ByUuid (UuidStr (BleakGATTServiceCollection._specifier u))) st =
        BleakGATTServiceCollection.get_service (ByUuid u) st).
Proof.
  intros st. split; [| split; [| split]].
  - intros s Hlen. apply get_service_by_specifier. now apply specifier_short.
  - intros s. apply get_service_by_specifier. apply specifier_case.
  - intros n. apply get_service_by_specifier. reflexivity.
  - intros u. apply get_service_by_specifier. apply specifier_idempotent.
Qed.

Lemma get_service_normal_forms_witness :
  len (lower "180A") = 4 /\
  BleakGATTServiceCollection.get_service
    (ByUuid (UuidStr (base_uuid_template "180A"))) Sample.upper_case =
  BleakGATTServiceCollection.get_service (ByUuid (UuidStr "180A"))
    Sample.upper_case /\
  result_of (BleakGATTServiceCollection.get_service (ByUuid (UuidStr "180A")))
    Sample.upper_case = Return (Some 2).
Proof.
  split; [reflexivity |]. split; [| reflexivity].
  exact (proj1 (get_service_normal_forms Sample.upper_case) "180A"%string
           eq_refl).
Defined.

(** X11: the two places that normalise a UUID agree when lower-casing does
    not make or unmake a string of four characters.  [get_service]
    lower-cases the specifier and then expands four characters,
    [Service.get_characteristic] expands a four-character string and then
    lower-cases; for a string whose lower-cased form has four characters
    exactly when the string has, and for every [UUID] object, both compare
    the stored UUIDs with the same string. *)
Theorem normalisations_agree :
  forall (u : UuidArg),
    Nat.eqb (len (lower (str u))) 4 = Nat.eqb (len (str u)) 4 ->
    BleakGATTServiceCollection._specifier u =
    lower (str (BleakGATTService.expand_short u)).
Proof.
  intros u Hlen.
  unfold BleakGATTServiceCollection._specifier, BleakGATTService.expand_short.
  rewrite Hlen. destruct u as [s | n]; cbn [is_str str andb].
  - destruct (Nat.eqb (len s) 4); cbn [str]; [| reflexivity].
    symmetry. apply lower_base_uuid_template.
  - now rewrite len_uuid_to_str.
Qed.

Lemma normalisations_agree_witness :
  Nat.eqb (len (lower (str (UuidStr "2A00")))) 4
  = Nat.eqb (len (str (UuidStr "2A00"))) 4 /\
  BleakGATTServiceCollection._specifier (UuidStr "2A00") =
  lower (str (BleakGATTService.expand_short (UuidStr "2A00"))).
Proof.
  split; [reflexivity |].
  exact (normalisations_agree (UuidStr "2A00") eq_refl).
Defined.

(** X12: [Service.get_characteristic] does not tell the written forms of the
    query apart: a string of four characters and the string it expands to, a
    string and its lower-cased form when lower-casing does not make or unmake
    a string of four characters, and a [UUID] object and its string give the
    same outcome for every service. *)
Theorem service_get_characteristic_normal_forms :
  forall (st : State) (self : ref),
    (forall s,
        len s = 4 ->
        BleakGATTService.get_characteristic self
          (UuidStr (base_uuid_template s)) st =
        BleakGATTService.get_characteristic self (UuidStr s) st) /\
    (forall s,
        Nat.eqb (len (lower s)) 4 = Nat.eqb (len s) 4 ->
        BleakGATTService.get_characteristic self (UuidStr (lower s)) st =
        BleakGATTService.get_characteristic self (UuidStr s) st) /\
    (forall n,
        BleakGATTService.get_characteristic self (UuidStr (uuid_to_str n)) st =
        BleakGATTService.get_characteristic self (UuidObj n) st).
Proof.
  intros st self. split; [| split].
  - intros s Hlen. apply service_get_characteristic_by_normal_form.
    now apply normalize_uuid_short.
  - intros s Hlen. apply service_get_characteristic_by_normal_form.
    now apply normalize_uuid_case.
  - intros n. apply service_get_characteristic_by_normal_form.
    apply normalize_uuid_object.
Qed.

Lemma service_get_characteristic_normal_forms_witness :
  len "2a00" = 4 /\
  BleakGATTService.get_characteristic 0 (UuidStr (base_uuid_template "2a00"))
    Sample.twins =
  BleakGATTService.get_characteristic 0 (UuidStr "2a00") Sample.twins /\
  Nat.eqb (len (lower "2A00")) 4 = Nat.eqb (len "2A00") 4 /\
  BleakGATTService.get_characteristic 0 (UuidStr (lower "2A00")) Sample.twins =
  BleakGATTService.get_characteristic 0 (UuidStr "2A00") Sample.twins.
Proof.
  destruct (service_get_characteristic_normal_forms Sample.twins 0)
    as (Hshort & Hcase & _).
  split; [reflexivity |].
  split; [exact (Hshort "2a00"%string eq_refl) |].
  split; [reflexivity |].
  exact (Hcase "2A00"%string eq_refl).
Defined.

(** ** The parent of a characteristic found by UUID *)

Lemma collection_get_characteristic_unique (st : State) (u : UuidArg)
    (c x : ref) :
  result_of (BleakGATTServiceCollection.get_characteristic (ByUuid u)) st
  = Return (Some c) ->
  In x (dict_values (BleakGATTServiceCollection.characteristics st)) ->
  BleakGATTCharacteristic.uuid st x = lower (str u) ->
  x = c.
Proof.
  unfold result_of, BleakGATTServiceCollection.get_characteristic, bind,
    get_state, ret, raise.
  destruct (Nat.ltb 1 _) eqn:Hlen; simpl; [discriminate |].
  intros H Hin Hx. injection H as H.
  apply Nat.ltb_ge in Hlen.
  assert (Hmem : In x
                   (filter
                      (BleakGATTServiceCollection.characteristic_uuid_matches
                         st u)
                      (dict_values
                         (BleakGATTServiceCollection.characteristics st)))).
  { apply filter_In. split; [exact Hin |]. now apply String.eqb_eq. }
  destruct (filter _ _) as [| y [| z rest]]; simpl in *.
  - destruct Hmem.
  - injection H as ->. destruct Hmem as [<- | []]. reflexivity.
  - lia.
Qed.

(** X13: where the two views agree, the collection and the parent service
    find the same characteristic.  In a populated collection whose views
    agree, when [get_characteristic] of the collection returns a
    characteristic for a UUID that is not a four-character string, the
    service stored under its [service_handle] returns the same
    characteristic from its own [get_characteristic] for that UUID. *)
Theorem collection_hit_is_service_hit :
  forall (st : State) (u : UuidArg) (c : ref),
    populated st ->
    views_agree st ->
    BleakGATTService.expand_short u = u ->
    result_of (BleakGATTServiceCollection.get_characteristic (ByUuid u)) st
    = Return (Some c) ->
    exists s,
      result_of
        (BleakGATTServiceCollection.get_service
           (Handle (BleakGATTCharacteristic.service_handle st c))) st
      = Return (Some s) /\
      result_of (BleakGATTService.get_characteristic s u) st
      = Return (Some c).
Proof.
  intros st u c Hpop (_ & Hreg & Hlink) Hlong Hfound.
  destruct (populated_distinct_keys st Hpop) as (_ & Hndc & _).
  pose proof (populated_characteristics_by_handle st Hpop) as Hbyh.
  destruct (collection_get_characteristic_found st u c Hfound)
    as [Hin Huuid].
  pose proof (stored_value_by_handle (__characteristics st)
                (BleakGATTCharacteristic.handle st) c Hndc Hbyh Hin)
    as Hstored.
  destruct (Hlink _ c Hstored) as (_ & s & Hs & Hocc).
  exists s. split.
  { unfold result_of, BleakGATTServiceCollection.get_service, bind,
      get_state, ret. simpl. now f_equal. }
  assert (Hchild : In c (BleakGATTService.characteristics st s)).
  { apply (count_occ_In Nat.eq_dec). unfold occurrences in Hocc.
    rewrite Hocc. lia. }
  assert (Hnorm : normalize_uuid u = lower (str u)).
  { rewrite <- expand_short_normalize. now rewrite Hlong. }
  unfold result_of. rewrite service_get_characteristic_eq. simpl fst.
  destruct (filter _ _) as [| x rest] eqn:Hf.
  - exfalso.
    assert (Hmem : In c
                     (filter
                        (BleakGATTService.uuid_matches st
                           (BleakGATTService.expand_short u))
                        (BleakGATTService.characteristics st s))).
    { apply filter_In. split; [exact Hchild |].
      apply service_uuid_matches_true. now rewrite Hnorm. }
    rewrite Hf in Hmem. destruct Hmem.
  - assert (Hmem : In x
                     (filter
                        (BleakGATTService.uuid_matches st
                           (BleakGATTService.expand_short u))
                        (BleakGATTService.characteristics st s)))
      by (rewrite Hf; now left).
    apply filter_In in Hmem. destruct Hmem as [Hx Hpx].
    apply service_uuid_matches_true in Hpx. rewrite Hnorm in Hpx.
    destruct (Hreg _ s x Hs Hx) as [_ Hxstored].
    assert (Hxin : In x
                     (dict_values
                        (BleakGATTServiceCollection.characteristics st))).
    { unfold dict_values.
      change x with (snd (BleakGATTCharacteristic.handle st x, x)).
      apply in_map. now apply dict_get_item. }
    now rewrite (collection_get_characteristic_unique st u c x Hfound Hxin Hpx).
Qed.

Lemma collection_hit_is_service_hit_witness :
  populated Sample.linked /\
  views_agree Sample.linked /\
  BleakGATTService.expand_short (UuidStr Sample.device_name_uuid)
  = UuidStr Sample.device_name_uuid /\
  result_of
    (BleakGATTServiceCollection.get_characteristic
       (ByUuid (UuidStr Sample.device_name_uuid))) Sample.linked
  = Return (Some 0) /\
  exists s,
    result_of
      (BleakGATTServiceCollection.get_service
         (Handle (BleakGATTCharacteristic.service_handle Sample.linked 0)))
      Sample.linked = Return (Some s) /\
    result_of
      (BleakGATTService.get_characteristic s
         (UuidStr Sample.device_name_uuid)) Sample.linked = Return (Some 0).
Proof.
  split; [exact sample_linked_populated |].
  split; [exact sample_linked_views_agree |].
  split; [reflexivity |]. split; [reflexivity |].
  exact (collection_hit_is_service_hit Sample.linked
           (UuidStr Sample.device_name_uuid) 0 sample_linked_populated
           sample_linked_views_agree eq_refl eq_refl).
Defined.

(** ** Linking a descriptor to its characteristic *)

(** X14: [add_descriptor] of a descriptor with a new handle whose
    characteristic is stored returns normally; afterwards [get_descriptor] on
    the handle returns the descriptor, it is the last element of the
    descriptor list of that characteristic object, the descriptor lists of
    all other characteristics and the child lists of all services are as
    before, and nothing is logged. *)
Theorem add_descriptor_links_child :
  forall (st : State) (d c : ref),
    dict_contains (__descriptors st) (BleakGATTDescriptor.handle st d) = false ->
    dict_get (__characteristics st)
      (Handle (BleakGATTDescriptor.characteristic_handle st d)) = Some c ->
    let st' := state_after (BleakGATTServiceCollection.add_descriptor d) st in
    result_of (BleakGATTServiceCollection.add_descriptor d) st = Return tt /\
    result_of
      (BleakGATTServiceCollection.get_descriptor
         (Handle (BleakGATTDescriptor.handle st d))) st' = Return (Some d) /\
    BleakGATTCharacteristic.descriptors st' c =
    BleakGATTCharacteristic.descriptors st c ++ [d] /\
    (forall x,
        x <> c ->
        BleakGATTCharacteristic.descriptors st' x =
        BleakGATTCharacteristic.descriptors st x) /\
    (forall s,
        BleakGATTService.characteristics st' s =
        BleakGATTService.characteristics st s) /\
    logged st' = logged st.
Proof.
  intros st d c Hnew Hparent st'. subst st'.
  unfold result_of, state_after.
  rewrite (add_descriptor_linked_state st d c Hnew Hparent). simpl.
  apply dict_contains_false in Hnew.
  split; [reflexivity |]. split.
  { unfold BleakGATTServiceCollection.get_descriptor,
      BleakGATTServiceCollection.descriptors, bind, get_state, ret. simpl.
    now rewrite dict_get_app_new. }
  unfold BleakGATTCharacteristic.descriptors, descriptor_linked_state. simpl.
  split; [now rewrite store_set_same |].
  split; [| split; [intros s |]; reflexivity].
  intros x Hne. now rewrite store_set_other.
Qed.

Lemma add_descriptor_links_child_witness :
  dict_contains (__descriptors Sample.without_descriptor)
    (BleakGATTDescriptor.handle Sample.without_descriptor 0) = false /\
  dict_get (__characteristics Sample.without_descriptor)
    (Handle (BleakGATTDescriptor.characteristic_handle
               Sample.without_descriptor 0)) = Some 0 /\
  result_of (BleakGATTServiceCollection.add_descriptor 0)
    Sample.without_descriptor = Return tt /\
  result_of (BleakGATTServiceCollection.get_descriptor (Handle 20))
    Sample.linked = Return (Some 0) /\
  BleakGATTCharacteristic.descriptors Sample.linked 0 = [0].
Proof.
  destruct (add_descriptor_links_child Sample.without_descriptor 0 0
              eq_refl eq_refl) as (Hr & Hget & Hlist & _).
  split; [reflexivity |]. split; [reflexivity |].
  split; [exact Hr |]. split; [exact Hget | exact Hlist].
Defined.

(** ** The combined lookup by handle and by UUID *)

Lemma getitem_handle_eq (st : State) (h : Z) :
  result_of (BleakGATTServiceCollection.getitem (Handle h)) st =
  match dict_get (__services st) (Handle h) with
  | Some s => Return (Some (AService s))
  | None =>
      match dict_get (__characteristics st) (Handle h) with
      | Some c => Return (Some (ACharacteristic c))
      | None =>
          Return (option_map ADescriptor (dict_get (__descriptors st) (Handle h)))
      end
  end.
Proof.
  cbv [result_of BleakGATTServiceCollection.getitem py_or
         BleakGATTServiceCollection.get_service
         BleakGATTServiceCollection.get_characteristic
         BleakGATTServiceCollection.get_descriptor
         BleakGATTServiceCollection.services
         BleakGATTServiceCollection.characteristics
         BleakGATTServiceCollection.descriptors
         bind get_state ret fst].
  destruct (dict_get (__services st) (Handle h)); cbn; [reflexivity |].
  destruct (dict_get (__characteristics st) (Handle h)); reflexivity.
Qed.

(** X15: the combined lookup with an integer handle never raises, and it
    returns [None] exactly when the handle is a key of none of the three
    dictionaries; with a UUID it never returns a descriptor. *)
Theorem getitem_by_handle :
  forall (st : State),
    (forall h e,
        result_of (BleakGATTServiceCollection.getitem (Handle h)) st
        <> Raise e) /\
    (forall h,
        result_of (BleakGATTServiceCollection.getitem (Handle h)) st
        = Return None <->
        dict_contains (__services st) h = false /\
        dict_contains (__characteristics st) h = false /\
        dict_contains (__descriptors st) h = false) /\
    (forall u d,
        result_of (BleakGATTServiceCollection.getitem (ByUuid u)) st
        <> Return (Some (ADescriptor d))).
Proof.
  intros st. split; [| split].
  - intros h e. rewrite getitem_handle_eq.
    destruct (dict_get (__services st) (Handle h)); [discriminate |].
    destruct (dict_get (__characteristics st) (Handle h)); discriminate.
  - intros h. rewrite getitem_handle_eq. unfold dict_contains.
    destruct (dict_get (__services st) (Handle h)).
    { split; [discriminate | intros (H & _); discriminate]. }
    destruct (dict_get (__characteristics st) (Handle h)).
    { split; [discriminate | intros (_ & H & _); discriminate]. }
    destruct (dict_get (__descriptors st) (Handle h)); simpl.
    { split; [discriminate | intros (_ & _ & H); discriminate]. }
    split; [now intros _ | reflexivity].
  - intros u d.
    unfold result_of, BleakGATTServiceCollection.getitem, py_or.
    unfold bind at 1. unfold bind at 1.
    destruct (BleakGATTServiceCollection.get_service (ByUuid u) st)
      as [[[s |] | e] st1]; simpl; try discriminate.
    unfold bind at 1. unfold bind at 1.
    destruct (BleakGATTServiceCollection.get_characteristic (ByUuid u) st1)
      as [[[c |] | e] st2]; simpl; try discriminate.
    unfold BleakGATTServiceCollection.get_descriptor,
      BleakGATTServiceCollection.descriptors, bind, get_state, ret. simpl.
    rewrite dict_get_uuid_probe. discriminate.
Qed.

(** ** The child lists of a populated collection *)

(** X16: in a populated collection the child lists only hold registered
    characteristics: a characteristic in the [characteristics] of the
    service that [get_service] returns for a handle names that handle as its
    [service_handle], and [get_characteristic] on its own handle returns
    it. *)
Theorem populated_children_are_registered :
  forall (st : State) (hs : Z) (s c : ref),
    populated st ->
    result_of (BleakGATTServiceCollection.get_service (Handle hs)) st
    = Return (Some s) ->
    In c (BleakGATTService.characteristics st s) ->
    BleakGATTCharacteristic.service_handle st c = hs /\
    result_of
      (BleakGATTServiceCollection.get_characteristic
         (Handle (BleakGATTCharacteristic.handle st c))) st
    = Return (Some c).
Proof.
  intros st hs s c Hpop Hs Hin.
  destruct (populated_sound st Hpop) as [_ Hreg].
  unfold result_of, BleakGATTServiceCollection.get_service,
    BleakGATTServiceCollection.services, bind, get_state, ret in Hs.
  simpl in Hs. injection Hs as Hs.
  destruct (Hreg hs s c Hs Hin) as [Hparent Hstored].
  split; [exact Hparent |].
  unfold result_of, BleakGATTServiceCollection.get_characteristic,
    BleakGATTServiceCollection.characteristics, bind, get_state, ret.
  simpl. now f_equal.
Qed.

Lemma populated_children_are_registered_witness :
  populated Sample.twins /\
  result_of (BleakGATTServiceCollection.get_service (Handle 1)) Sample.twins
  = Return (Some 0) /\
  In 4 (BleakGATTService.characteristics Sample.twins 0) /\
  BleakGATTCharacteristic.service_handle Sample.twins 4 = 1%Z /\
  result_of
    (BleakGATTServiceCollection.get_characteristic
       (Handle (BleakGATTCharacteristic.handle Sample.twins 4))) Sample.twins
  = Return (Some 4).
Proof.
  assert (Hpop : populated Sample.twins)
    by (apply populated_add_characteristic; exact sample_linked_populated).
  assert (Hin : In 4 (BleakGATTService.characteristics Sample.twins 0))
    by (right; left; reflexivity).
  split; [exact Hpop |]. split; [reflexivity |]. split; [exact Hin |].
  exact (populated_children_are_registered Sample.twins 1%Z 0 4 Hpop
           eq_refl Hin).
Defined.

(** X17: the duplicate guard of the collection keeps the child lists free of
    repetitions: in a populated collection no characteristic occurs twice in
    the [characteristics] of a stored service. *)
Theorem child_lists_without_repetition :
  forall (st : State) (hs : Z) (s : ref),
    populated st ->
    result_of (BleakGATTServiceCollection.get_service (Handle hs)) st
    = Return (Some s) ->
    NoDup (BleakGATTService.characteristics st s).
Proof.
  intros st hs s Hpop Hs.
  unfold result_of, BleakGATTServiceCollection.get_service,
    BleakGATTServiceCollection.services, bind, get_state, ret in Hs.
  simpl in Hs. injection Hs as Hs.
  revert hs s Hs.
  induction Hpop as [svc chr dsc | st s0 Hpop IH Hfresh
                    | st c Hpop IH | st d Hpop IH]; intros hs s Hs.
  - discriminate Hs.
  - destruct (add_service_frame st s0) as (_ & _ & Hobjs & _).
    unfold BleakGATTService.characteristics. rewrite Hobjs.
    rewrite add_service_services in Hs.
    destruct (dict_contains (__services st) (BleakGATTService.handle st s0))
      eqn:Hdup; [exact (IH hs s Hs) |].
    destruct Hfresh as [Hfresh | Hempty]; [discriminate |].
    apply dict_contains_false in Hdup.
    apply dict_get_app_inv in Hs; [| exact Hdup].
    destruct Hs as [[-> ->] | [_ Hs]]; [| exact (IH hs s Hs)].
    change (NoDup (BleakGATTService.characteristics st s0)).
    rewrite Hempty. constructor.
  - destruct (populated_sound st Hpop) as [_ Hreg].
    destruct (add_characteristic_frame st c) as (Hserv & _).
    rewrite Hserv in Hs. specialize (IH hs s Hs).
    unfold state_after.
    destruct (dict_contains (__characteristics st)
                (BleakGATTCharacteristic.handle st c)) eqn:Hdup.
    + rewrite add_characteristic_duplicate by assumption. exact IH.
    + pose proof (proj1 (dict_contains_false _ _) Hdup) as Hnew.
      destruct (dict_get (__services st)
                  (Handle (BleakGATTCharacteristic.service_handle st c)))
        as [s1 |] eqn:Hparent.
      * rewrite (add_characteristic_linked st c s1 Hdup Hparent). simpl.
        destruct (Nat.eq_dec s s1) as [-> | Hne];
          [| now rewrite linked_state_other].
        rewrite linked_state_parent. apply NoDup_app.
        -- exact IH.
        -- constructor; [intros [] | constructor].
        -- intros a Ha [<- | []].
           destruct (Hreg _ s1 c Hparent Ha) as [_ Hstored]. congruence.
      * rewrite add_characteristic_orphan;
          [exact IH | assumption | now apply dict_contains_false].
  - destruct (add_descriptor_frame st d) as (Hserv & _ & Hobjs & _).
    rewrite Hserv in Hs.
    unfold BleakGATTService.characteristics. rewrite Hobjs.
    exact (IH hs s Hs).
Qed.

Lemma child_lists_without_repetition_witness :
  populated Sample.twins /\
  result_of (BleakGATTServiceCollection.get_service (Handle 1)) Sample.twins
  = Return (Some 0) /\
  BleakGATTService.characteristics Sample.twins 0 = [0; 4] /\
  NoDup (BleakGATTService.characteristics Sample.twins 0).
Proof.
  assert (Hpop : populated Sample.twins)
    by (apply populated_add_characteristic; exact sample_linked_populated).
  split; [exact Hpop |]. split; [reflexivity |]. split; [reflexivity |].
  exact (child_lists_without_repetition Sample.twins 1%Z 0 Hpop eq_refl).
Defined.

(** ** Lookup by handle after an insertion *)

Lemma dict_get_step (d : dict) (k h : Z) (v : ref) :
  dict_get (if dict_contains d k then d else d ++ [(k, v)]) (Handle h) =
  match dict_get d (Handle h) with
  | Some x => Some x
  | None => if Z.eqb k h then Some v else None
  end.
Proof.
  destruct (dict_contains d k) eqn:Hdup.
  - destruct (dict_get d (Handle h)) as [x |] eqn:Hget; [reflexivity |].
    destruct (Z.eqb_spec k h) as [-> | Hne]; [| reflexivity].
    apply dict_contains_true in Hdup. destruct Hdup as [y Hy]. congruence.
  - apply dict_contains_false in Hdup.
    destruct (Z.eqb_spec k h) as [<- | Hne].
    + rewrite dict_get_app_new by assumption. now rewrite Hdup.
    + rewrite dict_get_app_other by congruence.
      now destruct (dict_get d (Handle h)).
Qed.

Lemma result_of_option (o : option ref) (k h : Z) (v : ref) :
  @Return (option ref)
    match o with
    | Some x => Some x
    | None => if Z.eqb k h then Some v else None
    end =
  match o with
  | Some x => Return (Some x)
  | None => if Z.eqb k h then Return (Some v) else Return None
  end.
Proof. destruct o; [reflexivity |]. now destruct (Z.eqb k h). Qed.

(** X18: what a lookup by handle returns after an insertion of its kind.
    After [add_service], [get_service] on a handle returns the service that
    was stored under it before, if there was one; otherwise the added
    service, if the handle is its handle; otherwise [None].  The same holds
    for [get_characteristic] after [add_characteristic] and for
    [get_descriptor] after [add_descriptor], whether the parent was found or
    not. *)
Theorem handle_lookup_after_insertion :
  forall (st : State) (h : Z),
    (forall s,
        result_of (BleakGATTServiceCollection.get_service (Handle h))
          (state_after (BleakGATTServiceCollection.add_service s) st) =
        match dict_get (BleakGATTServiceCollection.services st) (Handle h) with
        | Some x => Return (Some x)
        | None =>
            if Z.eqb (BleakGATTService.handle st s) h
            then Return (Some s) else Return None
        end) /\
    (forall c,
        result_of (BleakGATTServiceCollection.get_characteristic (Handle h))
          (state_after (BleakGATTServiceCollection.add_characteristic c) st) =
        match
          dict_get (BleakGATTServiceCollection.characteristics st) (Handle h)
        with
        | Some x => Return (Some x)
        | None =>
            if Z.eqb (BleakGATTCharacteristic.handle st c) h
            then Return (Some c) else Return None
        end) /\
    (forall d,
        result_of (BleakGATTServiceCollection.get_descriptor (Handle h))
          (state_after (BleakGATTServiceCollection.add_descriptor d) st) =
        match
          dict_get (BleakGATTServiceCollection.descriptors st) (Handle h)
        with
        | Some x => Return (Some x)
        | None =>
            if Z.eqb (BleakGATTDescriptor.handle st d) h
            then Return (Some d) else Return None
        end).
Proof.
  intros st h.
  unfold result_of, BleakGATTServiceCollection.get_service,
    BleakGATTServiceCollection.get_characteristic,
    BleakGATTServiceCollection.get_descriptor,
    BleakGATTServiceCollection.services,
    BleakGATTServiceCollection.characteristics,
    BleakGATTServiceCollection.descriptors, bind, get_state, ret.
  simpl.
  split; [| split].
  - intros s. rewrite add_service_services, dict_get_step.
    apply result_of_option.
  - intros c. rewrite add_characteristic_characteristics, dict_get_step.
    apply result_of_option.
  - intros d. rewrite add_descriptor_descriptors, dict_get_step.
    apply result_of_option.
Qed.

(** X19: lookup by handle does not depend on the order of two insertions.
    When two services have different handles, [get_service] on any handle
    returns the same after adding them in either order; it is the same for
    two characteristics and [get_characteristic], and for two descriptors
    and [get_descriptor].  (The order of iteration does depend on it.) *)
Theorem handle_lookup_order_independent :
  forall (st : State) (h : Z),
    (forall s1 s2,
        BleakGATTService.handle st s1 <> BleakGATTService.handle st s2 ->
        result_of (BleakGATTServiceCollection.get_service (Handle h))
          (state_after (BleakGATTServiceCollection.add_service s2)
             (state_after (BleakGATTServiceCollection.add_service s1) st)) =
        result_of (BleakGATTServiceCollection.get_service (Handle h))
          (state_after (BleakGATTServiceCollection.add_service s1)
             (state_after (BleakGATTServiceCollection.add_service s2) st))) /\
    (forall c1 c2,
        BleakGATTCharacteristic.handle st c1
        <> BleakGATTCharacteristic.handle st c2 ->
        result_of (BleakGATTServiceCollection.get_characteristic (Handle h))
          (state_after (BleakGATTServiceCollection.add_characteristic c2)
             (state_after (BleakGATTServiceCollection.add_characteristic c1)
                st)) =
        result_of (BleakGATTServiceCollection.get_characteristic (Handle h))
          (state_after (BleakGATTServiceCollection.add_characteristic c1)
             (state_after (BleakGATTServiceCollection.add_characteristic c2)
                st))) /\
    (forall d1 d2,
        BleakGATTDescriptor.handle st d1 <> BleakGATTDescriptor.handle st d2 ->
        result_of (BleakGATTServiceCollection.get_descriptor (Handle h))
          (state_after (BleakGATTServiceCollection.add_descriptor d2)
             (state_after (BleakGATTServiceCollection.add_descriptor d1) st)) =
        result_of (BleakGATTServiceCollection.get_descriptor (Handle h))
          (state_after (BleakGATTServiceCollection.add_descriptor d1)
             (state_after (BleakGATTServiceCollection.add_descriptor d2) st))).
Proof.
  intros st h.
  assert (Hcomm : forall (d : dict) (k1 k2 : Z) (v1 v2 : ref),
             k1 <> k2 ->
             match
               match dict_get d (Handle h) with
               | Some x => Some x
               | None => if Z.eqb k1 h then Some v1 else None
               end
             with
             | Some x => Some x
             | None => if Z.eqb k2 h then Some v2 else None
             end =
             match
               match dict_get d (Handle h) with
               | Some x => Some x
               | None => if Z.eqb k2 h then Some v2 else None
               end
             with
             | Some x => Some x
             | None => if Z.eqb k1 h then Some v1 else None
             end).
  { intros d k1 k2 v1 v2 Hne.
    destruct (dict_get d (Handle h)); [reflexivity |].
    destruct (Z.eqb_spec k1 h), (Z.eqb_spec k2 h); congruence. }
  unfold result_of, BleakGATTServiceCollection.get_service,
    BleakGATTServiceCollection.get_characteristic,
    BleakGATTServiceCollection.get_descriptor,
    BleakGATTServiceCollection.services,
    BleakGATTServiceCollection.characteristics,
    BleakGATTServiceCollection.descriptors, bind, get_state, ret.
  simpl.
  split; [| split].
  - intros s1 s2 Hne. f_equal.
    rewrite !add_service_services, !dict_get_step.
    destruct (add_service_identities st s1) as (H1 & _).
    destruct (add_service_identities st s2) as (H2 & _).
    rewrite (proj1 (H1 s2)), (proj1 (H2 s1)). now apply Hcomm.
  - intros c1 c2 Hne. f_equal.
    rewrite !add_characteristic_characteristics, !dict_get_step.
    destruct (add_characteristic_identities st c1) as (_ & H1 & _).
    destruct (add_characteristic_identities st c2) as (_ & H2 & _).
    rewrite (proj1 (H1 c2)), (proj1 (H2 c1)). now apply Hcomm.
  - intros d1 d2 Hne. f_equal.
    rewrite !add_descriptor_descriptors, !dict_get_step.
    destruct (add_descriptor_identities st d1) as (_ & _ & H1).
    destruct (add_descriptor_identities st d2) as (_ & _ & H2).
    unfold BleakGATTDescriptor.handle in *.
    rewrite (H1 d2), (H2 d1). now apply Hcomm.
Qed.

Lemma handle_lookup_order_independent_witness :
  BleakGATTService.handle Sample.empty 2 <> BleakGATTService.handle Sample.empty 0
  /\
  result_of (BleakGATTServiceCollection.get_service (Handle 3))
    (state_after (BleakGATTServiceCollection.add_service 0)
       (state_after (BleakGATTServiceCollection.add_service 2) Sample.empty)) =
  result_of (BleakGATTServiceCollection.get_service (Handle 3))
    (state_after (BleakGATTServiceCollection.add_service 2)
       (state_after (BleakGATTServiceCollection.add_service 0) Sample.empty))
  /\
  BleakGATTServiceCollection.iter
    (state_after (BleakGATTServiceCollection.add_service 0)
       (state_after (BleakGATTServiceCollection.add_service 2) Sample.empty))
  = [2; 0].
Proof.
  assert (Hne : BleakGATTService.handle Sample.empty 2
                <> BleakGATTService.handle Sample.empty 0) by discriminate.
  split; [exact Hne |]. split; [| reflexivity].
  exact (proj1 (handle_lookup_order_independent Sample.empty 3%Z) 2 0 Hne).
Defined.

(** ** Lookup by UUID after an insertion *)

Lemma filter_snoc_match (p : ref -> bool) (l : list ref) (s : ref) :
  p s = true ->
  (filter p l = [] ->
   Nat.ltb 1 (List.length (filter p (l ++ [s]))) = false /\
   first_or_None (filter p (l ++ [s])) = Some s) /\
  (filter p l <> [] ->
   Nat.ltb 1 (List.length (filter p (l ++ [s]))) = true).
Proof.
  intros Hs. rewrite filter_app. simpl. rewrite Hs. split.
  - intros ->. split; reflexivity.
  - intros Hne. destruct (filter p l) as [| x rest]; [congruence |].
    rewrite length_app. simpl. apply Nat.ltb_lt. lia.
Qed.

(** X20: a stored entity is found by its own UUID as long as that UUID is
    not shared.  After [add_service] of a service with a new handle whose
    lower-cased UUID string does not have four characters, [get_service] with
    the UUID string returns the service when no service stored before has the same
    UUID up to letter case, and raises [BleakError] when one has.  After
    [add_characteristic] of a characteristic with a new handle whose UUID
    string is in lower case, [get_characteristic] with that string returns
    the characteristic when no characteristic stored before has the same
    UUID string, and raises [BleakError] when one has; this does not depend
    on whether the service of the characteristic was found. *)
Theorem lookup_by_own_uuid_after_insertion :
  forall (st : State),
    (forall s,
        dict_contains (__services st) (BleakGATTService.handle st s) = false ->
        len (lower (BleakGATTService.uuid st s)) <> 4 ->
        let st' := state_after (BleakGATTServiceCollection.add_service s) st in
        let u := ByUuid (UuidStr (BleakGATTService.uuid st s)) in
        ((forall x,
             In x (BleakGATTServiceCollection.iter st) ->
             lower (BleakGATTService.uuid st x)
             <> lower (BleakGATTService.uuid st s)) ->
         result_of (BleakGATTServiceCollection.get_service u) st'
         = Return (Some s)) /\
        ((exists x,
             In x (BleakGATTServiceCollection.iter st) /\
             lower (BleakGATTService.uuid st x)
             = lower (BleakGATTService.uuid st s)) ->
         exists msg,
           result_of (BleakGATTServiceCollection.get_service u) st'
           = Raise (BleakError msg))) /\
    (forall c,
        dict_contains (__characteristics st)
          (BleakGATTCharacteristic.handle st c) = false ->
        BleakGATTCharacteristic.uuid st c
        = lower (BleakGATTCharacteristic.uuid st c) ->
        let st' :=
          state_after (BleakGATTServiceCollection.add_characteristic c) st in
        let u := ByUuid (UuidStr (BleakGATTCharacteristic.uuid st c)) in
        ((forall x,
             In x (dict_values (BleakGATTServiceCollection.characteristics st))
             ->
             BleakGATTCharacteristic.uuid st x
             <> BleakGATTCharacteristic.uuid st c) ->
         result_of (BleakGATTServiceCollection.get_characteristic u) st'
         = Return (Some c)) /\
        ((exists x,
             In x (dict_values (BleakGATTServiceCollection.characteristics st))
             /\
             BleakGATTCharacteristic.uuid st x
             = BleakGATTCharacteristic.uuid st c) ->
         exists msg,
           result_of (BleakGATTServiceCollection.get_characteristic u) st'
           = Raise (BleakError msg))).
Proof.
  intros st. split.
  - intros s Hnew Hlen st' u. subst st' u.
    set (p := BleakGATTServiceCollection.service_uuid_matches st
                (BleakGATTServiceCollection._specifier
                   (UuidStr (BleakGATTService.uuid st s)))).
    assert (Hspec : BleakGATTServiceCollection._specifier
                      (UuidStr (BleakGATTService.uuid st s))
                    = lower (BleakGATTService.uuid st s)).
    { unfold BleakGATTServiceCollection._specifier. cbn [str].
      destruct (Nat.eqb_spec (len (lower (BleakGATTService.uuid st s))) 4);
        [contradiction | reflexivity]. }
    assert (Hp : forall x,
               p x = true <->
               lower (BleakGATTService.uuid st x)
               = lower (BleakGATTService.uuid st s)).
    { intros x. unfold p, BleakGATTServiceCollection.service_uuid_matches.
      rewrite Hspec. apply String.eqb_eq. }
    assert (Hps : p s = true) by now apply Hp.
    destruct (filter_snoc_match p (dict_values (__services st)) s Hps)
      as [Hnone Hsome].
    assert (Hrun : forall r,
               result_of
                 (BleakGATTServiceCollection.get_service
                    (ByUuid (UuidStr (BleakGATTService.uuid st s))))
                 (state_after (BleakGATTServiceCollection.add_service s) st)
               = r <->
               (if Nat.ltb 1
                     (List.length
                        (filter p (dict_values (__services st) ++ [s])))
                then
                  Raise
                    (BleakError
                       "Multiple Services with this UUID, refer to your desired service by the `handle` attribute instead.")
                else
                  Return
                    (first_or_None
                       (filter p (dict_values (__services st) ++ [s]))))
               = r).
    { intros r. unfold result_of, state_after.
      rewrite (add_service_new st s Hnew).
      unfold BleakGATTServiceCollection.get_service,
        BleakGATTServiceCollection.services, bind, get_state, ret, raise.
      cbn [snd set___services __services].
      unfold dict_values at 1 2. rewrite map_app. cbn [map snd].
      fold (dict_values (__services st)). fold p.
      destruct (Nat.ltb 1 _); reflexivity. }
    split.
    + intros Hothers. apply Hrun.
      assert (Hnil : filter p (dict_values (__services st)) = []).
      { apply filter_nil_iff. intros x Hx.
        destruct (p x) eqn:Hpx; [| reflexivity].
        apply Hp in Hpx. now apply Hothers in Hx. }
      destruct (Hnone Hnil) as [-> ->]. reflexivity.
    + intros (x & Hx & Hsame). eexists. apply Hrun.
      rewrite Hsome; [reflexivity |].
      intros Hnil.
      assert (Hmem : In x (filter p (dict_values (__services st))))
        by (apply filter_In; split; [exact Hx | now apply Hp]).
      rewrite Hnil in Hmem. destruct Hmem.
  - intros c Hnew Hlower st' u. subst st' u.
    set (p := BleakGATTServiceCollection.characteristic_uuid_matches st
                (UuidStr (BleakGATTCharacteristic.uuid st c))).
    assert (Hp : forall x,
               p x = true <->
               BleakGATTCharacteristic.uuid st x
               = BleakGATTCharacteristic.uuid st c).
    { intros x. unfold p, BleakGATTServiceCollection.characteristic_uuid_matches.
      cbn [str]. rewrite <- Hlower. apply String.eqb_eq. }
    assert (Hps : p c = true) by now apply Hp.
    destruct (filter_snoc_match p (dict_values (__characteristics st)) c Hps)
      as [Hnone Hsome].
    set (st1 := set___characteristics
                  (__characteristics st ++
                     [(BleakGATTCharacteristic.handle st c, c)]) st).
    assert (Hsame : result_of
                      (BleakGATTServiceCollection.get_characteristic
                         (ByUuid (UuidStr (BleakGATTCharacteristic.uuid st c))))
                      (state_after
                         (BleakGATTServiceCollection.add_characteristic c) st)
                    = result_of
                        (BleakGATTServiceCollection.get_characteristic
                           (ByUuid
                              (UuidStr (BleakGATTCharacteristic.uuid st c))))
                        st1).
    { apply get_characteristic_ext.
      - rewrite add_characteristic_characteristics, Hnew. reflexivity.
      - intros r.
        destruct (add_characteristic_identities st c) as (_ & Hid & _).
        destruct (Hid r) as (_ & Huuid & _). exact Huuid. }
    assert (Hrun : result_of
                     (BleakGATTServiceCollection.get_characteristic
                        (ByUuid (UuidStr (BleakGATTCharacteristic.uuid st c))))
                     st1
                   = if Nat.ltb 1
                          (List.length
                             (filter p
                                (dict_values (__characteristics st) ++ [c])))
                     then
                       Raise
                         (BleakError
                            "Multiple Characteristics with this UUID, refer to your desired characteristic by the `handle` attribute instead.")
                     else
                       Return
                         (first_or_None
                            (filter p
                               (dict_values (__characteristics st) ++ [c])))).
    { unfold result_of, BleakGATTServiceCollection.get_characteristic,
        BleakGATTServiceCollection.characteristics, bind, get_state, ret,
        raise, st1.
      cbn [set___characteristics __characteristics].
      unfold dict_values at 1 2. rewrite map_app. cbn [map snd].
      fold (dict_values (__characteristics st)). fold p.
      destruct (Nat.ltb 1 _); reflexivity. }
    rewrite Hsame, Hrun. split.
    + intros Hothers.
      assert (Hnil : filter p (dict_values (__characteristics st)) = []).
      { apply filter_nil_iff. intros x Hx.
        destruct (p x) eqn:Hpx; [| reflexivity].
        apply Hp in Hpx. now apply Hothers in Hx. }
      destruct (Hnone Hnil) as [-> ->]. reflexivity.
    + intros (x & Hx & Heq). eexists.
      rewrite Hsome; [reflexivity |].
      intros Hnil.
      assert (Hmem : In x (filter p (dict_values (__characteristics st))))
        by (apply filter_In; split; [exact Hx | now apply Hp]).
      rewrite Hnil in Hmem. destruct Hmem.
Qed.

Lemma lookup_by_own_uuid_after_insertion_witness :
  (dict_contains (__services Sample.linked)
     (BleakGATTService.handle Sample.linked 2) = false /\
   len (lower (BleakGATTService.uuid Sample.linked 2)) <> 4 /\
   result_of
     (BleakGATTServiceCollection.get_service
        (ByUuid (UuidStr (BleakGATTService.uuid Sample.linked 2))))
     (state_after (BleakGATTServiceCollection.add_service 2) Sample.linked)
   = Return (Some 2))
  /\
  (dict_contains (__services Sample.linked)
     (BleakGATTService.handle Sample.linked 1) = false /\
   exists msg,
     result_of
       (BleakGATTServiceCollection.get_service
          (ByUuid (UuidStr (BleakGATTService.uuid Sample.linked 1))))
       (state_after (BleakGATTServiceCollection.add_service 1) Sample.linked)
     = Raise (BleakError msg))
  /\
  (dict_contains (__characteristics Sample.linked)
     (BleakGATTCharacteristic.handle Sample.linked 3) = false /\
   exists msg,
     result_of
       (BleakGATTServiceCollection.get_characteristic
          (ByUuid (UuidStr (BleakGATTCharacteristic.uuid Sample.linked 3))))
       (state_after (BleakGATTServiceCollection.add_characteristic 3)
          Sample.linked)
     = Raise (BleakError msg)).
Proof.
  destruct (lookup_by_own_uuid_after_insertion Sample.linked) as [Hs Hc].
  assert (Hlen2 : len (lower (BleakGATTService.uuid Sample.linked 2)) <> 4)
    by discriminate.
  assert (Hlen1 : len (lower (BleakGATTService.uuid Sample.linked 1)) <> 4)
    by discriminate.
  split; [| split].
  - split; [reflexivity |]. split; [exact Hlen2 |].
    apply (proj1 (Hs 2 eq_refl Hlen2)).
    intros x [<- | []]. discriminate.
  - split; [reflexivity |].
    apply (proj2 (Hs 1 eq_refl Hlen1)).
    exists 0. split; [now left | reflexivity].
  - split; [reflexivity |].
    apply (proj2 (Hc 3 eq_refl eq_refl)).
    exists 0. split; [now left | reflexivity].
Defined.
